(** * SSC-CGL study bot: review scheduler and quiz sessions

    A shallow embedding of [src/utils/spaced_repetition.py] (class
    [SpacedRepetition]) and [src/utils/quiz_manager.py] (class
    [QuizManager]), together with the two chat handlers of [src/main.py]
    that own the removal and the duplicate check of quiz sessions.

    Conventions of the embedding.
    - Python [int] is [Z].  Python [float] is the exact rational [Q]: the
      scheduler only adds, multiplies, compares and rounds up decimal
      constants.  A float result is the exact one up to binary rounding;
      where a statement fixes a whole number that the code gets by
      rounding a float product up, it is made of every number within
      that rounding of the exact product ([rounds_to]).
    - A [datetime] is a [Z], the number of microseconds since the epoch; a
      [timedelta] is a [Z] number of microseconds.  Dates are not bounded:
      the [OverflowError] of a date past the year 9999 is not modelled,
      so what is stated of a result of the scheduler at an arbitrary
      interval is stated of the calls that return.
    - Every method reads the clock through [datetime.now()]; the reading is
      an explicit argument [now], one per call of a public method.
    - A [dict] whose iteration order is observed is an association list in
      insertion order ([PyDict]).  A progress [dict] with a fixed set of
      keys is a record of [option] fields: [None] is an absent key, so
      [d.get(k, v)] is [default v] and [d[k]] raises [KeyError].
    - A Python exception is the [Raise] constructor of [result]. *)

From Stdlib Require Import ZArith QArith Qabs Qround Qminmax Lqa Lia Sorted
  Permutation.
From stdpp Require Import base list strings.

Open Scope Z_scope.

(** ** Exceptions and the error monad *)

Inductive exn : Type :=
| KeyError (key : string)
| ValueError
| IndexError
| TypeError
| ZeroDivisionError.

Inductive result (A : Type) : Type :=
| Ok (a : A)
| Raise (e : exn).

Arguments Ok {A} a.
Arguments Raise {A} e.

#[global] Instance result_ret : MRet result := fun A a => Ok a.

#[global] Instance result_bind : MBind result := fun A B k m =>
  match m with
  | Ok a => k a
  | Raise e => Raise e
  end.

#[global] Instance result_fmap : FMap result := fun A B f m =>
  match m with
  | Ok a => Ok (f a)
  | Raise e => Raise e
  end.

(** ** Python built-ins used by the two classes *)

(** [l[i]] for an [int] index: negative indices count from the end, an
    index outside [-len, len) raises [IndexError]. *)
Definition py_index {A : Type} (l : list A) (i : Z) : result A :=
  let n := Z.of_nat (length l) in
  let j := if i <? 0 then n + i else i in
  if (j <? 0) || (n <=? j) then Raise IndexError
  else match l !! Z.to_nat j with
       | Some a => Ok a
       | None => Raise IndexError
       end.

(** [l[:m]]: a negative bound drops [-m] elements from the end. *)
Definition py_slice_to {A : Type} (l : list A) (m : Z) : list A :=
  if m <? 0 then take (Z.to_nat (Z.of_nat (length l) + m)) l
  else take (Z.to_nat m) l.

(** [l[-k:]] for a positive literal [k]: the last [k] elements, the whole
    list when it is shorter. *)
Definition py_last {A : Type} (k : nat) (l : list A) : list A :=
  drop (length l - k) l.

(** [l[i] = v]: the same index rule as [l[i]]. *)
Definition py_setitem {A : Type} (l : list A) (i : Z) (v : A)
    : result (list A) :=
  let n := Z.of_nat (length l) in
  let j := if i <? 0 then n + i else i in
  if (j <? 0) || (n <=? j) then Raise IndexError
  else Ok (<[Z.to_nat j := v]> l).

(** [d[k]] on a record field. *)
Definition getitem {A : Type} (key : string) (v : option A) : result A :=
  match v with
  | Some a => Ok a
  | None => Raise (KeyError key)
  end.

(** [sum(l)] over [int]s. *)
Definition py_sum (l : list Z) : Z := fold_right Z.add 0 l.

(** [sum(l)] over [float]s. *)
Definition py_fsum (l : list Q) : Q := fold_right Qplus 0%Q l.

Definition day_us : Z := 86400 * 1000000.

(** [timedelta(days=d)]: the duration in microseconds, rounded to the
    nearest microsecond with ties to even. *)
Definition timedelta_days (d : Q) : Z :=
  let x := (d * inject_Z day_us)%Q in
  let f := Qfloor x in
  match ((x - inject_Z f) ?= 1 # 2)%Q with
  | Lt => f
  | Gt => f + 1
  | Eq => if Z.even f then f else f + 1
  end.

(** [td.days] of a [timedelta]: whole days, rounded towards minus
    infinity. *)
Definition td_days (us : Z) : Z := us / day_us.

(** [td.total_seconds()]. *)
Definition total_seconds (us : Z) : Q := (inject_Z us / inject_Z 1000000)%Q.

(** ** [spaced_repetition.py]: enumerations and records *)

Inductive ItemType : Type :=
| VOCABULARY | IDIOM | GRAMMAR | QUIZ_QUESTION | GENERAL_KNOWLEDGE
| CURRENT_AFFAIRS.

Inductive LearningStage : Type := NEW | LEARNING | REVIEW | MASTERED.

Definition ItemType_value (t : ItemType) : string :=
  match t with
  | VOCABULARY => "vocabulary"
  | IDIOM => "idiom"
  | GRAMMAR => "grammar"
  | QUIZ_QUESTION => "quiz_question"
  | GENERAL_KNOWLEDGE => "general_knowledge"
  | CURRENT_AFFAIRS => "current_affairs"
  end.

Definition LearningStage_value (s : LearningStage) : string :=
  match s with
  | NEW => "new"
  | LEARNING => "learning"
  | REVIEW => "review"
  | MASTERED => "mastered"
  end.

(** [ItemType(v)]: the member with that value, [ValueError] otherwise. *)
Definition ItemType_of_value (v : string) : result ItemType :=
  if String.eqb v "vocabulary" then Ok VOCABULARY
  else if String.eqb v "idiom" then Ok IDIOM
  else if String.eqb v "grammar" then Ok GRAMMAR
  else if String.eqb v "quiz_question" then Ok QUIZ_QUESTION
  else if String.eqb v "general_knowledge" then Ok GENERAL_KNOWLEDGE
  else if String.eqb v "current_affairs" then Ok CURRENT_AFFAIRS
  else Raise ValueError.

(** [LearningStage(v)]. *)
Definition LearningStage_of_value (v : string) : result LearningStage :=
  if String.eqb v "new" then Ok NEW
  else if String.eqb v "learning" then Ok LEARNING
  else if String.eqb v "review" then Ok REVIEW
  else if String.eqb v "mastered" then Ok MASTERED
  else Raise ValueError.

Definition LearningStage_eqb (a b : LearningStage) : bool :=
  match a, b with
  | NEW, NEW | LEARNING, LEARNING | REVIEW, REVIEW | MASTERED, MASTERED => true
  | _, _ => false
  end.

(** The [content] payload of an item: a JSON object, kept as its list of
    key/value pairs. *)
Definition Content : Type := list (string * string).

(** The dictionary returned by [calculate_next_review]. *)
Module NextReview.
Record t : Type := mk {
    next_interval : Q;
    ease_factor : Q;
    repetitions : Z;
    stage : LearningStage;
    next_review_date : Z
  }.
End NextReview.

(** One entry of [review_history]. *)
Module ReviewEntry.
Record t : Type := mk {
    date : Z;
    grade : Z;
    response_time : option Q;
    previous_interval : Q;
    new_interval : Q
  }.
End ReviewEntry.

(** A progress dictionary, one per (user, item). *)
Module Progress.
Record t : Type := mk {
    item_id : option string;
    type : option string;
    content : option Content;
    interval : option Q;
    ease_factor : option Q;
    repetitions : option Z;
    stage : option string;
    next_review_date : option Z;
    created_date : option Z;
    last_review_date : option Z;
    total_reviews : option Z;
    correct_reviews : option Z;
    review_history : option (list ReviewEntry.t);
    difficulty_level : option Q;
    tags : option (list string);
    source : option string
  }.
End Progress.

(** The ranking wrapper built by [get_due_items]. *)
Module ReviewItem.
Record t : Type := mk {
    item_id : string;
    item_type : ItemType;
    content : Content;
    stage : LearningStage;
    priority : Q;
    days_overdue : Z;
    difficulty_score : Q
  }.
End ReviewItem.

(** ** [SpacedRepetition.__init__]: the parameters, never reassigned *)

Definition ease_factor_default : Q := 2.5.
Definition ease_factor_min : Q := 1.3.
Definition grade_threshold : Z := 3.
Definition mastery_threshold : Z := 21.
Definition max_daily_reviews : Z := 50.
Definition learning_steps : list Z := [1; 10].
Definition graduation_interval : Z := 1.
Definition easy_bonus : Q := 1.3.

(** ** [SpacedRepetition.calculate_next_review] *)

(** The SM-2 ease adjustment of the review branch, before clamping. *)
Definition sm2_ease_delta (grade : Z) : Q :=
  (0.1 - inject_Z (5 - grade) * (0.08 + inject_Z (5 - grade) * 0.02))%Q.

Definition calculate_next_review (interval ease_factor : Q)
    (grade repetitions : Z) (item_stage : LearningStage) (now : Z)
    : result NextReview.t :=
  '(new_interval, new_ease_factor, new_repetitions, new_stage) ←
    (if grade <? grade_threshold then
       (* Failed recall - reset to learning phase *)
       '(new_interval, new_stage) ←
         (if LearningStage_eqb item_stage NEW then
            step ← py_index learning_steps 0;
            Ok ((inject_Z step / inject_Z (24 * 60))%Q, LEARNING)
          else Ok (1%Q, LEARNING));
       let new_repetitions := 0 in
       let new_ease_factor := Qmax (ease_factor - 0.2) ease_factor_min in
       Ok (new_interval, new_ease_factor, new_repetitions, new_stage)
     else
       (* Successful recall *)
       let new_repetitions := repetitions + 1 in
       if LearningStage_eqb item_stage NEW then
         step ← py_index learning_steps 0;
         Ok ((inject_Z step / inject_Z (24 * 60))%Q, ease_factor,
             new_repetitions, LEARNING)
       else if LearningStage_eqb item_stage LEARNING then
         '(new_interval, new_stage) ←
           (if Z.of_nat (length learning_steps) <=? new_repetitions then
              Ok (inject_Z graduation_interval, REVIEW)
            else
              step ← py_index learning_steps (new_repetitions - 1);
              Ok ((inject_Z step / inject_Z (24 * 60))%Q, LEARNING));
         Ok (new_interval, ease_factor, new_repetitions, new_stage)
       else
         (* In review phase *)
         let new_interval : Z :=
           if new_repetitions =? 1 then 1
           else if new_repetitions =? 2 then 6
           else Qceiling (interval * ease_factor) in
         (* Apply easy bonus for grade 5 *)
         let new_interval : Z :=
           if grade =? 5 then Qceiling (inject_Z new_interval * easy_bonus)
           else new_interval in
         (* Check for mastery *)
         let new_stage :=
           if mastery_threshold <=? new_interval then MASTERED else REVIEW in
         (* Update ease factor based on grade *)
         let new_ease_factor := (ease_factor + sm2_ease_delta grade)%Q in
         let new_ease_factor := Qmax new_ease_factor ease_factor_min in
         Ok (inject_Z new_interval, new_ease_factor, new_repetitions,
             new_stage));
  Ok (NextReview.mk new_interval new_ease_factor new_repetitions new_stage
        (now + timedelta_days new_interval)).

(** The whole days that the review branch of [calculate_next_review]
    computes: the SM-2 schedule, then the easy bonus rounded up. *)
Definition review_days (interval ease : Q) (grade repetitions : Z) : Z :=
  let days :=
    if repetitions + 1 =? 1 then 1
    else if repetitions + 1 =? 2 then 6
    else Qceiling (interval * ease) in
  if grade =? 5 then Qceiling (inject_Z days * easy_bonus) else days.


(** ** [SpacedRepetition.initialize_item] *)

Definition initialize_item (item_id item_type : string)
    (content : option Content) (now : Z) : Progress.t :=
  {| Progress.item_id := Some item_id;
     Progress.type := Some item_type;
     Progress.content := Some (default [] content);
     Progress.interval := Some 1%Q;
     Progress.ease_factor := Some ease_factor_default;
     Progress.repetitions := Some 0;
     Progress.stage := Some (LearningStage_value NEW);
     Progress.next_review_date := Some now;
     Progress.created_date := Some now;
     Progress.last_review_date := None;
     Progress.total_reviews := Some 0;
     Progress.correct_reviews := Some 0;
     Progress.review_history := Some [];
     Progress.difficulty_level := Some 1%Q;
     Progress.tags := Some [];
     Progress.source := Some "system"%string |}.

(** ** [SpacedRepetition._update_difficulty_level] *)

Definition set_difficulty_level (d : Q) (p : Progress.t) : Progress.t :=
  {| Progress.item_id := Progress.item_id p;
     Progress.type := Progress.type p;
     Progress.content := Progress.content p;
     Progress.interval := Progress.interval p;
     Progress.ease_factor := Progress.ease_factor p;
     Progress.repetitions := Progress.repetitions p;
     Progress.stage := Progress.stage p;
     Progress.next_review_date := Progress.next_review_date p;
     Progress.created_date := Progress.created_date p;
     Progress.last_review_date := Progress.last_review_date p;
     Progress.total_reviews := Progress.total_reviews p;
     Progress.correct_reviews := Progress.correct_reviews p;
     Progress.review_history := Progress.review_history p;
     Progress.difficulty_level := Some d;
     Progress.tags := Progress.tags p;
     Progress.source := Progress.source p |}.

(** The average of the grades of the last five reviews. *)
Definition avg_grade (review_history : list ReviewEntry.t) : Q :=
  let recent_reviews := py_last 5 review_history in
  let recent_grades := map ReviewEntry.grade recent_reviews in
  (inject_Z (py_sum recent_grades)
   / inject_Z (Z.of_nat (length recent_grades)))%Q.

Definition _update_difficulty_level (progress : Progress.t) : Progress.t :=
  let review_history := default [] (Progress.review_history progress) in
  if (length review_history <? 3)%nat then progress
  else
    let avg := avg_grade review_history in
    let level := default 1%Q (Progress.difficulty_level progress) in
    if Qle_bool 4.5 avg then
      set_difficulty_level (Qmax 0.5 (level - 0.1)) progress
    else if negb (Qle_bool 3.0 avg) then
      set_difficulty_level (Qmin 2.0 (level + 0.2)) progress
    else progress.

(** ** [SpacedRepetition.update_progress] *)

Definition update_progress (progress : Progress.t) (grade : Z)
    (response_time : option Q) (now : Z) : result Progress.t :=
  current_stage ←
    LearningStage_of_value
      (default (LearningStage_value NEW) (Progress.stage progress));
  interval ← getitem "interval" (Progress.interval progress);
  ease_factor ← getitem "ease_factor" (Progress.ease_factor progress);
  repetitions ← getitem "repetitions" (Progress.repetitions progress);
  result ←
    calculate_next_review interval ease_factor grade repetitions
      current_stage now;
  (* Add to review history *)
  let review_entry :=
    {| ReviewEntry.date := now;
       ReviewEntry.grade := grade;
       ReviewEntry.response_time := response_time;
       ReviewEntry.previous_interval := interval;
       ReviewEntry.new_interval := NextReview.next_interval result |} in
  let review_history :=
    default [] (Progress.review_history progress) ++ [review_entry] in
  (* Keep only last 20 reviews *)
  let review_history :=
    if (20 <? length review_history)%nat then py_last 20 review_history
    else review_history in
  let progress :=
    {| Progress.item_id := Progress.item_id progress;
       Progress.type := Progress.type progress;
       Progress.content := Progress.content progress;
       Progress.interval := Some (NextReview.next_interval result);
       Progress.ease_factor := Some (NextReview.ease_factor result);
       Progress.repetitions := Some (NextReview.repetitions result);
       Progress.stage :=
         Some (LearningStage_value (NextReview.stage result));
       Progress.next_review_date :=
         Some (NextReview.next_review_date result);
       Progress.created_date := Progress.created_date progress;
       Progress.last_review_date := Some now;
       Progress.total_reviews :=
         Some (default 0 (Progress.total_reviews progress) + 1);
       Progress.correct_reviews :=
         Some (default 0 (Progress.correct_reviews progress)
               + (if grade_threshold <=? grade then 1 else 0));
       Progress.review_history := Some review_history;
       Progress.difficulty_level := Progress.difficulty_level progress;
       Progress.tags := Progress.tags progress;
       Progress.source := Progress.source progress |} in
  (* Update difficulty level based on recent performance *)
  Ok (_update_difficulty_level progress).

(** A review cycle: [update_progress] applied to the record once per
    review, each with its grade and its clock reading. *)
Fixpoint review_cycle (progress : Progress.t) (reviews : list (Z * Z))
    : result Progress.t :=
  match reviews with
  | [] => Ok progress
  | (grade, now) :: rest =>
      progress' ← update_progress progress grade None now;
      review_cycle progress' rest
  end.

(** ** [SpacedRepetition.get_due_items] and its helpers *)

Definition _calculate_difficulty_score (progress : Progress.t) : Q :=
  let total_reviews := default 0 (Progress.total_reviews progress) in
  let correct_reviews := default 0 (Progress.correct_reviews progress) in
  if total_reviews =? 0 then 1.0%Q
  else
    let accuracy := (inject_Z correct_reviews / inject_Z total_reviews)%Q in
    let ease_factor :=
      default ease_factor_default (Progress.ease_factor progress) in
    let difficulty := ((1 - accuracy) + (3.0 - ease_factor) / 2.0)%Q in
    Qmax 0.1 (Qmin 2.0 difficulty).

Definition _calculate_priority (progress : Progress.t) (current_time : Z)
    : Q :=
  let next_review :=
    default current_time (Progress.next_review_date progress) in
  let days_overdue := td_days (current_time - next_review) in
  let ease_factor :=
    default ease_factor_default (Progress.ease_factor progress) in
  let priority := (inject_Z days_overdue + (3.0 - ease_factor))%Q in
  Qmax priority 0.

(** [item_types and progress.get('type') not in item_types]: the entry is
    skipped by the type filter. *)
Definition type_filtered_out (item_types : option (list string))
    (progress : Progress.t) : bool :=
  match item_types with
  | None | Some [] => false
  | Some types =>
      match Progress.type progress with
      | None => true
      | Some ty => negb (existsb (String.eqb ty) types)
      end
  end.

(** [next_review <= current_time] for the entry. *)
Definition is_due (current_time : Z) (progress : Progress.t) : bool :=
  default current_time (Progress.next_review_date progress) <=? current_time.

(** The body of the loop for an entry that passed both tests. *)
Definition make_review_item (item_id : string) (progress : Progress.t)
    (current_time : Z) : result ReviewItem.t :=
  let next_review :=
    default current_time (Progress.next_review_date progress) in
  let priority := _calculate_priority progress current_time in
  let days_overdue := Z.max 0 (td_days (current_time - next_review)) in
  let difficulty_score := _calculate_difficulty_score progress in
  let stage_value :=
    default (LearningStage_value NEW) (Progress.stage progress) in
  stage ← LearningStage_of_value stage_value;
  let type_value :=
    default (ItemType_value VOCABULARY) (Progress.type progress) in
  let item_type :=
    match ItemType_of_value type_value with
    | Ok t => t
    | Raise _ => VOCABULARY
    end in
  Ok {| ReviewItem.item_id := item_id;
        ReviewItem.item_type := item_type;
        ReviewItem.content := default [] (Progress.content progress);
        ReviewItem.stage := stage;
        ReviewItem.priority := priority;
        ReviewItem.days_overdue := days_overdue;
        ReviewItem.difficulty_score := difficulty_score |}.

(** The [for item_id, progress in user_progress.items()] loop. *)
Fixpoint collect_due (user_progress : list (string * Progress.t))
    (item_types : option (list string)) (current_time : Z)
    : result (list ReviewItem.t) :=
  match user_progress with
  | [] => Ok []
  | (item_id, progress) :: rest =>
      if type_filtered_out item_types progress then
        collect_due rest item_types current_time
      else if is_due current_time progress then
        review_item ← make_review_item item_id progress current_time;
        due_items ← collect_due rest item_types current_time;
        Ok (review_item :: due_items)
      else collect_due rest item_types current_time
  end.

(** [due_items.sort(key=lambda x: x.priority, reverse=True)].  The sort of
    Python is stable, also with [reverse=True]; on a totally ordered key
    the output of a stable sort is determined by its input, and it is
    computed here by insertion from the right: an item goes in front of
    the first item whose priority is not larger than its own. *)
Fixpoint insert_by_priority (x : ReviewItem.t) (l : list ReviewItem.t)
    : list ReviewItem.t :=
  match l with
  | [] => [x]
  | y :: l' =>
      if Qle_bool (ReviewItem.priority y) (ReviewItem.priority x)
      then x :: y :: l'
      else y :: insert_by_priority x l'
  end.

Definition sort_by_priority_desc (l : list ReviewItem.t)
    : list ReviewItem.t :=
  fold_right insert_by_priority [] l.

(** [max_items or self.max_daily_reviews]. *)
Definition effective_max_items (max_items : option Z) : Z :=
  match max_items with
  | None => max_daily_reviews
  | Some m => if m =? 0 then max_daily_reviews else m
  end.

Definition get_due_items (user_progress : list (string * Progress.t))
    (max_items : option Z) (item_types : option (list string))
    (current_time : Z) : result (list ReviewItem.t) :=
  let max_items := effective_max_items max_items in
  due_items ← collect_due user_progress item_types current_time;
  (* Sort by priority (higher priority first) *)
  let due_items := sort_by_priority_desc due_items in
  (* Return limited number of items *)
  Ok (py_slice_to due_items max_items).

(** The same call against the progress store as state: the store that the
    call leaves behind is returned with the result. *)
Definition get_due_items_st (max_items : option Z)
    (item_types : option (list string)) (current_time : Z)
    (user_progress : list (string * Progress.t))
    : result (list ReviewItem.t) * list (string * Progress.t) :=
  (get_due_items user_progress max_items item_types current_time,
   user_progress).

(** ** Dictionaries in insertion order *)

Section PyDict.
Context {K V : Type} `{EqDecision K}.

(** [d.get(k)]. *)
Fixpoint dict_get (k : K) (d : list (K * V)) : option V :=
  match d with
  | [] => None
  | (k', v) :: d' => if decide (k = k') then Some v else dict_get k d'
  end.

(** [d[k] = v]: an existing key keeps its place, a new key goes last. *)
Fixpoint dict_set (k : K) (v : V) (d : list (K * V)) : list (K * V) :=
  match d with
  | [] => [(k, v)]
  | (k', v') :: d' =>
      if decide (k = k') then (k, v) :: d' else (k', v') :: dict_set k v d'
  end.

(** [del d[k]], for a key that is present. *)
Fixpoint dict_del (k : K) (d : list (K * V)) : list (K * V) :=
  match d with
  | [] => []
  | (k', v') :: d' =>
      if decide (k = k') then dict_del k d' else (k', v') :: dict_del k d'
  end.

(** [d.values()]. *)
Definition dict_values (d : list (K * V)) : list V := map snd d.

(** [k in d]. *)
Definition dict_mem (k : K) (d : list (K * V)) : bool :=
  match dict_get k d with Some _ => true | None => false end.
End PyDict.

(** ** [quiz_manager.py]: enumerations and records *)

Inductive QuizDifficulty : Type := EASY | MEDIUM | HARD.

Inductive QuizCategory : Type :=
| QUANTITATIVE_APTITUDE | GENERAL_INTELLIGENCE | GENERAL_AWARENESS
| ENGLISH_COMPREHENSION | MIXED.

#[global] Instance QuizDifficulty_eq_dec : EqDecision QuizDifficulty.
Proof. solve_decision. Defined.

#[global] Instance QuizCategory_eq_dec : EqDecision QuizCategory.
Proof. solve_decision. Defined.

Definition QuizCategory_value (c : QuizCategory) : string :=
  match c with
  | QUANTITATIVE_APTITUDE => "quantitative_aptitude"
  | GENERAL_INTELLIGENCE => "general_intelligence"
  | GENERAL_AWARENESS => "general_awareness"
  | ENGLISH_COMPREHENSION => "english_comprehension"
  | MIXED => "mixed"
  end.

(** [c.value.replace('_', ' ').title()], tabulated. *)
Definition QuizCategory_title (c : QuizCategory) : string :=
  match c with
  | QUANTITATIVE_APTITUDE => "Quantitative Aptitude"
  | GENERAL_INTELLIGENCE => "General Intelligence"
  | GENERAL_AWARENESS => "General Awareness"
  | ENGLISH_COMPREHENSION => "English Comprehension"
  | MIXED => "Mixed"
  end.

Module QuizQuestion.
Record t : Type := mk {
  id : string;
  category : QuizCategory;
  difficulty : QuizDifficulty;
  question : string;
  options : list string;
  correct_answer : Z;
  explanation : string;
  tags : list string;
  source : string
}.

(** The [__eq__] that [@dataclass] generates: field by field. *)
#[global] Instance eq_dec : EqDecision t.
Proof. solve_decision. Defined.
End QuizQuestion.

(** A session id [quiz_{user_id}_{%Y%m%d_%H%M%S}_{uuid4[:8]}], kept as the
    three parts the string is formatted from: the user, the clock reading
    in whole seconds and the eight characters of the UUID. *)
Module SessionId.
Record t : Type := mk {
  user : Z;
  stamp : Z;
  uuid8 : string
}.

#[global] Instance eq_dec : EqDecision t.
Proof. solve_decision. Defined.
End SessionId.

Module QuizSession.
Record t : Type := mk {
  session_id : SessionId.t;
  user_id : Z;
  questions : list QuizQuestion.t;
  current_question : Z;
  score : Z;
  start_time : Z;
  end_time : option Z;
  user_answers : list (option Z);
  time_per_question : list Q;
  category : QuizCategory;
  difficulty : QuizDifficulty
}.
End QuizSession.

(** The messages of [_generate_recommendations], one constructor per
    message; the last one carries the weak areas it lists. *)
Inductive Recommendation : Type :=
| FocusOnFundamentals
| PracticeDaily
| FocusOnWeakAreas
| PracticeTimeManagement
| FineTuneWeakAreas
| SpeedAndAccuracy
| Outstanding
| TryHarderLevels
| FocusAreas (weak_areas : list string).

Module QuizResult.
Record t : Type := mk {
  session_id : SessionId.t;
  user_id : Z;
  total_questions : Z;
  correct_answers : Z;
  score_percentage : Q;
  time_taken : Q;
  category : QuizCategory;
  difficulty : QuizDifficulty;
  weak_areas : list string;
  strong_areas : list string;
  recommendations : list Recommendation
}.
End QuizResult.

(** The dictionary that [submit_answer] returns: either the error entry
    alone, or the feedback on the answer, with [final_result] present
    exactly when [quiz_completed] is. *)
Module Response.
Record feedback : Type := mk {
  correct : bool;
  correct_answer : Z;
  explanation : string;
  current_score : Z;
  questions_completed : Z;
  total_questions : Z;
  final_result : option QuizResult.t
}.

Inductive t : Type :=
| Error (message : string)
| Answer (f : feedback).

Definition quiz_completed (f : feedback) : bool :=
  match final_result f with Some _ => true | None => false end.
End Response.

(** The attributes of a [QuizManager].  [db_manager] and
    [spaced_repetition] are only tested for presence. *)
Module QuizManager.
Record t : Type := mk {
  db_manager : bool;
  spaced_repetition : bool;
  active_sessions : list (SessionId.t * QuizSession.t);
  question_bank : list (QuizCategory * list QuizQuestion.t)
}.
End QuizManager.

(** ** [QuizManager._initialize_question_bank] *)

Definition qa_001 : QuizQuestion.t :=
  {| QuizQuestion.id := "qa_001";
     QuizQuestion.category := QUANTITATIVE_APTITUDE;
     QuizQuestion.difficulty := EASY;
     QuizQuestion.question :=
       "If a train travels 60 km in 1 hour, how far will it travel in 3.5 hours?";
     QuizQuestion.options :=
       ["180 km"; "210 km"; "240 km"; "200 km"];
     QuizQuestion.correct_answer := 1;
     QuizQuestion.explanation :=
       "Distance = Speed √ó Time = 60 √ó 3.5 = 210 km";
     QuizQuestion.tags := ["speed"; "distance"; "time"];
     QuizQuestion.source := "SSC-CGL Practice" |}.

Definition qa_002 : QuizQuestion.t :=
  {| QuizQuestion.id := "qa_002";
     QuizQuestion.category := QUANTITATIVE_APTITUDE;
     QuizQuestion.difficulty := MEDIUM;
     QuizQuestion.question :=
       "What is 15% of 240?";
     QuizQuestion.options :=
       ["36"; "32"; "40"; "38"];
     QuizQuestion.correct_answer := 0;
     QuizQuestion.explanation :=
       "15% of 240 = (15/100) √ó 240 = 36";
     QuizQuestion.tags := ["percentage"; "calculation"];
     QuizQuestion.source := "SSC-CGL Practice" |}.

Definition qa_003 : QuizQuestion.t :=
  {| QuizQuestion.id := "qa_003";
     QuizQuestion.category := QUANTITATIVE_APTITUDE;
     QuizQuestion.difficulty := HARD;
     QuizQuestion.question :=
       "A shopkeeper marks his goods 25% above cost price and gives a discount of 10%. His profit percentage is:";
     QuizQuestion.options :=
       ["12.5%"; "15%"; "10%"; "13.5%"];
     QuizQuestion.correct_answer := 0;
     QuizQuestion.explanation :=
       "Let CP = 100. MP = 125. SP = 125 - 10% of 125 = 112.5. Profit% = (112.5-100)/100 √ó 100 = 12.5%";
     QuizQuestion.tags := ["profit"; "loss"; "discount"; "marked_price"];
     QuizQuestion.source := "SSC-CGL Practice" |}.

Definition gi_001 : QuizQuestion.t :=
  {| QuizQuestion.id := "gi_001";
     QuizQuestion.category := GENERAL_INTELLIGENCE;
     QuizQuestion.difficulty := EASY;
     QuizQuestion.question :=
       "In a certain code, COMPUTER is written as RFUVQNPC. How will MEDICINE be written?";
     QuizQuestion.options :=
       ["MFEJDJOF"; "NFEJDJOF"; "EOJDJEFM"; "FMEJDJFN"];
     QuizQuestion.correct_answer := 3;
     QuizQuestion.explanation :=
       "Each letter is moved 3 positions forward: M‚ÜíP, E‚ÜíH, D‚ÜíG, etc. Wait, let me recalculate: Actually each letter is reversed in position. MEDICINE reversed is ENICEFEM, but using the same pattern as COMPUTER‚ÜíRFUVQNPC, it should be FMEJDJFN";
     QuizQuestion.tags := ["coding"; "decoding"; "pattern"];
     QuizQuestion.source := "SSC-CGL Practice" |}.

Definition gi_002 : QuizQuestion.t :=
  {| QuizQuestion.id := "gi_002";
     QuizQuestion.category := GENERAL_INTELLIGENCE;
     QuizQuestion.difficulty := MEDIUM;
     QuizQuestion.question :=
       "Find the odd one out: 8, 27, 64, 125, 216, 343";
     QuizQuestion.options :=
       ["8"; "27"; "125"; "343"];
     QuizQuestion.correct_answer := 0;
     QuizQuestion.explanation :=
       "All are perfect cubes except 8. Actually, 8 = 2¬≥, so all are cubes. Let me reconsider: 8=2¬≥, 27=3¬≥, 64=4¬≥, 125=5¬≥, 216=6¬≥, 343=7¬≥. All are cubes, so this question needs revision.";
     QuizQuestion.tags := ["series"; "cubes"; "odd_one_out"];
     QuizQuestion.source := "SSC-CGL Practice" |}.

Definition ga_001 : QuizQuestion.t :=
  {| QuizQuestion.id := "ga_001";
     QuizQuestion.category := GENERAL_AWARENESS;
     QuizQuestion.difficulty := EASY;
     QuizQuestion.question :=
       "Who is the current President of India (as of 2025)?";
     QuizQuestion.options :=
       ["Ram Nath Kovind"; "Droupadi Murmu"; "A.P.J. Abdul Kalam"; "Pranab Mukherjee"];
     QuizQuestion.correct_answer := 1;
     QuizQuestion.explanation :=
       "Droupadi Murmu is the current President of India, having taken office in July 2022.";
     QuizQuestion.tags := ["current_affairs"; "president"; "india"];
     QuizQuestion.source := "SSC-CGL Practice" |}.

Definition ga_002 : QuizQuestion.t :=
  {| QuizQuestion.id := "ga_002";
     QuizQuestion.category := GENERAL_AWARENESS;
     QuizQuestion.difficulty := MEDIUM;
     QuizQuestion.question :=
       "Which of the following is NOT a Fundamental Right in the Indian Constitution?";
     QuizQuestion.options :=
       ["Right to Equality"; "Right to Education"; "Right to Property"; "Right to Freedom"];
     QuizQuestion.correct_answer := 2;
     QuizQuestion.explanation :=
       "Right to Property was removed as a Fundamental Right by the 44th Constitutional Amendment in 1978.";
     QuizQuestion.tags := ["constitution"; "fundamental_rights"; "indian_polity"];
     QuizQuestion.source := "SSC-CGL Practice" |}.

Definition ec_001 : QuizQuestion.t :=
  {| QuizQuestion.id := "ec_001";
     QuizQuestion.category := ENGLISH_COMPREHENSION;
     QuizQuestion.difficulty := EASY;
     QuizQuestion.question :=
       "Choose the correct synonym for 'ABUNDANT':";
     QuizQuestion.options :=
       ["Scarce"; "Plentiful"; "Limited"; "Rare"];
     QuizQuestion.correct_answer := 1;
     QuizQuestion.explanation :=
       "Abundant means existing in large quantities; plentiful.";
     QuizQuestion.tags := ["synonyms"; "vocabulary"];
     QuizQuestion.source := "SSC-CGL Practice" |}.

Definition ec_002 : QuizQuestion.t :=
  {| QuizQuestion.id := "ec_002";
     QuizQuestion.category := ENGLISH_COMPREHENSION;
     QuizQuestion.difficulty := MEDIUM;
     QuizQuestion.question :=
       "Identify the grammatically correct sentence:";
     QuizQuestion.options :=
       ["Neither of the boys have done their homework."; "Neither of the boys has done his homework."; "Neither of the boys have done his homework."; "Neither of the boys has done their homework."];
     QuizQuestion.correct_answer := 1;
     QuizQuestion.explanation :=
       "'Neither' is singular, so it takes 'has' and 'his' (singular pronouns).";
     QuizQuestion.tags := ["grammar"; "subject_verb_agreement"; "pronouns"];
     QuizQuestion.source := "SSC-CGL Practice" |}.

Definition _initialize_question_bank
    : list (QuizCategory * list QuizQuestion.t) :=
  [(QUANTITATIVE_APTITUDE, [qa_001; qa_002; qa_003]);
   (GENERAL_INTELLIGENCE, [gi_001; gi_002]);
   (GENERAL_AWARENESS, [ga_001; ga_002]);
   (ENGLISH_COMPREHENSION, [ec_001; ec_002])].

(** ** [QuizManager.__init__] *)

Definition QuizManager_init (db_manager spaced_repetition : bool)
    : QuizManager.t :=
  {| QuizManager.db_manager := db_manager;
     QuizManager.spaced_repetition := spaced_repetition;
     QuizManager.active_sessions := [];
     QuizManager.question_bank := _initialize_question_bank |}.

Definition set_active_sessions
    (sessions : list (SessionId.t * QuizSession.t)) (self : QuizManager.t)
    : QuizManager.t :=
  {| QuizManager.db_manager := QuizManager.db_manager self;
     QuizManager.spaced_repetition := QuizManager.spaced_repetition self;
     QuizManager.active_sessions := sessions;
     QuizManager.question_bank := QuizManager.question_bank self |}.

(** What a call of [create_weekly_quiz] takes from its environment: the
    clock, the UUID and the draw of [random.sample]. *)
Module Env.
Record t : Type := mk {
  now : Z;
  uuid8 : string;
  sample : list QuizQuestion.t -> nat -> list QuizQuestion.t
}.
End Env.

(** ** [QuizManager._select_questions] *)

Definition question_in (q : QuizQuestion.t) (l : list QuizQuestion.t)
    : bool :=
  existsb (fun q' => bool_decide (q' = q)) l.

Definition _select_questions (self : QuizManager.t)
    (category : QuizCategory) (difficulty : QuizDifficulty) (count : Z)
    (sample : list QuizQuestion.t -> nat -> list QuizQuestion.t)
    : result (list QuizQuestion.t) :=
  let bank := QuizManager.question_bank self in
  let of_difficulty q :=
    bool_decide (QuizQuestion.difficulty q = difficulty) in
  let all_questions :=
    if decide (category = MIXED) then
      (* Mix questions from all categories *)
      fold_left
        (fun all_questions cat_questions =>
           all_questions ++ List.filter of_difficulty cat_questions)
        (dict_values bank) []
    else
      (* Questions from specific category *)
      List.filter of_difficulty (default [] (dict_get category bank)) in
  (* If not enough questions of specific difficulty, include other
     difficulties *)
  let all_questions :=
    if Z.of_nat (length all_questions) <? count then
      fold_left
        (fun all_questions cat_questions =>
           all_questions
           ++ List.filter (fun q => negb (question_in q all_questions))
                cat_questions)
        (dict_values bank) all_questions
    else all_questions in
  (* Randomly select questions *)
  let k := Z.min count (Z.of_nat (length all_questions)) in
  if k <? 0 then Raise ValueError
  else Ok (sample all_questions (Z.to_nat k)).

(** ** [QuizManager.create_weekly_quiz] *)

Definition create_weekly_quiz (self : QuizManager.t) (user_id : Z)
    (category : QuizCategory) (difficulty : QuizDifficulty)
    (question_count : Z) (env : Env.t)
    : result (QuizSession.t * QuizManager.t) :=
  let session_id :=
    SessionId.mk user_id (Env.now env / 1000000) (Env.uuid8 env) in
  (* Select questions based on category and difficulty *)
  questions ←
    _select_questions self category difficulty question_count
      (Env.sample env);
  let session :=
    {| QuizSession.session_id := session_id;
       QuizSession.user_id := user_id;
       QuizSession.questions := questions;
       QuizSession.current_question := 0;
       QuizSession.score := 0;
       QuizSession.start_time := Env.now env;
       QuizSession.end_time := None;
       QuizSession.user_answers := replicate (length questions) None;
       QuizSession.time_per_question := [];
       QuizSession.category := category;
       QuizSession.difficulty := difficulty |} in
  Ok (session,
      set_active_sessions
        (dict_set session_id session (QuizManager.active_sessions self))
        self).

(** ** [QuizManager._generate_recommendations] *)

Definition _generate_recommendations (score_percentage : Q)
    (weak_areas : list string) : list Recommendation :=
  let recommendations :=
    if negb (Qle_bool 40 score_percentage) then
      [FocusOnFundamentals; PracticeDaily]
    else if negb (Qle_bool 60 score_percentage) then
      [FocusOnWeakAreas; PracticeTimeManagement]
    else if negb (Qle_bool 80 score_percentage) then
      [FineTuneWeakAreas; SpeedAndAccuracy]
    else [Outstanding; TryHarderLevels] in
  match weak_areas with
  | [] => recommendations
  | _ :: _ => recommendations ++ [FocusAreas weak_areas]
  end.

(** ** [QuizManager._generate_result] *)

(** The [category_performance] loop: per category, in order of first
    appearance, the pair (correct, total). *)
Fixpoint category_performance (questions : list QuizQuestion.t)
    (user_answers : list (option Z)) (i : Z)
    (acc : list (QuizCategory * (Z * Z)))
    : result (list (QuizCategory * (Z * Z))) :=
  match questions with
  | [] => Ok acc
  | question :: rest =>
      let cat := QuizQuestion.category question in
      let '(correct, total) := default (0, 0) (dict_get cat acc) in
      let acc := dict_set cat (correct, total + 1) acc in
      user_answer ← py_index user_answers i;
      let acc :=
        if bool_decide
             (user_answer = Some (QuizQuestion.correct_answer question))
        then dict_set cat (correct + 1, total + 1) acc
        else acc in
      category_performance rest user_answers (i + 1) acc
  end.

Definition category_percentage (perf : Z * Z) : Q :=
  (inject_Z (fst perf) / inject_Z (snd perf) * 100)%Q.

Definition weak_areas_of (perf : list (QuizCategory * (Z * Z)))
    : list string :=
  map (fun cp => QuizCategory_title (fst cp))
    (List.filter
       (fun cp => negb (Qle_bool 60 (category_percentage (snd cp)))) perf).

Definition strong_areas_of (perf : list (QuizCategory * (Z * Z)))
    : list string :=
  map (fun cp => QuizCategory_title (fst cp))
    (List.filter
       (fun cp =>
          Qle_bool 60 (category_percentage (snd cp))
          && Qle_bool 80 (category_percentage (snd cp))) perf).

(** [_save_quiz_result], called when a [db_manager] is present, only
    writes a log line and has no part in the result. *)
Definition _generate_result (self : QuizManager.t) (session : QuizSession.t)
    : result QuizResult.t :=
  end_time ←
    match QuizSession.end_time session with
    | Some t => Ok t
    | None => Raise TypeError
    end;
  let total_time := total_seconds (end_time - QuizSession.start_time session) in
  let total := Z.of_nat (length (QuizSession.questions session)) in
  score_percentage ←
    (if total =? 0 then Raise ZeroDivisionError
     else Ok (inject_Z (QuizSession.score session) / inject_Z total * 100)%Q);
  (* Analyze weak and strong areas *)
  perf ←
    category_performance (QuizSession.questions session)
      (QuizSession.user_answers session) 0 [];
  let weak_areas := weak_areas_of perf in
  let strong_areas := strong_areas_of perf in
  (* Generate recommendations *)
  let recommendations :=
    _generate_recommendations score_percentage weak_areas in
  Ok {| QuizResult.session_id := QuizSession.session_id session;
        QuizResult.user_id := QuizSession.user_id session;
        QuizResult.total_questions := total;
        QuizResult.correct_answers := QuizSession.score session;
        QuizResult.score_percentage := score_percentage;
        QuizResult.time_taken := total_time;
        QuizResult.category := QuizSession.category session;
        QuizResult.difficulty := QuizSession.difficulty session;
        QuizResult.weak_areas := weak_areas;
        QuizResult.strong_areas := strong_areas;
        QuizResult.recommendations := recommendations |}.

(** ** [QuizManager._update_spaced_repetition] *)

(** The loop feeds every question of the session to the scheduler.  The
    progress records it builds are not stored anywhere: they are returned
    here only to be dropped by the caller. *)
Fixpoint _update_spaced_repetition (questions : list QuizQuestion.t)
    (user_answers : list (option Z)) (i : Z) (now : Z)
    : result (list Progress.t) :=
  match questions with
  | [] => Ok []
  | question :: rest =>
      user_answer ← py_index user_answers i;
      let correct_answer := QuizQuestion.correct_answer question in
      (* Grade: 5 for correct, 2 for incorrect *)
      let grade :=
        if bool_decide (user_answer = Some correct_answer) then 5 else 2 in
      let progress :=
        initialize_item (QuizQuestion.id question)
          (QuizCategory_value (QuizQuestion.category question)) None now in
      progress ← update_progress progress grade None now;
      others ← _update_spaced_repetition rest user_answers (i + 1) now;
      Ok (progress :: others)
  end.

(** ** [QuizManager.submit_answer] *)

(** The session object is shared between the caller and
    [active_sessions]: an assignment to one of its attributes is a
    replacement of the entry under its key. *)
Definition store_session (session_id : SessionId.t)
    (session : QuizSession.t) (self : QuizManager.t) : QuizManager.t :=
  set_active_sessions
    (dict_set session_id session (QuizManager.active_sessions self)) self.

Definition record_answer (answers : list (option Z)) (question_time : Q)
    (session : QuizSession.t) : QuizSession.t :=
  {| QuizSession.session_id := QuizSession.session_id session;
     QuizSession.user_id := QuizSession.user_id session;
     QuizSession.questions := QuizSession.questions session;
     QuizSession.current_question := QuizSession.current_question session;
     QuizSession.score := QuizSession.score session;
     QuizSession.start_time := QuizSession.start_time session;
     QuizSession.end_time := QuizSession.end_time session;
     QuizSession.user_answers := answers;
     QuizSession.time_per_question :=
       QuizSession.time_per_question session ++ [question_time];
     QuizSession.category := QuizSession.category session;
     QuizSession.difficulty := QuizSession.difficulty session |}.

Definition advance (is_correct : bool) (session : QuizSession.t)
    : QuizSession.t :=
  {| QuizSession.session_id := QuizSession.session_id session;
     QuizSession.user_id := QuizSession.user_id session;
     QuizSession.questions := QuizSession.questions session;
     QuizSession.current_question :=
       QuizSession.current_question session + 1;
     QuizSession.score :=
       if is_correct then QuizSession.score session + 1
       else QuizSession.score session;
     QuizSession.start_time := QuizSession.start_time session;
     QuizSession.end_time := QuizSession.end_time session;
     QuizSession.user_answers := QuizSession.user_answers session;
     QuizSession.time_per_question := QuizSession.time_per_question session;
     QuizSession.category := QuizSession.category session;
     QuizSession.difficulty := QuizSession.difficulty session |}.

Definition stamp_end_time (now : Z) (session : QuizSession.t)
    : QuizSession.t :=
  {| QuizSession.session_id := QuizSession.session_id session;
     QuizSession.user_id := QuizSession.user_id session;
     QuizSession.questions := QuizSession.questions session;
     QuizSession.current_question := QuizSession.current_question session;
     QuizSession.score := QuizSession.score session;
     QuizSession.start_time := QuizSession.start_time session;
     QuizSession.end_time := Some now;
     QuizSession.user_answers := QuizSession.user_answers session;
     QuizSession.time_per_question := QuizSession.time_per_question session;
     QuizSession.category := QuizSession.category session;
     QuizSession.difficulty := QuizSession.difficulty session |}.

(** The time attributed to the current question, in seconds. *)
Definition question_time (now : Z) (session : QuizSession.t) : Q :=
  let elapsed := total_seconds (now - QuizSession.start_time session) in
  match QuizSession.time_per_question session with
  | [] => elapsed
  | _ :: _ => (elapsed - py_fsum (QuizSession.time_per_question session))%Q
  end.

(** The value is the returned dictionary, or the exception that escapes;
    the manager is the state the call leaves behind in either case. *)
Definition submit_answer (self : QuizManager.t) (session_id : SessionId.t)
    (answer : Z) (now : Z) : result Response.t * QuizManager.t :=
  match dict_get session_id (QuizManager.active_sessions self) with
  | None => (Ok (Response.Error "Session not found"), self)
  | Some session =>
      let current_q_idx := QuizSession.current_question session in
      let total := Z.of_nat (length (QuizSession.questions session)) in
      if total <=? current_q_idx then
        (Ok (Response.Error "Quiz already completed"), self)
      else
        (* Record answer and time *)
        match py_setitem (QuizSession.user_answers session) current_q_idx
                (Some answer) with
        | Raise e => (Raise e, self)
        | Ok answers =>
            let session :=
              record_answer answers (question_time now session) session in
            (* Check if answer is correct *)
            match py_index (QuizSession.questions session) current_q_idx with
            | Raise e => (Raise e, store_session session_id session self)
            | Ok question =>
                let correct_answer := QuizQuestion.correct_answer question in
                let is_correct := bool_decide (answer = correct_answer) in
                (* Move to next question *)
                let session := advance is_correct session in
                (* Prepare response *)
                let response final_result :=
                  {| Response.correct := is_correct;
                     Response.correct_answer := correct_answer;
                     Response.explanation :=
                       QuizQuestion.explanation question;
                     Response.current_score := QuizSession.score session;
                     Response.questions_completed :=
                       QuizSession.current_question session;
                     Response.total_questions := total;
                     Response.final_result := final_result |} in
                (* Check if quiz is completed *)
                if total <=? QuizSession.current_question session then
                  let session := stamp_end_time now session in
                  let self := store_session session_id session self in
                  match _generate_result self session with
                  | Raise e => (Raise e, self)
                  | Ok quiz_result =>
                      (* Update spaced repetition if available *)
                      let updated :=
                        if QuizManager.spaced_repetition self then
                          _update_spaced_repetition
                            (QuizSession.questions session)
                            (QuizSession.user_answers session) 0 now
                        else Ok [] in
                      match updated with
                      | Raise e => (Raise e, self)
                      | Ok _ =>
                          (Ok (Response.Answer (response (Some quiz_result))),
                           self)
                      end
                  end
                else
                  (Ok (Response.Answer (response None)),
                   store_session session_id session self)
            end
        end
  end.

(** ** [main.py]: the two chat handlers that drive the quiz manager

    Only what the handlers do to the quiz manager is kept.  A reply is
    sent with an awaited [reply_text], which raises when the message
    cannot be delivered; whether the replies that stand before a write to
    the manager are delivered is an argument of the handler. *)

(** [[s for s in active_sessions.values() if s.user_id == user_id]]. *)
Definition sessions_of_user (user_id : Z) (self : QuizManager.t)
    : list QuizSession.t :=
  List.filter (fun s => QuizSession.user_id s =? user_id)
    (dict_values (QuizManager.active_sessions self)).

Inductive QuizCommandReply : Type :=
| ShowCurrentQuestion (session_id : SessionId.t)
| QuizStarted (session : QuizSession.t)
| QuizStartFailed (e : exn).

(** [quiz_command] from the check for an active session on, with the
    category, difficulty and question count that the arguments were
    parsed to.  Its replies are sent after the session is stored. *)
Definition quiz_command (self : QuizManager.t) (user_id : Z)
    (category : QuizCategory) (difficulty : QuizDifficulty)
    (question_count : Z) (env : Env.t)
    : QuizCommandReply * QuizManager.t :=
  (* Check for active quiz session *)
  match sessions_of_user user_id self with
  | session :: _ =>
      (ShowCurrentQuestion (QuizSession.session_id session), self)
  | [] =>
      (* Create new quiz session *)
      match
        create_weekly_quiz self user_id category difficulty question_count env
      with
      | Ok (session, self') => (QuizStarted session, self')
      | Raise e => (QuizStartFailed e, self)
      end
  end.

(** [ord(message_text) - ord('A')] for the four accepted letters. *)
Definition answer_index (message_text : string) : option Z :=
  if String.eqb message_text "A" then Some 0
  else if String.eqb message_text "B" then Some 1
  else if String.eqb message_text "C" then Some 2
  else if String.eqb message_text "D" then Some 3
  else None.

(** What [handle_quiz_answer] did: [ReplyNotSent] is the [except] clause
    reached from a reply that could not be delivered after
    [submit_answer] had accepted the answer. *)
Inductive QuizAnswerReply : Type :=
| NotAQuizAnswer
| AnswerRejected (message : string)
| AnswerFeedback (f : Response.feedback)
| QuizCompleted (f : Response.feedback)
| AnswerFailed (e : exn)
| ReplyNotSent (f : Response.feedback).

(** [handle_quiz_answer], on the stripped and upper-cased message.
    [feedback_sent] and [result_sent] tell whether the reply with the
    feedback and the reply with the final result are delivered; both
    stand between [submit_answer] and the removal of the session, inside
    the [try] block.  The replies after the last write are left out. *)
Definition handle_quiz_answer (self : QuizManager.t) (user_id : Z)
    (message_text : string) (now : Z) (feedback_sent result_sent : bool)
    : QuizAnswerReply * QuizManager.t :=
  match sessions_of_user user_id self, answer_index message_text with
  | [], _ | _, None => (NotAQuizAnswer, self)
  | session :: _, Some index =>
      let session_id := QuizSession.session_id session in
      (* Submit answer *)
      match submit_answer self session_id index now with
      | (Raise e, self) => (AnswerFailed e, self)
      | (Ok (Response.Error message), self) => (AnswerRejected message, self)
      | (Ok (Response.Answer f), self) =>
          if negb feedback_sent then (ReplyNotSent f, self)
          else if Response.quiz_completed f then
            (* Send final result *)
            if negb result_sent then (ReplyNotSent f, self)
            else
              (* Remove completed session *)
              let sessions := QuizManager.active_sessions self in
              (QuizCompleted f,
               if dict_mem session_id sessions
               then set_active_sessions (dict_del session_id sessions) self
               else self)
          else (AnswerFeedback f, self)
      end
  end.

(** ** Sample data *)

(** A vocabulary item created at time 0 and reviewed once a day with the
    given grades; only the grades of the history matter to
    [_update_difficulty_level]. *)
Definition reviewed_item (grades : list Z) : Progress.t :=
  {| Progress.item_id := Some "abundant"%string;
     Progress.type := Some (ItemType_value VOCABULARY);
     Progress.content := Some [];
     Progress.interval := Some 1%Q;
     Progress.ease_factor := Some ease_factor_default;
     Progress.repetitions := Some 0;
     Progress.stage := Some (LearningStage_value LEARNING);
     Progress.next_review_date := Some 0;
     Progress.created_date := Some 0;
     Progress.last_review_date := Some 0;
     Progress.total_reviews := Some (Z.of_nat (length grades));
     Progress.correct_reviews := Some 0;
     Progress.review_history :=
       Some (imap (fun i grade =>
                     {| ReviewEntry.date := Z.of_nat i * day_us;
                        ReviewEntry.grade := grade;
                        ReviewEntry.response_time := None;
                        ReviewEntry.previous_interval := 1%Q;
                        ReviewEntry.new_interval := 1%Q |}) grades);
     Progress.difficulty_level := Some 1%Q;
     Progress.tags := Some [];
     Progress.source := Some "system"%string |}.

(** An environment whose draw takes the first [k] questions of the
    pool. *)
Definition env_at (now : Z) (uuid8 : string) : Env.t :=
  {| Env.now := now;
     Env.uuid8 := uuid8;
     Env.sample := fun pool k => take k pool |}.

(** ** The predicates of the statements *)

Section Predicates.
Local Open Scope Q_scope.

(** A record as [initialize_item] and [update_progress] leave it: the keys
    that [update_progress] reads are present, the stage is the value of a
    [LearningStage], the repetition count is not negative and the ease
    factor is not below the floor. *)
Definition progress_wf (p : Progress.t) : Prop :=
  exists interval ease repetitions stage,
    Progress.interval p = Some interval
    /\ Progress.ease_factor p = Some ease
    /\ Progress.repetitions p = Some repetitions
    /\ Progress.stage p = Some (LearningStage_value stage)
    /\ (0 <= repetitions)%Z
    /\ ease_factor_min <= ease.



(** [a] may stand before [b] in a list sorted by descending priority. *)
Definition priority_ge (a b : ReviewItem.t) : Prop :=
  ReviewItem.priority b <= ReviewItem.priority a.

(** The items of one priority, in the order of the list. *)
Definition with_priority (q : Q) (l : list ReviewItem.t)
    : list ReviewItem.t :=
  List.filter (fun x => Qeq_bool (ReviewItem.priority x) q) l.

(** The entries that pass the type filter and are due, in iteration
    order. *)
Definition selected_entries (user_progress : list (string * Progress.t))
    (item_types : option (list string)) (current_time : Z)
    : list (string * Progress.t) :=
  List.filter
    (fun entry =>
       negb (type_filtered_out item_types (snd entry))
       && is_due current_time (snd entry))
    user_progress.

(** Two clock readings that an entry cannot tell apart: it is due at both
    or at neither, and overdue by the same number of whole days. *)
Definition same_reading (now1 now2 : Z) (progress : Progress.t) : Prop :=
  match Progress.next_review_date progress with
  | None => True
  | Some t =>
      (t <=? now1)%Z = (t <=? now2)%Z
      /\ td_days (now1 - t) = td_days (now2 - t)
  end.

End Predicates.

(** The bounds that every session of the manager keeps. *)
Definition session_inv (s : QuizSession.t) : Prop :=
  0 <= QuizSession.score s
  /\ QuizSession.score s <= QuizSession.current_question s
  /\ QuizSession.current_question s
     <= Z.of_nat (length (QuizSession.questions s))
  /\ length (QuizSession.user_answers s)
     = length (QuizSession.questions s).

(** The sessions are filed under their own ids and keep their bounds. *)
Definition manager_inv (self : QuizManager.t) : Prop :=
  forall session_id s,
    dict_get session_id (QuizManager.active_sessions self) = Some s ->
    QuizSession.session_id s = session_id /\ session_inv s.

(** The states of a manager: a new one, then sessions created and answers
    submitted in any order. *)
Inductive reachable : QuizManager.t -> Prop :=
| reachable_init db_manager spaced_repetition :
    reachable (QuizManager_init db_manager spaced_repetition)
| reachable_create self user_id category difficulty question_count env
    session self' :
    reachable self ->
    create_weekly_quiz self user_id category difficulty question_count env
    = Ok (session, self') ->
    reachable self'
| reachable_submit self session_id answer now :
    reachable self ->
    reachable (snd (submit_answer self session_id answer now)).

(** No two sessions are filed under one id. *)
Definition keys_unique (self : QuizManager.t) : Prop :=
  NoDup (map fst (QuizManager.active_sessions self)).

(** * The rest of [spaced_repetition.py] *)

(** ** [SpacedRepetition.get_learning_stats] *)

Module LearningStats.
Record t : Type := mk {
  total_items : Z;
  new_items : Z;
  learning_items : Z;
  review_items : Z;
  mastered_items : Z;
  due_items : Z;
  accuracy_rate : Q;
  streak_days : Z;
  total_study_time : Q
}.
End LearningStats.

(** The [stats] dictionary that the loop fills. *)
Module Stats.
Record t : Type := mk {
  total_items : Z;
  new_items : Z;
  learning_items : Z;
  review_items : Z;
  mastered_items : Z;
  due_items : Z;
  total_reviews : Z;
  correct_reviews : Z;
  study_streak : Z
}.
End Stats.

(** The [if]/[elif] chain on the stage string: the counter that the
    entry goes to, none for a string that is not a stage value. *)
Definition stage_counter (stage : string) : option LearningStage :=
  if String.eqb stage (LearningStage_value NEW) then Some NEW
  else if String.eqb stage (LearningStage_value LEARNING) then Some LEARNING
  else if String.eqb stage (LearningStage_value REVIEW) then Some REVIEW
  else if String.eqb stage (LearningStage_value MASTERED) then Some MASTERED
  else None.

Definition counts_as (counter : option LearningStage)
    (stage : LearningStage) : Z :=
  match counter with
  | Some s => if LearningStage_eqb s stage then 1 else 0
  | None => 0
  end.

(** One round of the loop of [get_learning_stats]. *)
Definition stats_step (current_time : Z) (stats : Stats.t)
    (entry : string * Progress.t) : Stats.t :=
  let progress := snd entry in
  let stage := default (LearningStage_value NEW) (Progress.stage progress) in
  let counter := stage_counter stage in
  (* Check if item is due *)
  let next_review :=
    default current_time (Progress.next_review_date progress) in
  {| Stats.total_items := Stats.total_items stats + 1;
     Stats.new_items := Stats.new_items stats + counts_as counter NEW;
     Stats.learning_items :=
       Stats.learning_items stats + counts_as counter LEARNING;
     Stats.review_items :=
       Stats.review_items stats + counts_as counter REVIEW;
     Stats.mastered_items :=
       Stats.mastered_items stats + counts_as counter MASTERED;
     Stats.due_items :=
       Stats.due_items stats + (if next_review <=? current_time then 1 else 0);
     Stats.total_reviews :=
       Stats.total_reviews stats
       + default 0 (Progress.total_reviews progress);
     Stats.correct_reviews :=
       Stats.correct_reviews stats
       + default 0 (Progress.correct_reviews progress);
     Stats.study_streak := Stats.study_streak stats |}.

Definition stats_start : Stats.t :=
  {| Stats.total_items := 0; Stats.new_items := 0;
     Stats.learning_items := 0; Stats.review_items := 0;
     Stats.mastered_items := 0; Stats.due_items := 0;
     Stats.total_reviews := 0; Stats.correct_reviews := 0;
     Stats.study_streak := 0 |}.

Definition get_learning_stats (user_progress : list (string * Progress.t))
    (current_time : Z) : LearningStats.t :=
  let stats := fold_left (stats_step current_time) user_progress stats_start in
  (* Calculate accuracy rate *)
  let accuracy_rate :=
    if 0 <? Stats.total_reviews stats then
      (inject_Z (Stats.correct_reviews stats)
       / inject_Z (Stats.total_reviews stats))%Q
    else 0%Q in
  {| LearningStats.total_items := Stats.total_items stats;
     LearningStats.new_items := Stats.new_items stats;
     LearningStats.learning_items := Stats.learning_items stats;
     LearningStats.review_items := Stats.review_items stats;
     LearningStats.mastered_items := Stats.mastered_items stats;
     LearningStats.due_items := Stats.due_items stats;
     LearningStats.accuracy_rate := accuracy_rate;
     LearningStats.streak_days := Stats.study_streak stats;
     LearningStats.total_study_time := 0%Q |}.

(** ** [SpacedRepetition._load_user_progress]

    The method is a placeholder that returns an empty dictionary for
    every user. *)
Definition _load_user_progress (user_id : Z) : list (string * Progress.t) :=
  [].

(** ** [SpacedRepetition.create_review_session] *)

(** The test that a session type applies to the due items. *)
Definition session_keeps (session_type : string) (item : ReviewItem.t)
    : bool :=
  if String.eqb session_type "new" then
    LearningStage_eqb (ReviewItem.stage item) NEW
  else if String.eqb session_type "review" then
    LearningStage_eqb (ReviewItem.stage item) LEARNING
    || LearningStage_eqb (ReviewItem.stage item) REVIEW
  else if String.eqb session_type "weak_areas" then
    negb (Qle_bool (ReviewItem.difficulty_score item) 1.0)
  else true.

(** The body of [create_review_session] from the loaded progress on. *)
Definition review_session (user_progress : list (string * Progress.t))
    (session_type : string) (max_items : Z) (now : Z)
    : result (list ReviewItem.t) :=
  due_items ← get_due_items user_progress (Some max_items) None now;
  let due_items := List.filter (session_keeps session_type) due_items in
  Ok (py_slice_to due_items max_items).

Definition create_review_session (db_manager : bool) (user_id : Z)
    (session_type : string) (max_items : Z) (now : Z)
    : result (list ReviewItem.t) :=
  if negb db_manager then Ok []
  else
    (* Load user progress from database *)
    let user_progress := _load_user_progress user_id in
    review_session user_progress session_type max_items now.

(** ** [SpacedRepetition.suggest_study_plan] *)

(** The plan dictionary.  A focus area [k (v items)] is kept as the pair
    of the type [k] and the count [v]; a recommended session is the pair
    of its type and its number of items. *)
Module StudyPlan.
Record t : Type := mk {
  daily_target : Z;
  current_due : Z;
  recommended_sessions : list (string * Z);
  focus_areas : list (string * Z);
  difficulty_adjustment : string
}.
End StudyPlan.




(** ** The module function [process_user_response] *)



(** * The rest of [quiz_manager.py] *)

Definition QuizDifficulty_value (d : QuizDifficulty) : string :=
  match d with
  | EASY => "easy"
  | MEDIUM => "medium"
  | HARD => "hard"
  end.

(** ** [QuizManager.get_current_question] *)

Module QuestionView.
Record t : Type := mk {
  question_number : Z;
  total_questions : Z;
  question : string;
  options : list string;
  category : string;
  difficulty : string
}.
End QuestionView.

Definition get_current_question (self : QuizManager.t)
    (session_id : SessionId.t) : result (option QuestionView.t) :=
  match dict_get session_id (QuizManager.active_sessions self) with
  | None => Ok None
  | Some session =>
      let total := Z.of_nat (length (QuizSession.questions session)) in
      if total <=? QuizSession.current_question session then Ok None
      else
        question ←
          py_index (QuizSession.questions session)
            (QuizSession.current_question session);
        Ok (Some
              {| QuestionView.question_number :=
                   QuizSession.current_question session + 1;
                 QuestionView.total_questions := total;
                 QuestionView.question := QuizQuestion.question question;
                 QuestionView.options := QuizQuestion.options question;
                 QuestionView.category :=
                   QuizCategory_value (QuizQuestion.category question);
                 QuestionView.difficulty :=
                   QuizDifficulty_value (QuizQuestion.difficulty question) |})
  end.

(** ** The candidates of [_select_questions]

    The first [all_questions] of [_select_questions]: the questions of
    the requested difficulty, from every list of the bank for [MIXED] and
    from the list filed under the category otherwise. *)
Definition matching_questions (self : QuizManager.t)
    (category : QuizCategory) (difficulty : QuizDifficulty)
    : list QuizQuestion.t :=
  let bank := QuizManager.question_bank self in
  let of_difficulty q :=
    bool_decide (QuizQuestion.difficulty q = difficulty) in
  if decide (category = MIXED) then
    fold_left
      (fun all_questions cat_questions =>
         all_questions ++ List.filter of_difficulty cat_questions)
      (dict_values bank) []
  else
    List.filter of_difficulty (default [] (dict_get category bank)).

(** The loop that fills [all_questions] up from the lists of the bank. *)
Definition fill_up (bank_lists : list (list QuizQuestion.t))
    (all_questions : list QuizQuestion.t) : list QuizQuestion.t :=
  fold_left
    (fun all_questions cat_questions =>
       all_questions
       ++ List.filter (fun q => negb (question_in q all_questions))
            cat_questions)
    bank_lists all_questions.

(** The list [all_questions] that [_select_questions] hands to
    [random.sample]: the matching questions, filled up from the whole
    bank when they are fewer than [count]. *)
Definition question_pool (self : QuizManager.t) (category : QuizCategory)
    (difficulty : QuizDifficulty) (count : Z) : list QuizQuestion.t :=
  let all_questions := matching_questions self category difficulty in
  if Z.of_nat (length all_questions) <? count then
    fill_up (dict_values (QuizManager.question_bank self)) all_questions
  else all_questions.

(** A question of some list of the bank. *)
Definition in_bank (self : QuizManager.t) (q : QuizQuestion.t) : Prop :=
  exists cat_questions,
    In cat_questions (dict_values (QuizManager.question_bank self))
    /\ In q cat_questions.

(** What [random.sample(population, k)] promises for [k] within the
    population: [k] elements, all of them from the population. *)
Definition sample_contract
    (sample : list QuizQuestion.t -> nat -> list QuizQuestion.t) : Prop :=
  forall pool k,
    (k <= length pool)%nat ->
    length (sample pool k) = k /\ forall q, In q (sample pool k) -> In q pool.

(** The number of answer slots that hold the correct option of their
    question. *)
Fixpoint count_correct (questions : list QuizQuestion.t)
    (user_answers : list (option Z)) : Z :=
  match questions, user_answers with
  | question :: questions', user_answer :: user_answers' =>
      (if bool_decide
            (user_answer = Some (QuizQuestion.correct_answer question))
       then 1 else 0)
      + count_correct questions' user_answers'
  | _, _ => 0
  end.

(** What a session records: the score counts the correct answers given
    so far, the slots from the current question on are empty, and there
    is one time per answered question. *)
Definition session_record_inv (s : QuizSession.t) : Prop :=
  QuizSession.score s
  = count_correct (QuizSession.questions s) (QuizSession.user_answers s)
  /\ (forall i : nat,
        QuizSession.current_question s <= Z.of_nat i ->
        (i < length (QuizSession.user_answers s))%nat ->
        QuizSession.user_answers s !! i = Some None)
  /\ Z.of_nat (length (QuizSession.time_per_question s))
     = QuizSession.current_question s.

(** ** [quiz_command] with its arguments

    The question count that [quiz_command] parses from its arguments: 10,
    and for every argument with [arg.isdigit()], in turn,
    [max(5, min(20, int(arg)))].  [digit_args] holds, for the arguments
    that pass [isdigit], what [int(arg)] gives: a number, or nothing where
    it raises [ValueError], as it does for a digit that is not a decimal
    one, such as a superscript two. *)
Definition parse_question_count (digit_args : list (option Z)) : result Z :=
  fold_left
    (fun question_count arg =>
       _ ← question_count;
       match arg with
       | Some value => Ok (Z.max 5 (Z.min 20 value))
       | None => Raise ValueError
       end)
    digit_args (Ok 10).

(** The whole of [quiz_command]: the check for an active session, then
    the parsing, which stands outside the [try] block, then the creation
    of the session.  Category and difficulty are found by substring
    tests, which raise nothing, and are given as parsed. *)
Definition quiz_command_handler (self : QuizManager.t) (user_id : Z)
    (category : QuizCategory) (difficulty : QuizDifficulty)
    (digit_args : list (option Z)) (env : Env.t)
    : result QuizCommandReply * QuizManager.t :=
  match sessions_of_user user_id self with
  | session :: _ =>
      (Ok (ShowCurrentQuestion (QuizSession.session_id session)), self)
  | [] =>
      (* Parse quiz parameters *)
      match parse_question_count digit_args with
      | Raise e => (Raise e, self)
      | Ok question_count =>
          let '(reply, self') :=
            quiz_command self user_id category difficulty question_count
              env in
          (Ok reply, self')
      end
  end.

(** ** The quiz manager as the bot drives it

    [main.py] builds the manager with a [SpacedRepetition] object, and
    reaches it only through [quiz_command] and [handle_quiz_answer].
    These are the states reached while the replies to the answers are
    delivered. *)
Inductive bot_reachable : QuizManager.t -> Prop :=
| bot_start db_manager : bot_reachable (QuizManager_init db_manager true)
| bot_quiz_command self user_id category difficulty digit_args env :
    bot_reachable self ->
    sample_contract (Env.sample env) ->
    bot_reachable
      (snd (quiz_command_handler self user_id category difficulty digit_args
              env))
| bot_quiz_answer self user_id message_text now :
    bot_reachable self ->
    bot_reachable
      (snd (handle_quiz_answer self user_id message_text now true true)).

(** The sessions of a bot-driven manager: filed under their own ids,
    which carry the user, within their bounds, of five to nine questions
    of the bank, and with a question still open. *)
Definition bot_session_inv (self : QuizManager.t) (session_id : SessionId.t)
    (s : QuizSession.t) : Prop :=
  QuizSession.session_id s = session_id
  /\ SessionId.user session_id = QuizSession.user_id s
  /\ session_inv s
  /\ (5 <= length (QuizSession.questions s) <= 9)%nat
  /\ (forall q, In q (QuizSession.questions s) -> in_bank self q)
  /\ QuizSession.current_question s
     < Z.of_nat (length (QuizSession.questions s)).

Definition bot_inv (self : QuizManager.t) : Prop :=
  QuizManager.question_bank self = _initialize_question_bank
  /\ keys_unique self
  /\ (forall session_id s,
        dict_get session_id (QuizManager.active_sessions self) = Some s ->
        bot_session_inv self session_id s)
  /\ forall user_id, (length (sessions_of_user user_id self) <= 1)%nat.

(** The replies of [handle_quiz_answer] that report an answer turned
    down by [submit_answer], or an exception raised by it. *)
Definition answer_refused (reply : QuizAnswerReply) : bool :=
  match reply with
  | AnswerRejected _ | AnswerFailed _ => true
  | _ => false
  end.

(** ** Records in a review cycle *)

Section CyclePredicates.
Local Open Scope Q_scope.

(** The shapes of a record that [update_progress] has brought from
    [initialize_item]: new and untouched; learning, with at most one
    repetition and an interval of one minute or one day; or in review,
    with at least two repetitions, a whole number of days as interval,
    and the stage [mastered] exactly from 21 days on. *)
Definition schedule_inv (p : Progress.t) : Prop :=
  exists interval ease repetitions,
    Progress.interval p = Some interval
    /\ Progress.ease_factor p = Some ease
    /\ Progress.repetitions p = Some repetitions
    /\ ease_factor_min <= ease
    /\ ((Progress.stage p = Some (LearningStage_value NEW)
         /\ repetitions = 0%Z /\ interval = 1)
        \/ (Progress.stage p = Some (LearningStage_value LEARNING)
            /\ (0 <= repetitions <= 1)%Z
            /\ (interval = 1 # 1440 \/ interval = 1))
        \/ (exists days : Z,
               (2 <= repetitions)%Z /\ (1 <= days)%Z
               /\ interval = inject_Z days
               /\ Progress.stage p
                  = Some (LearningStage_value
                            (if (21 <=? days)%Z then MASTERED else REVIEW)))).

(** The counters of a record after [n] reviews of which [passes] had a
    passing grade. *)
Definition tally_inv (n passes : Z) (p : Progress.t) : Prop :=
  Progress.total_reviews p = Some n
  /\ Progress.correct_reviews p = Some passes
  /\ exists history level,
       Progress.review_history p = Some history
       /\ Z.of_nat (length history) = Z.min n 20
       /\ Progress.difficulty_level p = Some level
       /\ 0.5 <= level /\ level <= 2.0.

End CyclePredicates.

(** The number of passing grades among the reviews. *)
Definition count_passes (reviews : list (Z * Z)) : Z :=
  Z.of_nat (length (List.filter (fun r => grade_threshold <=? fst r) reviews)).

(** The history that [update_progress] stores: the old one with the new
    entry, cut to its last 20 entries. *)
Definition trimmed_history (entries : list ReviewEntry.t)
    : list ReviewEntry.t :=
  if (20 <? length entries)%nat then py_last 20 entries else entries.

(** An entry whose stage string is a stage value, or absent. *)
Definition stage_known (entry : string * Progress.t) : bool :=
  match stage_counter
          (default (LearningStage_value NEW) (Progress.stage (snd entry))) with
  | Some _ => true
  | None => false
  end.

(** The session that an accepted answer leaves behind. *)
Definition answered (answer : Z) (now : Z) (question : QuizQuestion.t)
    (s : QuizSession.t) : QuizSession.t :=
  let s1 :=
    advance (bool_decide (answer = QuizQuestion.correct_answer question))
      (record_answer
         (<[Z.to_nat (QuizSession.current_question s) := Some answer]>
            (QuizSession.user_answers s))
         (question_time now s) s) in
  if Z.of_nat (length (QuizSession.questions s))
     <=? QuizSession.current_question s + 1
  then stamp_end_time now s1 else s1.

(** A category in which every question was answered correctly. *)
Definition all_correct (entry : QuizCategory * (Z * Z)) : Prop :=
  fst (snd entry) = snd (snd entry) /\ 1 <= snd (snd entry).

(** * Properties of the review scheduler *)

Section SchedulerFacts.
Local Open Scope Q_scope.

Lemma Qmax_min_bound (x : Q) : ease_factor_min <= Qmax x ease_factor_min.
Proof. apply Q.le_max_r. Qed.


(** The learning steps are read at index 0 or 1 only, as long as the
    repetition count is not negative. *)
Lemma learning_step_in_range (repetitions : Z) :
  (0 <= repetitions)%Z ->
  (Z.of_nat (length learning_steps) <=? repetitions + 1)%Z = false ->
  py_index learning_steps (repetitions + 1 - 1) = Ok 1%Z.
Proof.
  intros Hnonneg Hlt. apply Z.leb_gt in Hlt. simpl in Hlt.
  assert (repetitions = 0%Z) as -> by lia. reflexivity.
Qed.

(** *** The branches of [calculate_next_review], one equation each *)

Lemma calc_fail interval ease grade repetitions item_stage now :
  (grade < 3)%Z ->
  calculate_next_review interval ease grade repetitions item_stage now
  = let new_interval :=
      if LearningStage_eqb item_stage NEW then 1 # 1440 else 1 in
    Ok {| NextReview.next_interval := new_interval;
          NextReview.ease_factor := Qmax (ease - 0.2) ease_factor_min;
          NextReview.repetitions := 0;
          NextReview.stage := LEARNING;
          NextReview.next_review_date := now + timedelta_days new_interval |}.
Proof.
  intros Hfail. unfold calculate_next_review, grade_threshold.
  destruct (Z.ltb_spec grade 3) as [_ | Hpass]; [| lia].
  now destruct item_stage.
Qed.

Lemma calc_pass_new interval ease grade repetitions now :
  (3 <= grade)%Z ->
  calculate_next_review interval ease grade repetitions NEW now
  = Ok {| NextReview.next_interval := 1 # 1440;
          NextReview.ease_factor := ease;
          NextReview.repetitions := repetitions + 1;
          NextReview.stage := LEARNING;
          NextReview.next_review_date := now + timedelta_days (1 # 1440) |}.
Proof.
  intros Hpass. unfold calculate_next_review, grade_threshold.
  destruct (Z.ltb_spec grade 3) as [Hfail | _]; [lia | reflexivity].
Qed.

Lemma calc_pass_learning interval ease grade repetitions now :
  (3 <= grade)%Z ->
  calculate_next_review interval ease grade repetitions LEARNING now
  = if (2 <=? repetitions + 1)%Z then
      Ok {| NextReview.next_interval := 1;
            NextReview.ease_factor := ease;
            NextReview.repetitions := repetitions + 1;
            NextReview.stage := REVIEW;
            NextReview.next_review_date := now + timedelta_days 1 |}
    else
      step ← py_index learning_steps (repetitions + 1 - 1);
      Ok {| NextReview.next_interval := inject_Z step / 1440;
            NextReview.ease_factor := ease;
            NextReview.repetitions := repetitions + 1;
            NextReview.stage := LEARNING;
            NextReview.next_review_date :=
              now + timedelta_days (inject_Z step / 1440) |}.
Proof.
  intros Hpass. unfold calculate_next_review, grade_threshold.
  destruct (Z.ltb_spec grade 3) as [Hfail | _]; [lia |].
  change (Z.of_nat (length learning_steps)) with 2%Z.
  cbn [LearningStage_eqb].
  destruct (2 <=? repetitions + 1)%Z; [reflexivity |].
  now destruct (py_index learning_steps (repetitions + 1 - 1)).
Qed.

Lemma calc_pass_review interval ease grade repetitions item_stage now :
  (3 <= grade)%Z ->
  item_stage = REVIEW \/ item_stage = MASTERED ->
  calculate_next_review interval ease grade repetitions item_stage now
  = let days := review_days interval ease grade repetitions in
    Ok {| NextReview.next_interval := inject_Z days;
          NextReview.ease_factor :=
            Qmax (ease + sm2_ease_delta grade) ease_factor_min;
          NextReview.repetitions := repetitions + 1;
          NextReview.stage :=
            if (mastery_threshold <=? days)%Z then MASTERED else REVIEW;
          NextReview.next_review_date :=
            now + timedelta_days (inject_Z days) |}.
Proof.
  intros Hpass Hstage. unfold calculate_next_review, grade_threshold.
  destruct (Z.ltb_spec grade 3) as [Hfail | _]; [lia |].
  now destruct Hstage as [-> | ->].
Qed.

(** [calculate_next_review] returns for every record whose repetition
    count is not negative. *)
Lemma calculate_next_review_returns interval ease grade repetitions
    item_stage now :
  (0 <= repetitions)%Z ->
  exists r,
    calculate_next_review interval ease grade repetitions item_stage now
    = Ok r.
Proof.
  intros Hreps.
  destruct (Z.lt_ge_cases grade 3) as [Hfail | Hpass].
  - rewrite calc_fail by done. eauto.
  - destruct item_stage.
    + rewrite calc_pass_new by done. eauto.
    + rewrite calc_pass_learning by done.
      destruct (2 <=? repetitions + 1)%Z eqn:Hsteps; [eauto |].
      rewrite (learning_step_in_range repetitions Hreps Hsteps). simpl. eauto.
    + rewrite (calc_pass_review _ _ _ _ REVIEW) by auto. eauto.
    + rewrite (calc_pass_review _ _ _ _ MASTERED) by auto. eauto.
Qed.

(** Whatever it returns, the ease factor is the old one or a value
    clamped to the floor. *)
Lemma calculate_next_review_ease interval ease grade repetitions item_stage
    now r :
  calculate_next_review interval ease grade repetitions item_stage now = Ok r ->
  NextReview.ease_factor r = ease
  \/ ease_factor_min <= NextReview.ease_factor r.
Proof.
  destruct (Z.lt_ge_cases grade 3) as [Hfail | Hpass].
  - rewrite calc_fail by done. intros [= <-]. right. apply Qmax_min_bound.
  - destruct item_stage.
    + rewrite calc_pass_new by done. intros [= <-]. now left.
    + rewrite calc_pass_learning by done.
      destruct (2 <=? repetitions + 1)%Z; [intros [= <-]; now left |].
      destruct (py_index learning_steps (repetitions + 1 - 1)); simpl;
        [intros [= <-]; now left | discriminate].
    + rewrite (calc_pass_review _ _ _ _ REVIEW) by auto.
      intros [= <-]. right. apply Qmax_min_bound.
    + rewrite (calc_pass_review _ _ _ _ MASTERED) by auto.
      intros [= <-]. right. apply Qmax_min_bound.
Qed.

Lemma calculate_next_review_repetitions interval ease grade repetitions
    item_stage now r :
  (0 <= repetitions)%Z ->
  calculate_next_review interval ease grade repetitions item_stage now = Ok r ->
  (0 <= NextReview.repetitions r)%Z.
Proof.
  intros Hreps.
  destruct (Z.lt_ge_cases grade 3) as [Hfail | Hpass].
  - rewrite calc_fail by done. intros [= <-]. simpl. lia.
  - destruct item_stage.
    + rewrite calc_pass_new by done. intros [= <-]. simpl. lia.
    + rewrite calc_pass_learning by done.
      destruct (2 <=? repetitions + 1)%Z; [intros [= <-]; simpl; lia |].
      destruct (py_index learning_steps (repetitions + 1 - 1)); simpl;
        [intros [= <-]; simpl; lia | discriminate].
    + rewrite (calc_pass_review _ _ _ _ REVIEW) by auto.
      intros [= <-]. simpl. lia.
    + rewrite (calc_pass_review _ _ _ _ MASTERED) by auto.
      intros [= <-]. simpl. lia.
Qed.

End SchedulerFacts.

(** *** Well-formed progress records *)

Section ProgressFacts.
Local Open Scope Q_scope.

Lemma LearningStage_of_value_value (s : LearningStage) :
  LearningStage_of_value (LearningStage_value s) = Ok s.
Proof. now destruct s. Qed.

Lemma initialize_item_wf item_id item_type content now :
  progress_wf (initialize_item item_id item_type content now).
Proof.
  exists 1, ease_factor_default, 0%Z, NEW.
  split_and!; [reflexivity .. | lia | unfold ease_factor_min, ease_factor_default; lra].
Qed.

Lemma _update_difficulty_level_fields (p : Progress.t) :
  let p' := _update_difficulty_level p in
  Progress.interval p' = Progress.interval p
  /\ Progress.ease_factor p' = Progress.ease_factor p
  /\ Progress.repetitions p' = Progress.repetitions p
  /\ Progress.stage p' = Progress.stage p
  /\ Progress.review_history p' = Progress.review_history p.
Proof.
  unfold _update_difficulty_level.
  destruct (_ <? 3)%nat; [done |].
  destruct (Qle_bool 4.5 _); [done |].
  now destruct (negb _).
Qed.

(** [update_progress] returns on a well-formed record, for any grade, and
    the record it returns is well formed. *)
Lemma update_progress_wf p grade response_time now :
  progress_wf p ->
  exists p', update_progress p grade response_time now = Ok p'
             /\ progress_wf p'.
Proof.
  intros (interval & ease & repetitions & stage & Hi & He & Hr & Hs & Hr0 & He0).
  unfold update_progress. rewrite Hi, He, Hr, Hs. simpl.
  rewrite LearningStage_of_value_value. simpl.
  destruct (calculate_next_review_returns interval ease grade repetitions
              stage now Hr0) as [r Hcalc].
  rewrite Hcalc. simpl. eexists. split; [reflexivity |].
  match goal with |- progress_wf (_update_difficulty_level ?q) =>
    destruct (_update_difficulty_level_fields q) as (Ei & Ee & Er & Est & _)
  end.
  exists (NextReview.next_interval r), (NextReview.ease_factor r),
    (NextReview.repetitions r), (NextReview.stage r).
  rewrite Ei, Ee, Er, Est. simpl. repeat split.
  - eapply calculate_next_review_repetitions; eassumption.
  - destruct (calculate_next_review_ease _ _ _ _ _ _ _ Hcalc) as [-> | Hmin];
      assumption.
Qed.

Lemma review_cycle_wf reviews : forall p,
  progress_wf p ->
  exists p', review_cycle p reviews = Ok p' /\ progress_wf p'.
Proof.
  induction reviews as [| [grade now] reviews IH]; intros p Hwf; simpl.
  - eauto.
  - destruct (update_progress_wf p grade None now Hwf) as (p1 & -> & Hwf1).
    simpl. now apply IH.
Qed.

End ProgressFacts.

(** * The claims about the review scheduler *)

Section SchedulerClaims.
Local Open Scope Q_scope.

(** C1. The ease factor never drops below 1.3.  For a record with ease
    factor at least 1.3 and a grade 0..5, every result that
    [calculate_next_review] returns has an ease factor of at least 1.3;
    hence whenever a review cycle that starts from a record made by
    [initialize_item] runs to its end, it leaves an ease factor of at
    least 1.3. *)
Theorem C1_ease_factor_floor :
  (forall interval ease grade repetitions item_stage now r,
      1.3 <= ease -> (0 <= grade <= 5)%Z ->
      calculate_next_review interval ease grade repetitions item_stage now
      = Ok r ->
      1.3 <= NextReview.ease_factor r)
  /\ (forall item_id item_type content created reviews p,
         Forall (fun review => (0 <= fst review <= 5)%Z) reviews ->
         review_cycle (initialize_item item_id item_type content created)
           reviews = Ok p ->
         exists ease,
           Progress.ease_factor p = Some ease /\ 1.3 <= ease).
Proof.
  split.
  - intros interval ease grade repetitions item_stage now r Hease _ Hcalc.
    destruct (calculate_next_review_ease _ _ _ _ _ _ _ Hcalc) as [-> | Hmin];
      assumption.
  - intros item_id item_type content created reviews p _ Hcycle.
    destruct (review_cycle_wf reviews _
                (initialize_item_wf item_id item_type content created))
      as (p' & Hp & (i & e & r & s & _ & He & _ & _ & _ & Hmin)).
    assert (p' = p) as -> by congruence.
    exists e. auto.
Qed.

Lemma C1_ease_factor_floor_witness :
  (exists r,
      calculate_next_review 4 1.4 2%Z 3%Z REVIEW 0%Z = Ok r
      /\ 1.3 <= NextReview.ease_factor r)
  /\ exists p ease,
       review_cycle (initialize_item "qa_001" "vocabulary" None 0)
         [(5, 1000000); (2, 2000000); (0, 3000000)]%Z = Ok p
       /\ Progress.ease_factor p = Some ease
       /\ 1.3 <= ease.
Proof.
  destruct C1_ease_factor_floor as [Hstep Hcycle]. split.
  - assert (exists r, calculate_next_review 4 1.4 2%Z 3%Z REVIEW 0%Z = Ok r)
      as [r Hr] by (eexists; reflexivity).
    assert (1.3 <= 1.4) as Hease by (unfold Qle; simpl; lia).
    assert (0 <= 2 <= 5)%Z as Hgrade by lia.
    exists r. split; [exact Hr |].
    exact (Hstep 4 1.4 2%Z 3%Z REVIEW 0%Z r Hease Hgrade Hr).
  - assert (exists p,
               review_cycle (initialize_item "qa_001" "vocabulary" None 0)
                 [(5, 1000000); (2, 2000000); (0, 3000000)]%Z = Ok p)
      as [p Hp] by (eexists; reflexivity).
    destruct (Hcycle "qa_001"%string "vocabulary"%string None 0%Z
                [(5, 1000000); (2, 2000000); (0, 3000000)]%Z p)
      as (ease & He & Hmin);
      [repeat constructor; simpl; lia | exact Hp |].
    exists p, ease. now split_and!.
Defined.

(** C4. A failing grade (below 3) sends the item back to learning from any
    stage: stage [learning], repetitions 0, ease factor
    [max (ease - 0.2) 1.3], and the interval is the first learning step,
    one minute expressed in days, for a [new] item and one day for any
    other stage. *)
Theorem C4_fail_resets_to_learning :
  forall interval ease grade repetitions item_stage now,
    (grade < 3)%Z ->
    exists r,
      calculate_next_review interval ease grade repetitions item_stage now
      = Ok r
      /\ NextReview.stage r = LEARNING
      /\ NextReview.repetitions r = 0%Z
      /\ NextReview.ease_factor r = Qmax (ease - 0.2) 1.3
      /\ NextReview.next_interval r
         == (if LearningStage_eqb item_stage NEW
             then 1 / inject_Z (24 * 60) else 1).
Proof.
  intros interval ease grade repetitions item_stage now Hfail.
  rewrite calc_fail by assumption. eexists. split; [reflexivity |].
  simpl. split_and!; try reflexivity.
Qed.

Lemma C4_fail_resets_to_learning_witness :
  exists r,
    calculate_next_review 6 2.5 2%Z 4%Z MASTERED 0%Z = Ok r
    /\ NextReview.stage r = LEARNING
    /\ NextReview.repetitions r = 0%Z
    /\ NextReview.ease_factor r = Qmax (2.5 - 0.2) 1.3
    /\ NextReview.next_interval r
       == (if LearningStage_eqb MASTERED NEW
           then 1 / inject_Z (24 * 60) else 1).
Proof. apply (C4_fail_resets_to_learning 6 2.5 2%Z 4%Z MASTERED 0%Z). lia. Defined.




(** [l[-k:]] is the suffix of [l] of length [min k (len l)]. *)
Lemma py_last_suffix {A : Type} (k : nat) (l : list A) :
  exists front, l = front ++ py_last k l
                /\ length (py_last k l) = Nat.min k (length l).
Proof.
  exists (take (length l - k) l). unfold py_last. split.
  - now rewrite take_drop.
  - rewrite length_drop. lia.
Qed.



End SchedulerClaims.

(** * Properties of the due-item selector *)

Section SortFacts.
Local Open Scope Q_scope.

Lemma insert_by_priority_perm x l :
  Permutation (x :: l) (insert_by_priority x l).
Proof.
  induction l as [| y l IH]; simpl; [reflexivity |].
  destruct (Qle_bool _ _); [reflexivity |].
  rewrite perm_swap. now apply perm_skip.
Qed.

Lemma sort_by_priority_desc_perm l :
  Permutation l (sort_by_priority_desc l).
Proof.
  induction l as [| x l IH]; simpl; [reflexivity |].
  rewrite <- insert_by_priority_perm. now apply perm_skip.
Qed.

Lemma insert_by_priority_sorted x l :
  StronglySorted priority_ge l ->
  StronglySorted priority_ge (insert_by_priority x l).
Proof.
  induction 1 as [| y l Hsorted IH Hall]; simpl.
  - repeat constructor.
  - destruct (Qle_bool (ReviewItem.priority y) (ReviewItem.priority x))
      eqn:Hcmp.
    + apply Qle_bool_iff in Hcmp.
      constructor; [now constructor |].
      constructor; [exact Hcmp |].
      eapply Forall_impl; [exact Hall |].
      unfold priority_ge. intros z Hz. lra.
    + assert (ReviewItem.priority x < ReviewItem.priority y) as Hlt.
      { apply Qnot_le_lt. intros Hle. apply Qle_bool_iff in Hle. congruence. }
      constructor; [exact IH |].
      rewrite <- insert_by_priority_perm.
      constructor; [unfold priority_ge; lra | exact Hall].
Qed.

Lemma sort_by_priority_desc_sorted l :
  StronglySorted priority_ge (sort_by_priority_desc l).
Proof.
  induction l as [| x l IH]; simpl; [constructor |].
  now apply insert_by_priority_sorted.
Qed.

(** Insertion keeps the new item in front of the items of its own
    priority and does not reorder the others. *)
Lemma insert_by_priority_stable q x l :
  with_priority q (insert_by_priority x l) = with_priority q (x :: l).
Proof.
  induction l as [| y l IH]; [reflexivity |].
  cbn [insert_by_priority].
  destruct (Qle_bool (ReviewItem.priority y) (ReviewItem.priority x))
    eqn:Hcmp; [reflexivity |].
  unfold with_priority in *. cbn [List.filter] in *. rewrite IH.
  destruct (Qeq_bool (ReviewItem.priority x) q) eqn:Hx;
    destruct (Qeq_bool (ReviewItem.priority y) q) eqn:Hy; try reflexivity.
  apply Qeq_bool_iff in Hx, Hy.
  assert (Qle_bool (ReviewItem.priority y) (ReviewItem.priority x) = true)
    by (apply Qle_bool_iff; lra).
  congruence.
Qed.

Lemma sort_by_priority_desc_stable q l :
  with_priority q (sort_by_priority_desc l) = with_priority q l.
Proof.
  induction l as [| x l IH]; [reflexivity |].
  cbn [sort_by_priority_desc fold_right].
  rewrite insert_by_priority_stable.
  unfold with_priority in *. cbn [List.filter].
  fold (sort_by_priority_desc l). now rewrite IH.
Qed.

Lemma StronglySorted_take {A : Type} (R : A -> A -> Prop) n (l : list A) :
  StronglySorted R l -> StronglySorted R (take n l).
Proof.
  intros Hsorted. revert n.
  induction Hsorted as [| x l Hsorted IH Hall]; intros [| n]; simpl;
    try constructor.
  - apply IH.
  - apply Forall_take. exact Hall.
Qed.

Lemma py_slice_to_take {A : Type} (l : list A) (m : Z) :
  exists n, py_slice_to l m = take n l.
Proof. unfold py_slice_to. destruct (m <? 0)%Z; eauto. Qed.

Lemma py_slice_to_length {A : Type} (l : list A) (m : Z) :
  (0 <= m)%Z -> (Z.of_nat (length (py_slice_to l m)) <= m)%Z.
Proof.
  intros Hm. unfold py_slice_to.
  destruct (Z.ltb_spec m 0); [lia |].
  rewrite length_take. lia.
Qed.

Lemma with_priority_take q n l :
  exists rest,
    with_priority q l = with_priority q (take n l) ++ rest.
Proof.
  exists (with_priority q (drop n l)).
  unfold with_priority. rewrite <- List.filter_app. now rewrite take_drop.
Qed.

End SortFacts.

Section DueItemFacts.
Local Open Scope Q_scope.

Lemma make_review_item_fields item_id progress now item :
  make_review_item item_id progress now = Ok item ->
  ReviewItem.item_id item = item_id
  /\ ReviewItem.priority item = _calculate_priority progress now.
Proof.
  unfold make_review_item.
  destruct (LearningStage_of_value _); [simpl | discriminate].
  now intros [= <-].
Qed.

(** The loop visits the selected entries in order and builds one item
    for each. *)
Lemma collect_due_selected user_progress item_types now : forall due,
  collect_due user_progress item_types now = Ok due ->
  Forall2
    (fun entry item => make_review_item (fst entry) (snd entry) now = Ok item)
    (selected_entries user_progress item_types now) due.
Proof.
  unfold selected_entries.
  induction user_progress as [| [item_id progress] rest IH]; simpl.
  - intros due [= <-]. constructor.
  - destruct (type_filtered_out item_types progress); simpl; [exact IH |].
    destruct (is_due now progress); simpl; [| exact IH].
    destruct (make_review_item item_id progress now) as [item |] eqn:Hitem;
      [simpl | discriminate].
    destruct (collect_due rest item_types now) as [items |];
      [simpl | discriminate].
    intros due [= <-]. constructor; [exact Hitem | now apply IH].
Qed.

(** The loop raises only on a stage that is not the value of a
    [LearningStage]. *)
Lemma collect_due_returns user_progress item_types now :
  Forall
    (fun entry =>
       exists stage,
         default (LearningStage_value NEW) (Progress.stage (snd entry))
         = LearningStage_value stage)
    user_progress ->
  exists due, collect_due user_progress item_types now = Ok due.
Proof.
  induction 1 as [| [item_id progress] rest [stage Hstage] _ [due IH]];
    simpl; [eauto |].
  destruct (type_filtered_out item_types progress); [eauto |].
  destruct (is_due now progress); [| eauto].
  unfold make_review_item. cbn [snd] in Hstage. rewrite Hstage.
  rewrite LearningStage_of_value_value. simpl. rewrite IH. simpl. eauto.
Qed.

Lemma is_due_same_reading now1 now2 progress :
  same_reading now1 now2 progress ->
  is_due now1 progress = is_due now2 progress.
Proof.
  unfold same_reading, is_due.
  destruct (Progress.next_review_date progress) as [t |]; simpl.
  - now intros [Hdue _].
  - intros _. now rewrite !Z.leb_refl.
Qed.

Lemma make_review_item_same_reading item_id now1 now2 progress :
  same_reading now1 now2 progress ->
  make_review_item item_id progress now1
  = make_review_item item_id progress now2.
Proof.
  unfold same_reading, make_review_item, _calculate_priority.
  destruct (Progress.next_review_date progress) as [t |]; simpl.
  - now intros [_ ->].
  - intros _. now rewrite !Z.sub_diag.
Qed.

Lemma collect_due_same_reading user_progress item_types now1 now2 :
  Forall (fun entry => same_reading now1 now2 (snd entry)) user_progress ->
  collect_due user_progress item_types now1
  = collect_due user_progress item_types now2.
Proof.
  induction 1 as [| [item_id progress] rest Hsame _ IH]; simpl;
    [reflexivity |].
  simpl in Hsame.
  rewrite (is_due_same_reading _ _ _ Hsame),
    (make_review_item_same_reading item_id _ _ _ Hsame), IH.
  reflexivity.
Qed.

End DueItemFacts.

Section DueItemClaims.
Local Open Scope Q_scope.

Lemma In_take {A : Type} (x : A) n (l : list A) : In x (take n l) -> In x l.
Proof.
  intros Hin. rewrite <- (take_drop n l). apply in_or_app. now left.
Qed.

Lemma Forall2_In_r {A B : Type} (R : A -> B -> Prop) l1 l2 y :
  Forall2 R l1 l2 -> In y l2 -> exists x, In x l1 /\ R x y.
Proof.
  induction 1 as [| x y' l1 l2 HR _ IH]; simpl; [done |].
  intros [<- | Hin]; [eauto |].
  destruct (IH Hin) as (x' & Hx' & HR'). eauto.
Qed.

(** What [get_due_items] guarantees when [max_items] is absent or
    positive: the cap (50 when absent), only due entries of the map, a
    list sorted by descending priority, and, within one priority, the
    iteration order of the map. *)
Lemma get_due_items_capped_sorted user_progress max_items item_types now out :
  get_due_items user_progress max_items item_types now = Ok out ->
  (max_items = None -> (length out <= 50)%nat)
  /\ (forall m, max_items = Some m -> (0 < m)%Z ->
               (Z.of_nat (length out) <= m)%Z)
  /\ Forall
       (fun item =>
          exists item_id progress,
            In (item_id, progress) user_progress
            /\ ReviewItem.item_id item = item_id
            /\ (default now (Progress.next_review_date progress) <= now)%Z
            /\ make_review_item item_id progress now = Ok item)
       out
  /\ StronglySorted priority_ge out
  /\ (exists due,
         Forall2
           (fun entry item =>
              make_review_item (fst entry) (snd entry) now = Ok item)
           (selected_entries user_progress item_types now) due
         /\ forall q, exists rest,
              with_priority q due = with_priority q out ++ rest).
Proof.
  unfold get_due_items.
  destruct (collect_due user_progress item_types now) as [due |] eqn:Hdue;
    [simpl | discriminate].
  intros [= <-].
  pose proof (collect_due_selected _ _ _ _ Hdue) as Hsel.
  destruct (py_slice_to_take (sort_by_priority_desc due)
              (effective_max_items max_items)) as [n Hn].
  split_and!.
  - intros ->. change (effective_max_items None) with 50%Z.
    pose proof (py_slice_to_length (sort_by_priority_desc due) 50). lia.
  - intros m -> Hm. unfold effective_max_items.
    destruct (Z.eqb_spec m 0); [lia |].
    apply py_slice_to_length. lia.
  - rewrite Hn. apply Forall_forall. intros item Hin.
    apply list_elem_of_In, In_take in Hin.
    apply (Permutation_in _ (Permutation_sym
                               (sort_by_priority_desc_perm due))) in Hin.
    destruct (Forall2_In_r _ _ _ _ Hsel Hin) as ([item_id progress] & He & Hmk).
    apply filter_In in He as [Hup Hpass].
    apply andb_prop in Hpass as [_ Hpass]. apply Z.leb_le in Hpass.
    exists item_id, progress. split_and!; try assumption.
    now destruct (make_review_item_fields _ _ _ _ Hmk).
  - rewrite Hn. apply StronglySorted_take, sort_by_priority_desc_sorted.
  - exists due. split; [exact Hsel |]. intros q. rewrite Hn.
    rewrite <- (sort_by_priority_desc_stable q due).
    apply with_priority_take.
Qed.

(** C5, at the input on which the cap fails: with [max_items = 0] the
    [or] in [max_items or self.max_daily_reviews] takes the default of 50,
    and the one due item of the map is returned although at most 0 items
    were asked for. *)
Theorem C5_zero_max_items_not_a_cap :
  exists out,
    get_due_items
      [("abundant"%string,
        initialize_item "abundant" (ItemType_value VOCABULARY) None 0)]
      (Some 0%Z) None day_us
    = Ok out
    /\ length out = 1%nat
    /\ ~ (Z.of_nat (length out) <= 0)%Z
    /\ py_slice_to out 0 = [].
Proof.
  eexists. split; [reflexivity |]. split_and!; [reflexivity | | reflexivity].
  simpl. lia.
Qed.

(** C8. [get_due_items] reads the progress map and the clock and writes
    nothing: the map it leaves behind is the map it was given, a second
    call at the same clock reading returns the same ordered list, and so
    does a second call at a later reading as long as no entry has become
    due or gained a whole day of delay in between. *)
Theorem C8_get_due_items_repeatable :
  (forall max_items item_types now user_progress,
      snd (get_due_items_st max_items item_types now user_progress)
      = user_progress)
  /\ (forall max_items item_types now user_progress,
         let first := get_due_items_st max_items item_types now user_progress in
         let second := get_due_items_st max_items item_types now (snd first) in
         fst second = fst first /\ snd second = user_progress)
  /\ (forall max_items item_types now1 now2 user_progress,
         Forall (fun entry => same_reading now1 now2 (snd entry))
           user_progress ->
         let first := get_due_items_st max_items item_types now1 user_progress in
         let second := get_due_items_st max_items item_types now2 (snd first) in
         fst second = fst first /\ snd second = user_progress).
Proof.
  split_and!.
  - reflexivity.
  - intros. split; reflexivity.
  - intros max_items item_types now1 now2 user_progress Hsame. cbv zeta.
    unfold get_due_items_st, get_due_items. cbn [fst snd].
    now rewrite (collect_due_same_reading _ item_types _ _ Hsame).
Qed.

Lemma C8_get_due_items_repeatable_witness :
  let user_progress :=
    [("abundant"%string,
      initialize_item "abundant" (ItemType_value VOCABULARY) None 0);
     ("plentiful"%string,
      initialize_item "plentiful" (ItemType_value VOCABULARY) None
        (2 * day_us))] in
  let first := get_due_items_st (Some 10%Z) None day_us user_progress in
  let second :=
    get_due_items_st (Some 10%Z) None (day_us + 60000000) (snd first) in
  fst second = fst first /\ snd second = user_progress.
Proof.
  apply (proj2 (proj2 C8_get_due_items_repeatable)).
  repeat constructor.
Defined.

(** The clock is an input all the same: an item that falls due between
    two calls is missing from the first list and present in the second. *)
Lemma get_due_items_reads_the_clock :
  let user_progress :=
    [("plentiful"%string,
      initialize_item "plentiful" (ItemType_value VOCABULARY) None
        (2 * day_us))] in
  length <$> get_due_items user_progress None None day_us = Ok 0%nat
  /\ length <$> get_due_items user_progress None None (3 * day_us) = Ok 1%nat.
Proof. split; reflexivity. Qed.

End DueItemClaims.

(** * Properties of the quiz manager *)

Section PyDictFacts.
Context {K V : Type} `{EqDecision K}.
Implicit Types (k : K) (v : V) (d : list (K * V)).

Lemma dict_get_set_eq k v d : dict_get k (dict_set k v d) = Some v.
Proof.
  induction d as [| [k' v'] d IH]; simpl.
  - now rewrite decide_True.
  - destruct (decide (k = k')) as [-> | Hne]; simpl.
    + now rewrite decide_True.
    + now rewrite decide_False.
Qed.

Lemma dict_get_set_ne k k' v d :
  k <> k' -> dict_get k' (dict_set k v d) = dict_get k' d.
Proof.
  intros Hne. induction d as [| [k0 v0] d IH]; simpl.
  - now rewrite decide_False.
  - destruct (decide (k = k0)) as [-> | Hk]; simpl.
    + now rewrite !decide_False.
    + now rewrite IH.
Qed.

Lemma dict_get_del_eq k d : dict_get k (dict_del k d) = None.
Proof.
  induction d as [| [k' v'] d IH]; simpl; [reflexivity |].
  destruct (decide (k = k')) as [-> | Hne]; simpl; [exact IH |].
  now rewrite decide_False.
Qed.

Lemma dict_get_del_ne k k' d :
  k <> k' -> dict_get k' (dict_del k d) = dict_get k' d.
Proof.
  intros Hne. induction d as [| [k0 v0] d IH]; simpl; [reflexivity |].
  destruct (decide (k = k0)) as [-> | Hk]; simpl.
  - now rewrite decide_False.
  - now rewrite IH.
Qed.

Lemma dict_get_In k v d : dict_get k d = Some v -> In (k, v) d.
Proof.
  induction d as [| [k' v'] d IH]; simpl; [discriminate |].
  destruct (decide (k = k')) as [-> | Hne].
  - intros [= ->]. now left.
  - intros Hget. right. now apply IH.
Qed.

Lemma dict_set_keys k v d :
  map fst (dict_set k v d)
  = if dict_mem k d then map fst d else map fst d ++ [k].
Proof.
  unfold dict_mem. induction d as [| [k' v'] d IH]; simpl; [reflexivity |].
  destruct (decide (k = k')) as [-> | Hne]; simpl; [reflexivity |].
  rewrite IH. now destruct (dict_get k d).
Qed.

Lemma dict_get_None_keys k d : dict_get k d = None -> ~ In k (map fst d).
Proof.
  induction d as [| [k' v'] d IH]; simpl; [tauto |].
  destruct (decide (k = k')) as [-> | Hne]; [discriminate |].
  intros Hget [Heq | Hin]; [congruence | now apply IH].
Qed.

Lemma dict_set_NoDup k v d :
  NoDup (map fst d) -> NoDup (map fst (dict_set k v d)).
Proof.
  intros Hnodup. rewrite dict_set_keys. unfold dict_mem.
  destruct (dict_get k d) eqn:Hget; [assumption |].
  apply NoDup_app.
  split_and!; [assumption | | apply NoDup_singleton].
  intros k' Hin Hk'. apply list_elem_of_singleton in Hk' as ->.
  apply list_elem_of_In in Hin. now apply (dict_get_None_keys _ _ Hget).
Qed.

Lemma In_dict_get k v d :
  NoDup (map fst d) -> In (k, v) d -> dict_get k d = Some v.
Proof.
  induction d as [| [k' v'] d IH]; simpl; [tauto |].
  intros Hnodup. apply NoDup_cons in Hnodup as [Hfresh Hnodup].
  intros [[= -> ->] | Hin].
  - now rewrite decide_True.
  - destruct (decide (k = k')) as [-> | Hne]; [| now apply IH].
    exfalso. apply Hfresh, list_elem_of_In. now apply (in_map fst) in Hin.
Qed.

End PyDictFacts.

Section SessionFacts.

Lemma py_index_in_range {A : Type} (l : list A) (i : Z) :
  0 <= i < Z.of_nat (length l) -> exists a, py_index l i = Ok a.
Proof.
  intros Hi. unfold py_index.
  destruct (Z.ltb_spec i 0); [lia |].
  destruct (Z.ltb_spec i 0); [lia |].
  destruct (Z.leb_spec (Z.of_nat (length l)) i); [lia |]. simpl.
  destruct (l !! Z.to_nat i) eqn:Hlook; [eauto |].
  apply lookup_ge_None in Hlook. lia.
Qed.

Lemma py_setitem_in_range {A : Type} (l : list A) (i : Z) (v : A) :
  0 <= i < Z.of_nat (length l) ->
  exists l', py_setitem l i v = Ok l' /\ length l' = length l.
Proof.
  intros Hi. unfold py_setitem.
  destruct (Z.ltb_spec i 0); [lia |].
  destruct (Z.ltb_spec i 0); [lia |].
  destruct (Z.leb_spec (Z.of_nat (length l)) i); [lia |]. simpl.
  eexists. split; [reflexivity | apply length_insert].
Qed.

Lemma category_performance_returns questions : forall user_answers i acc,
  0 <= i ->
  i + Z.of_nat (length questions) <= Z.of_nat (length user_answers) ->
  exists perf, category_performance questions user_answers i acc = Ok perf.
Proof.
  induction questions as [| question rest IH]; intros user_answers i acc Hi Hlen;
    simpl in *; [eauto |].
  destruct (default (0, 0) (dict_get _ acc)) as [correct total].
  destruct (py_index_in_range user_answers i) as [a ->]; [lia |]. simpl.
  apply IH; lia.
Qed.

Lemma _update_spaced_repetition_returns questions : forall user_answers i now,
  0 <= i ->
  i + Z.of_nat (length questions) <= Z.of_nat (length user_answers) ->
  exists updated,
    _update_spaced_repetition questions user_answers i now = Ok updated.
Proof.
  induction questions as [| question rest IH]; intros user_answers i now Hi Hlen;
    simpl in *; [eauto |].
  destruct (py_index_in_range user_answers i) as [a ->]; [lia |]. simpl.
  match goal with |- context [update_progress ?p ?g None now] =>
    destruct (update_progress_wf p g None now) as (p' & -> & _);
      [apply initialize_item_wf |]
  end.
  simpl. destruct (IH user_answers (i + 1) now) as [others ->]; [lia | lia |].
  simpl. eauto.
Qed.

Lemma _generate_result_returns self s now :
  (0 < length (QuizSession.questions s))%nat ->
  length (QuizSession.user_answers s) = length (QuizSession.questions s) ->
  exists quiz_result,
    _generate_result self (stamp_end_time now s) = Ok quiz_result.
Proof.
  intros Hpos Hlen. unfold _generate_result. cbn [stamp_end_time
    QuizSession.end_time QuizSession.questions QuizSession.user_answers
    QuizSession.start_time QuizSession.score mbind result_bind].
  destruct (Z.eqb_spec (Z.of_nat (length (QuizSession.questions s))) 0);
    [lia |].
  destruct (category_performance_returns (QuizSession.questions s)
              (QuizSession.user_answers s) 0 []) as [perf ->]; [lia | lia |].
  eauto.
Qed.

(** An answer to a session that still has a question open: the call
    returns the feedback and replaces the session by its successor. *)
Lemma submit_answer_step self session_id answer now s :
  dict_get session_id (QuizManager.active_sessions self) = Some s ->
  session_inv s ->
  QuizSession.current_question s
  < Z.of_nat (length (QuizSession.questions s)) ->
  exists f s',
    submit_answer self session_id answer now
    = (Ok (Response.Answer f), store_session session_id s' self)
    /\ QuizSession.current_question s' = QuizSession.current_question s + 1
    /\ (QuizSession.score s' = QuizSession.score s
        \/ QuizSession.score s' = QuizSession.score s + 1)
    /\ QuizSession.questions s' = QuizSession.questions s
    /\ length (QuizSession.user_answers s')
       = length (QuizSession.user_answers s)
    /\ QuizSession.session_id s' = QuizSession.session_id s
    /\ QuizSession.user_id s' = QuizSession.user_id s
    /\ (if Z.of_nat (length (QuizSession.questions s))
           <=? QuizSession.current_question s + 1
        then Response.quiz_completed f = true
             /\ QuizSession.end_time s' = Some now
        else Response.quiz_completed f = false
             /\ QuizSession.end_time s' = QuizSession.end_time s).
Proof.
  intros Hget (Hscore & Hcur & Hmax & Hlen) Hopen.
  unfold submit_answer. rewrite Hget.
  destruct (Z.leb_spec (Z.of_nat (length (QuizSession.questions s)))
              (QuizSession.current_question s)); [lia |].
  destruct (py_setitem_in_range (QuizSession.user_answers s)
              (QuizSession.current_question s) (Some answer))
    as (answers & -> & Hanswers); [lia |].
  cbv zeta. cbn [record_answer QuizSession.questions].
  destruct (py_index_in_range (QuizSession.questions s)
              (QuizSession.current_question s)) as [question ->]; [lia |].
  cbn [advance record_answer QuizSession.current_question QuizSession.score
       QuizSession.questions QuizSession.user_answers].
  destruct (Z.leb_spec (Z.of_nat (length (QuizSession.questions s)))
              (QuizSession.current_question s + 1)) as [Hlast | Hmore].
  - match goal with |- context [_generate_result ?m (stamp_end_time now ?t)] =>
      destruct (_generate_result_returns m t now) as [quiz_result ->];
        [simpl; lia | simpl; congruence |]
    end.
    cbn [store_session set_active_sessions QuizManager.spaced_repetition
         stamp_end_time advance record_answer QuizSession.questions
         QuizSession.user_answers].
    assert (exists updated,
               (if QuizManager.spaced_repetition self
                then _update_spaced_repetition (QuizSession.questions s)
                       answers 0 now
                else Ok []) = Ok updated) as [updated ->].
    { destruct (QuizManager.spaced_repetition self); [| eauto].
      apply _update_spaced_repetition_returns; lia. }
    eexists. eexists. split; [reflexivity |].
    cbn. split_and!; try reflexivity; try assumption.
    destruct (bool_decide _); [right | left]; reflexivity.
  - eexists. eexists. split; [reflexivity |].
    cbn. split_and!; try reflexivity; try assumption.
    destruct (bool_decide _); [right | left]; reflexivity.
Qed.

(** The two ways in which [submit_answer] turns an answer down. *)
Lemma submit_answer_unknown self session_id answer now :
  dict_get session_id (QuizManager.active_sessions self) = None ->
  submit_answer self session_id answer now
  = (Ok (Response.Error "Session not found"), self).
Proof. intros Hget. unfold submit_answer. now rewrite Hget. Qed.

Lemma submit_answer_completed self session_id answer now s :
  dict_get session_id (QuizManager.active_sessions self) = Some s ->
  Z.of_nat (length (QuizSession.questions s))
  <= QuizSession.current_question s ->
  submit_answer self session_id answer now
  = (Ok (Response.Error "Quiz already completed"), self).
Proof.
  intros Hget Hdone. unfold submit_answer. rewrite Hget.
  now destruct (Z.leb_spec (Z.of_nat (length (QuizSession.questions s)))
                  (QuizSession.current_question s)); [| lia].
Qed.

Lemma create_weekly_quiz_session self user_id category difficulty
    question_count env session self' :
  create_weekly_quiz self user_id category difficulty question_count env
  = Ok (session, self') ->
  self'
  = store_session (QuizSession.session_id session) session self
  /\ QuizSession.session_id session
     = SessionId.mk user_id (Env.now env / 1000000) (Env.uuid8 env)
  /\ QuizSession.user_id session = user_id
  /\ QuizSession.current_question session = 0
  /\ QuizSession.score session = 0
  /\ QuizSession.end_time session = None
  /\ QuizSession.user_answers session
     = replicate (length (QuizSession.questions session)) None.
Proof.
  unfold create_weekly_quiz.
  destruct (_select_questions _ _ _ _ _) as [questions |];
    [simpl | discriminate].
  intros [= <- <-]. now split_and!.
Qed.

Lemma create_weekly_quiz_returns self user_id category difficulty
    question_count env :
  0 <= question_count ->
  exists session self',
    create_weekly_quiz self user_id category difficulty question_count env
    = Ok (session, self').
Proof.
  intros Hcount. unfold create_weekly_quiz, _select_questions.
  match goal with |- context [Z.min question_count ?n <? 0] =>
    destruct (Z.ltb_spec (Z.min question_count n) 0); [lia |]
  end.
  simpl. eauto.
Qed.

Lemma manager_inv_store self session_id s :
  manager_inv self ->
  QuizSession.session_id s = session_id ->
  session_inv s ->
  manager_inv (store_session session_id s self).
Proof.
  intros Hinv Hid Hs sid s'. unfold store_session. simpl.
  destruct (decide (session_id = sid)) as [<- | Hne].
  - rewrite dict_get_set_eq. now intros [= <-].
  - rewrite dict_get_set_ne by assumption. apply Hinv.
Qed.

Lemma manager_inv_create self user_id category difficulty question_count env
    session self' :
  manager_inv self ->
  create_weekly_quiz self user_id category difficulty question_count env
  = Ok (session, self') ->
  manager_inv self'.
Proof.
  intros Hinv Hcreate.
  destruct (create_weekly_quiz_session _ _ _ _ _ _ _ _ Hcreate)
    as (-> & _ & _ & Hcur & Hscore & _ & Hanswers).
  apply manager_inv_store; [assumption | reflexivity |].
  unfold session_inv. rewrite Hcur, Hscore, Hanswers, length_replicate. lia.
Qed.

Lemma manager_inv_submit self session_id answer now :
  manager_inv self ->
  manager_inv (snd (submit_answer self session_id answer now)).
Proof.
  intros Hinv.
  destruct (dict_get session_id (QuizManager.active_sessions self))
    as [s |] eqn:Hget.
  - destruct (Hinv _ _ Hget) as [Hid Hs].
    destruct (Z.le_gt_cases (Z.of_nat (length (QuizSession.questions s)))
                (QuizSession.current_question s)) as [Hdone | Hopen].
    + now rewrite (submit_answer_completed _ _ _ _ _ Hget Hdone).
    + destruct (submit_answer_step self session_id answer now s Hget Hs)
        as (f & s' & -> & Hcur & Hscore & Hq & Hlen & Hsid & _); [lia |].
      apply manager_inv_store; [assumption | congruence |].
      destruct Hs as (H0 & H1 & H2 & H3). unfold session_inv.
      rewrite Hcur, Hq, Hlen. split_and!; lia.
  - now rewrite (submit_answer_unknown _ _ _ _ Hget).
Qed.

Lemma reachable_inv self : reachable self -> manager_inv self.
Proof.
  induction 1 as [db sr | self ? ? ? ? ? session self' _ IH Hcreate
                 | self sid answer now _ IH].
  - intros sid s. discriminate.
  - eapply manager_inv_create; eassumption.
  - now apply manager_inv_submit.
Qed.

End SessionFacts.

Section HandlerFacts.


Lemma keys_unique_store self session_id s :
  keys_unique self -> keys_unique (store_session session_id s self).
Proof. apply dict_set_NoDup. Qed.





End HandlerFacts.

(** * The claims about the quiz manager *)

Section QuizClaims.

(** C9. In every state of the manager, every session satisfies
    [0 <= score <= current_question <= len(questions)] and has one answer
    slot per question.  [submit_answer] always returns in such a state,
    and when it returns feedback rather than an error the session has
    moved on by exactly one question, its score has grown by 0 or 1, and
    its questions are those fixed at creation. *)
Theorem C9_session_bounds :
  (forall self, reachable self ->
     forall session_id s,
       dict_get session_id (QuizManager.active_sessions self) = Some s ->
       0 <= QuizSession.score s
       /\ QuizSession.score s <= QuizSession.current_question s
       /\ QuizSession.current_question s
          <= Z.of_nat (length (QuizSession.questions s))
       /\ length (QuizSession.user_answers s)
          = length (QuizSession.questions s))
  /\ (forall self session_id answer now, reachable self ->
        exists response self',
          submit_answer self session_id answer now = (Ok response, self')
          /\ forall f, response = Response.Answer f ->
               exists s s',
                 dict_get session_id (QuizManager.active_sessions self)
                 = Some s
                 /\ dict_get session_id (QuizManager.active_sessions self')
                    = Some s'
                 /\ QuizSession.current_question s'
                    = QuizSession.current_question s + 1
                 /\ (QuizSession.score s' = QuizSession.score s
                     \/ QuizSession.score s' = QuizSession.score s + 1)
                 /\ QuizSession.questions s' = QuizSession.questions s
                 /\ length (QuizSession.user_answers s')
                    = length (QuizSession.questions s)).
Proof.
  split.
  - intros self Hreach session_id s Hget.
    now destruct (reachable_inv self Hreach session_id s Hget).
  - intros self session_id answer now Hreach.
    pose proof (reachable_inv self Hreach) as Hinv.
    destruct (dict_get session_id (QuizManager.active_sessions self))
      as [s |] eqn:Hget.
    + destruct (Hinv _ _ Hget) as [Hid Hs].
      destruct (Z.le_gt_cases (Z.of_nat (length (QuizSession.questions s)))
                  (QuizSession.current_question s)) as [Hdone | Hopen].
      * rewrite (submit_answer_completed _ _ _ _ _ Hget Hdone).
        eexists. eexists. split; [reflexivity | discriminate].
      * destruct (submit_answer_step self session_id answer now s Hget Hs)
          as (f & s' & -> & Hcur & Hscore & Hq & Hlen & _); [lia |].
        eexists. eexists. split; [reflexivity |]. intros f' _.
        exists s, s'. split_and!; try assumption; try reflexivity.
        -- unfold store_session. simpl. apply dict_get_set_eq.
        -- destruct Hs as (_ & _ & _ & Hslots). congruence.
    + rewrite (submit_answer_unknown _ _ _ _ Hget).
      eexists. eexists. split; [reflexivity | discriminate].
Qed.

Lemma C9_session_bounds_witness :
  exists session self response self',
    create_weekly_quiz (QuizManager_init false true) 7 MIXED EASY 2
      (env_at 0 "a1b2c3d4") = Ok (session, self)
    /\ (0 <= QuizSession.score session
        /\ QuizSession.score session <= QuizSession.current_question session
        /\ QuizSession.current_question session
           <= Z.of_nat (length (QuizSession.questions session))
        /\ length (QuizSession.user_answers session)
           = length (QuizSession.questions session))
    /\ submit_answer self (QuizSession.session_id session) 1 5000000
       = (Ok response, self').
Proof.
  destruct C9_session_bounds as [Hbounds Hsubmit].
  assert (reachable
            (store_session (SessionId.mk 7 0 "a1b2c3d4")
               {| QuizSession.session_id := SessionId.mk 7 0 "a1b2c3d4";
                  QuizSession.user_id := 7;
                  QuizSession.questions := [qa_001; gi_001];
                  QuizSession.current_question := 0;
                  QuizSession.score := 0;
                  QuizSession.start_time := 0;
                  QuizSession.end_time := None;
                  QuizSession.user_answers := [None; None];
                  QuizSession.time_per_question := [];
                  QuizSession.category := MIXED;
                  QuizSession.difficulty := EASY |}
               (QuizManager_init false true))) as Hreach.
  { eapply (reachable_create (QuizManager_init false true) 7 MIXED EASY 2
              (env_at 0 "a1b2c3d4")); [apply reachable_init | reflexivity]. }
  destruct (Hsubmit _ (SessionId.mk 7 0 "a1b2c3d4") 1 5000000 Hreach)
    as (response & self' & Hresponse & _).
  eexists. eexists. exists response, self'.
  split; [reflexivity |]. split; [| exact Hresponse].
  apply (Hbounds _ Hreach (SessionId.mk 7 0 "a1b2c3d4")). reflexivity.
Defined.

(** C10. An answer for a session id that is not in the active set, or
    for a session whose [current_question] has reached the number of its
    questions, is turned down with an error value, and the manager that
    the call leaves behind is the one it was given: no session and no
    field of a session has changed. *)
Theorem C10_rejected_answer_changes_nothing :
  forall self session_id answer now,
    (dict_get session_id (QuizManager.active_sessions self) = None ->
     submit_answer self session_id answer now
     = (Ok (Response.Error "Session not found"), self))
    /\ (forall s,
          dict_get session_id (QuizManager.active_sessions self) = Some s ->
          QuizSession.current_question s
          = Z.of_nat (length (QuizSession.questions s)) ->
          submit_answer self session_id answer now
          = (Ok (Response.Error "Quiz already completed"), self)).
Proof.
  intros self session_id answer now. split.
  - apply submit_answer_unknown.
  - intros s Hget Hdone. eapply submit_answer_completed; [exact Hget | lia].
Qed.

Lemma C10_rejected_answer_changes_nothing_witness :
  let finished :=
    store_session (SessionId.mk 7 0 "a1b2c3d4")
      {| QuizSession.session_id := SessionId.mk 7 0 "a1b2c3d4";
         QuizSession.user_id := 7;
         QuizSession.questions := [qa_001];
         QuizSession.current_question := 1;
         QuizSession.score := 1;
         QuizSession.start_time := 0;
         QuizSession.end_time := Some 4000000;
         QuizSession.user_answers := [Some 1];
         QuizSession.time_per_question := [4%Q];
         QuizSession.category := MIXED;
         QuizSession.difficulty := EASY |}
      (QuizManager_init false true) in
  submit_answer (QuizManager_init false true) (SessionId.mk 7 0 "a1b2c3d4")
    2 1000000
  = (Ok (Response.Error "Session not found"), QuizManager_init false true)
  /\ submit_answer finished (SessionId.mk 7 0 "a1b2c3d4") 2 9000000
     = (Ok (Response.Error "Quiz already completed"), finished).
Proof.
  intros finished. split.
  - apply (C10_rejected_answer_changes_nothing (QuizManager_init false true)
             (SessionId.mk 7 0 "a1b2c3d4") 2 1000000).
    reflexivity.
  - eapply (proj2 (C10_rejected_answer_changes_nothing finished
                     (SessionId.mk 7 0 "a1b2c3d4") 2 9000000));
      reflexivity.
Defined.

(** C2, as the claim words it, fails: a second [create_weekly_quiz] for
    a user whose first session is still active returns a session and
    files it next to the first one. *)
Lemma C2_second_session_counterexample :
  exists first m1 second m2,
    create_weekly_quiz (QuizManager_init false true) 7 MIXED EASY 2
      (env_at 0 "a1b2c3d4") = Ok (first, m1)
    /\ sessions_of_user 7 m1 = [first]
    /\ create_weekly_quiz m1 7 MIXED EASY 2 (env_at 3000000 "e5f6a7b8")
       = Ok (second, m2)
    /\ sessions_of_user 7 m2 = [first; second].
Proof. do 4 eexists. split_and!; reflexivity. Qed.

(** C2, amended.  [create_weekly_quiz] has no duplicate check: for every
    question count that is not negative it returns a new session of the
    user and files it under its fresh id, leaving every other entry of the
    active set as it was, whether or not the user already has a session
    there.  The one-session rule is kept by its caller [quiz_command]:
    for a user with an active session it creates nothing, leaves the
    manager unchanged and shows the current question of that session;
    only for a user without one does it create a session. *)
Theorem C2_duplicate_check_is_in_quiz_command :
  (forall self user_id category difficulty question_count env,
      0 <= question_count ->
      exists session self',
        create_weekly_quiz self user_id category difficulty question_count env
        = Ok (session, self')
        /\ QuizSession.user_id session = user_id
        /\ dict_get (QuizSession.session_id session)
             (QuizManager.active_sessions self') = Some session
        /\ forall other,
             other <> QuizSession.session_id session ->
             dict_get other (QuizManager.active_sessions self')
             = dict_get other (QuizManager.active_sessions self))
  /\ (forall self user_id category difficulty question_count env,
         sessions_of_user user_id self <> [] ->
         exists session,
           In session (sessions_of_user user_id self)
           /\ quiz_command self user_id category difficulty question_count env
              = (ShowCurrentQuestion (QuizSession.session_id session), self))
  /\ (forall self user_id category difficulty question_count env,
         sessions_of_user user_id self = [] ->
         0 <= question_count ->
         exists session self',
           create_weekly_quiz self user_id category difficulty question_count
             env = Ok (session, self')
           /\ quiz_command self user_id category difficulty question_count env
              = (QuizStarted session, self')).
Proof.
  split_and!.
  - intros self user_id category difficulty question_count env Hcount.
    destruct (create_weekly_quiz_returns self user_id category difficulty
                question_count env Hcount) as (session & self' & Hcreate).
    exists session, self'. split; [exact Hcreate |].
    destruct (create_weekly_quiz_session _ _ _ _ _ _ _ _ Hcreate)
      as (-> & _ & Huser & _).
    split_and!; [exact Huser | apply dict_get_set_eq |].
    intros other Hother. unfold store_session. simpl.
    now apply dict_get_set_ne.
  - intros self user_id category difficulty question_count env Hactive.
    unfold quiz_command.
    destruct (sessions_of_user user_id self) as [| session rest]; [done |].
    exists session. split; [now left | reflexivity].
  - intros self user_id category difficulty question_count env Hnone Hcount.
    destruct (create_weekly_quiz_returns self user_id category difficulty
                question_count env Hcount) as (session & self' & Hcreate).
    exists session, self'. split; [exact Hcreate |].
    unfold quiz_command. now rewrite Hnone, Hcreate.
Qed.

Lemma C2_duplicate_check_is_in_quiz_command_witness :
  let busy :=
    store_session (SessionId.mk 7 0 "a1b2c3d4")
      {| QuizSession.session_id := SessionId.mk 7 0 "a1b2c3d4";
         QuizSession.user_id := 7;
         QuizSession.questions := [qa_001; gi_001];
         QuizSession.current_question := 0;
         QuizSession.score := 0;
         QuizSession.start_time := 0;
         QuizSession.end_time := None;
         QuizSession.user_answers := [None; None];
         QuizSession.time_per_question := [];
         QuizSession.category := MIXED;
         QuizSession.difficulty := EASY |}
      (QuizManager_init false true) in
  (exists session self',
      create_weekly_quiz busy 7 MIXED EASY 2 (env_at 3000000 "e5f6a7b8")
      = Ok (session, self')
      /\ QuizSession.user_id session = 7
      /\ dict_get (QuizSession.session_id session)
           (QuizManager.active_sessions self') = Some session
      /\ forall other,
           other <> QuizSession.session_id session ->
           dict_get other (QuizManager.active_sessions self')
           = dict_get other (QuizManager.active_sessions busy))
  /\ (exists session,
         In session (sessions_of_user 7 busy)
         /\ quiz_command busy 7 MIXED EASY 2 (env_at 3000000 "e5f6a7b8")
            = (ShowCurrentQuestion (QuizSession.session_id session), busy))
  /\ (exists session self',
         create_weekly_quiz busy 8 MIXED EASY 2 (env_at 3000000 "e5f6a7b8")
         = Ok (session, self')
         /\ quiz_command busy 8 MIXED EASY 2 (env_at 3000000 "e5f6a7b8")
            = (QuizStarted session, self')).
Proof.
  intros busy.
  destruct C2_duplicate_check_is_in_quiz_command as (Hcreate & Hbusy & Hfree).
  split_and!.
  - apply Hcreate. lia.
  - apply Hbusy. discriminate.
  - apply Hfree; [reflexivity | lia].
Defined.




End QuizClaims.

(** * More about the review scheduler *)

Section SchedulerExtras.
Local Open Scope Q_scope.

Lemma Qceiling_pos (x : Q) : 0 < x -> (1 <= Qceiling x)%Z.
Proof.
  intros Hx. pose proof (Qle_ceiling x) as Hceil.
  assert (0 < inject_Z (Qceiling x)) as Hpos by lra.
  rewrite <- (Zlt_Qlt 0) in Hpos. lia.
Qed.

Lemma Qceiling_ge (d : Z) (x : Q) : inject_Z d <= x -> (d <= Qceiling x)%Z.
Proof.
  intros Hx. pose proof (Qle_ceiling x) as Hceil.
  rewrite Zle_Qle. lra.
Qed.

Lemma Qceiling_gt (d : Z) (x : Q) : inject_Z d < x -> (d < Qceiling x)%Z.
Proof.
  intros Hx. pose proof (Qle_ceiling x) as Hceil.
  rewrite Zlt_Qlt. lra.
Qed.

(** [timedelta(days=d)] for a whole number of days. *)
Lemma timedelta_days_whole (d : Z) :
  timedelta_days (inject_Z d) = (d * day_us)%Z.
Proof.
  unfold timedelta_days. cbv zeta.
  assert (inject_Z d * inject_Z day_us == inject_Z (d * day_us)) as Hx
    by (rewrite inject_Z_mult; reflexivity).
  rewrite (Qfloor_comp _ _ Hx), Qfloor_Z.
  assert ((inject_Z d * inject_Z day_us - inject_Z (d * day_us) ?= 1 # 2)
          = Lt) as ->.
  { apply Qlt_alt. rewrite Hx.
    assert (inject_Z (d * day_us) - inject_Z (d * day_us) == 0) as ->
      by ring.
    reflexivity. }
  reflexivity.
Qed.

(** X1. The stages that [calculate_next_review] can return: never [NEW];
    [LEARNING] for every failing grade and for every item in stage
    [NEW]; [LEARNING] or [REVIEW] for an item in [LEARNING]; [REVIEW]
    only for a passing grade on an item that is not [NEW]; [MASTERED]
    only for a passing grade on an item in [REVIEW] or [MASTERED], and
    then with an interval of at least 21 days. *)
Theorem stage_transitions interval ease grade repetitions item_stage now r :
  calculate_next_review interval ease grade repetitions item_stage now = Ok r ->
  NextReview.stage r <> NEW
  /\ ((grade < 3)%Z -> NextReview.stage r = LEARNING)
  /\ (item_stage = NEW -> NextReview.stage r = LEARNING)
  /\ (item_stage = LEARNING ->
      NextReview.stage r = LEARNING \/ NextReview.stage r = REVIEW)
  /\ (NextReview.stage r = REVIEW ->
      (3 <= grade)%Z /\ item_stage <> NEW)
  /\ (NextReview.stage r = MASTERED ->
      (3 <= grade)%Z
      /\ (item_stage = REVIEW \/ item_stage = MASTERED)
      /\ 21 <= NextReview.next_interval r).
Proof.
  destruct (Z.lt_ge_cases grade 3) as [Hfail | Hpass].
  - rewrite calc_fail by done. intros [= <-]. simpl.
    split_and!; try done; auto; lia.
  - destruct item_stage.
    + rewrite calc_pass_new by done. intros [= <-]. simpl.
      split_and!; try done; auto; lia.
    + rewrite calc_pass_learning by done.
      destruct (2 <=? repetitions + 1)%Z.
      * intros [= <-]. simpl. split_and!; try done; auto; lia.
      * destruct (py_index learning_steps (repetitions + 1 - 1)); simpl;
          [| discriminate].
        intros [= <-]. simpl. split_and!; try done; auto; lia.
    + rewrite (calc_pass_review _ _ _ _ REVIEW) by auto. intros [= <-].
      cbv zeta. cbn [NextReview.stage NextReview.next_interval].
      unfold mastery_threshold.
      destruct (Z.leb_spec 21 (review_days interval ease grade repetitions))
        as [Hm | Hm]; split_and!; try done; auto; try lia.
      intros _. split_and!; auto. now rewrite <- (Zle_Qle 21).
    + rewrite (calc_pass_review _ _ _ _ MASTERED) by auto. intros [= <-].
      cbv zeta. cbn [NextReview.stage NextReview.next_interval].
      unfold mastery_threshold.
      destruct (Z.leb_spec 21 (review_days interval ease grade repetitions))
        as [Hm | Hm]; split_and!; try done; auto; try lia.
      intros _. split_and!; auto. now rewrite <- (Zle_Qle 21).
Qed.

Lemma stage_transitions_witness :
  exists r,
    calculate_next_review 10 2.5 4%Z 5%Z REVIEW 0%Z = Ok r
    /\ NextReview.stage r = MASTERED
    /\ 21 <= NextReview.next_interval r.
Proof.
  eexists. split; [reflexivity |]. split; [reflexivity |].
  destruct (stage_transitions 10 2.5 4%Z 5%Z REVIEW 0%Z _ eq_refl)
    as (_ & _ & _ & _ & _ & Hmastered).
  now destruct (Hmastered eq_refl) as (_ & _ & Hdays).
Defined.

(** [_update_difficulty_level] writes the difficulty level and nothing
    else. *)
Lemma _update_difficulty_level_keeps (p : Progress.t) :
  let p' := _update_difficulty_level p in
  Progress.item_id p' = Progress.item_id p
  /\ Progress.type p' = Progress.type p
  /\ Progress.content p' = Progress.content p
  /\ Progress.next_review_date p' = Progress.next_review_date p
  /\ Progress.created_date p' = Progress.created_date p
  /\ Progress.last_review_date p' = Progress.last_review_date p
  /\ Progress.total_reviews p' = Progress.total_reviews p
  /\ Progress.correct_reviews p' = Progress.correct_reviews p
  /\ Progress.tags p' = Progress.tags p
  /\ Progress.source p' = Progress.source p.
Proof.
  unfold _update_difficulty_level.
  destruct (_ <? 3)%nat; [done |].
  destruct (Qle_bool 4.5 _); [done |].
  now destruct (negb _).
Qed.

(** The level that [_update_difficulty_level] leaves is the old one, or
    the old one moved by a step and clamped to 0.5..2.0. *)
Lemma _update_difficulty_level_level (p : Progress.t) :
  let level := default 1 (Progress.difficulty_level p) in
  Progress.difficulty_level (_update_difficulty_level p)
  = Progress.difficulty_level p
  \/ Progress.difficulty_level (_update_difficulty_level p)
     = Some (Qmax 0.5 (level - 0.1))
  \/ Progress.difficulty_level (_update_difficulty_level p)
     = Some (Qmin 2.0 (level + 0.2)).
Proof.
  unfold _update_difficulty_level.
  destruct (_ <? 3)%nat; [now left |].
  destruct (Qle_bool 4.5 _); [right; now left |].
  destruct (negb _); [right; now right | now left].
Qed.

(** When [update_progress] returns, it has run the scheduler on the
    stored values and written its result over them. *)
Lemma update_progress_effect p grade response_time now p' :
  update_progress p grade response_time now = Ok p' ->
  exists item_stage interval ease repetitions r,
    LearningStage_of_value
      (default (LearningStage_value NEW) (Progress.stage p)) = Ok item_stage
    /\ Progress.interval p = Some interval
    /\ Progress.ease_factor p = Some ease
    /\ Progress.repetitions p = Some repetitions
    /\ calculate_next_review interval ease grade repetitions item_stage now
       = Ok r
    /\ Progress.interval p' = Some (NextReview.next_interval r)
    /\ Progress.ease_factor p' = Some (NextReview.ease_factor r)
    /\ Progress.repetitions p' = Some (NextReview.repetitions r)
    /\ Progress.stage p'
       = Some (LearningStage_value (NextReview.stage r))
    /\ Progress.next_review_date p'
       = Some (NextReview.next_review_date r).
Proof.
  unfold update_progress.
  destruct (LearningStage_of_value _) as [item_stage |]; [simpl | discriminate].
  destruct (Progress.interval p) as [interval |]; [simpl | discriminate].
  destruct (Progress.ease_factor p) as [ease |]; [simpl | discriminate].
  destruct (Progress.repetitions p) as [repetitions |]; [simpl | discriminate].
  destruct (calculate_next_review _ _ _ _ _ _) as [r |] eqn:Hcalc;
    [simpl | discriminate].
  intros [= <-]. exists item_stage, interval, ease, repetitions, r.
  match goal with |- context [_update_difficulty_level ?q] =>
    destruct (_update_difficulty_level_fields q) as (Ei & Ee & Er & Es & _);
    destruct (_update_difficulty_level_keeps q)
      as (_ & _ & _ & En & _)
  end.
  rewrite Ei, Ee, Er, Es, En. now split_and!.
Qed.

Lemma LearningStage_of_value_inv v s :
  LearningStage_of_value v = Ok s -> v = LearningStage_value s.
Proof.
  unfold LearningStage_of_value.
  destruct (String.eqb_spec v "new"); [intros [= <-]; assumption |].
  destruct (String.eqb_spec v "learning"); [intros [= <-]; assumption |].
  destruct (String.eqb_spec v "review"); [intros [= <-]; assumption |].
  destruct (String.eqb_spec v "mastered"); [intros [= <-]; assumption |].
  discriminate.
Qed.

Lemma LearningStage_value_inj s1 s2 :
  LearningStage_value s1 = LearningStage_value s2 -> s1 = s2.
Proof. destruct s1, s2; simpl; congruence. Qed.

(** A step of the cycle keeps the shape of the record. *)
Lemma update_progress_schedule_inv p grade response_time now p' :
  schedule_inv p ->
  update_progress p grade response_time now = Ok p' ->
  schedule_inv p'.
Proof.
  intros (interval & ease & repetitions & Hi & He & Hr & Hmin & Hshape) Hup.
  destruct (update_progress_effect _ _ _ _ _ Hup)
    as (item_stage & i0 & e0 & r0 & r & Hstage & Hi0 & He0 & Hr0 & Hcalc
        & Ei & Ee & Er & Es & _).
  rewrite Hi in Hi0. rewrite He in He0. rewrite Hr in Hr0.
  injection Hi0 as <-. injection He0 as <-. injection Hr0 as <-.
  exists (NextReview.next_interval r), (NextReview.ease_factor r),
    (NextReview.repetitions r).
  split_and!; try assumption.
  { destruct (calculate_next_review_ease _ _ _ _ _ _ _ Hcalc) as [-> | Hge];
      assumption. }
  rewrite Es.
  assert (forall s, Progress.stage p = Some (LearningStage_value s) ->
                    item_stage = s) as Hsame.
  { intros s Hs. rewrite Hs in Hstage. simpl in Hstage.
    rewrite LearningStage_of_value_value in Hstage. congruence. }
  destruct (Z.lt_ge_cases grade 3) as [Hfail | Hpass].
  { rewrite calc_fail in Hcalc by done. injection Hcalc as <-. simpl.
    right. left. split_and!; [reflexivity | lia | lia |].
    destruct Hshape as [(Hs & _ & _) | [(Hs & _ & _) | (d & _ & _ & _ & Hs)]];
      rewrite (Hsame _ Hs); [now left | now right |].
    right. now destruct (21 <=? d)%Z. }
  destruct Hshape as [(Hs & -> & ->) | [(Hs & Hreps & Hint)
                                       | (d & Hreps & Hd & -> & Hs)]];
    rewrite (Hsame _ Hs) in Hcalc.
  - rewrite calc_pass_new in Hcalc by done. injection Hcalc as <-. simpl.
    right. left. split_and!; [reflexivity | lia | lia | now left].
  - rewrite calc_pass_learning in Hcalc by done.
    destruct (Z.leb_spec 2 (repetitions + 1)).
    + injection Hcalc as <-. simpl. right. right. exists 1%Z.
      split_and!; [lia | lia | reflexivity | reflexivity].
    + assert (repetitions = 0%Z) as -> by lia.
      simpl in Hcalc. injection Hcalc as <-. simpl.
      right. left. split_and!; [reflexivity | lia | lia | now left].
  - assert (item_stage = REVIEW \/ item_stage = MASTERED) as Hrev.
    { rewrite (Hsame _ Hs). destruct (21 <=? d)%Z; auto. }
    rewrite <- (Hsame _ Hs) in Hcalc.
    rewrite calc_pass_review in Hcalc by assumption.
    injection Hcalc as <-. cbv zeta.
    cbn [NextReview.next_interval NextReview.repetitions NextReview.stage].
    right. right. exists (review_days (inject_Z d) ease grade repetitions).
    split_and!; [lia | | reflexivity | reflexivity].
    unfold review_days, easy_bonus.
    destruct (Z.eqb_spec (repetitions + 1) 1); [lia |].
    destruct (Z.eqb_spec (repetitions + 1) 2); [lia |].
    assert (1 <= Qceiling (inject_Z d * ease))%Z as Hdays.
    { apply Qceiling_pos. unfold ease_factor_min in Hmin.
      assert (1 <= inject_Z d) by (rewrite <- (Zle_Qle 1); lia). nra. }
    destruct (grade =? 5)%Z; [| exact Hdays].
    apply Qceiling_pos.
    assert (1 <= inject_Z (Qceiling (inject_Z d * ease)))
      by (rewrite <- (Zle_Qle 1); lia).
    lra.
Qed.

Lemma initialize_item_schedule_inv item_id item_type content now :
  schedule_inv (initialize_item item_id item_type content now).
Proof.
  exists 1, ease_factor_default, 0%Z.
  split_and!; try reflexivity; [| left; now split_and!].
  unfold ease_factor_min, ease_factor_default. lra.
Qed.

Lemma calculate_next_review_not_new interval ease grade repetitions
    item_stage now r :
  calculate_next_review interval ease grade repetitions item_stage now = Ok r ->
  NextReview.stage r <> NEW.
Proof.
  destruct (Z.lt_ge_cases grade 3) as [Hfail | Hpass].
  - rewrite calc_fail by done. now intros [= <-].
  - destruct item_stage.
    + rewrite calc_pass_new by done. now intros [= <-].
    + rewrite calc_pass_learning by done.
      destruct (2 <=? repetitions + 1)%Z; [now intros [= <-] |].
      destruct (py_index learning_steps (repetitions + 1 - 1)); simpl;
        [| discriminate].
      now intros [= <-].
    + rewrite (calc_pass_review _ _ _ _ REVIEW) by auto. intros [= <-].
      cbv zeta. cbn [NextReview.stage].
      now destruct (_ <=? _)%Z.
    + rewrite (calc_pass_review _ _ _ _ MASTERED) by auto. intros [= <-].
      cbv zeta. cbn [NextReview.stage].
      now destruct (_ <=? _)%Z.
Qed.

Lemma update_progress_not_new p grade response_time now p' :
  update_progress p grade response_time now = Ok p' ->
  Progress.stage p' <> Some (LearningStage_value NEW).
Proof.
  intros Hup.
  destruct (update_progress_effect _ _ _ _ _ Hup)
    as (item_stage & i & e & n & r & _ & _ & _ & _ & Hcalc & _ & _ & _ & Es & _).
  rewrite Es. intros [= Heq].
  apply (LearningStage_value_inj _ NEW) in Heq.
  now apply (calculate_next_review_not_new _ _ _ _ _ _ _ Hcalc).
Qed.

Lemma review_cycle_shape reviews : forall p review p',
  schedule_inv p ->
  review_cycle p (review :: reviews) = Ok p' ->
  schedule_inv p' /\ Progress.stage p' <> Some (LearningStage_value NEW).
Proof.
  induction reviews as [| next reviews IH]; intros p [grade now] p' Hinv;
    cbn [review_cycle].
  - destruct (update_progress p grade None now) as [p1 |] eqn:Hup;
      [simpl | discriminate].
    intros [= <-]. split.
    + eapply update_progress_schedule_inv; eassumption.
    + eapply update_progress_not_new; eassumption.
  - destruct (update_progress p grade None now) as [p1 |] eqn:Hup;
      [| discriminate].
    cbn [mbind result_bind]. apply IH.
    eapply update_progress_schedule_inv; eassumption.
Qed.

(** X2. The records of a review cycle.  Whatever the grades, a record
    that [update_progress] has brought from [initialize_item] through at
    least one review is never [new] again; in stage [learning] its
    interval is one minute or one day, so the ten-minute learning step is
    never scheduled; in stage [review] or [mastered] it has at least two
    repetitions, so the 1-day and 6-day intervals of the review branch
    are never taken and the interval is a whole number of days, and the
    stage is [mastered] exactly when that number is 21 or more. *)
Theorem review_cycle_stages item_id item_type content created review reviews p :
  review_cycle (initialize_item item_id item_type content created)
    (review :: reviews) = Ok p ->
  exists interval repetitions stage,
    Progress.interval p = Some interval
    /\ Progress.repetitions p = Some repetitions
    /\ Progress.stage p = Some (LearningStage_value stage)
    /\ stage <> NEW
    /\ (stage = LEARNING ->
        (0 <= repetitions <= 1)%Z /\ (interval = 1 # 1440 \/ interval = 1))
    /\ (stage = REVIEW \/ stage = MASTERED ->
        (2 <= repetitions)%Z
        /\ exists days : Z,
             (1 <= days)%Z /\ interval = inject_Z days
             /\ (stage = MASTERED <-> (21 <= days)%Z)).
Proof.
  intros Hcycle.
  destruct (review_cycle_shape reviews _ review p
              (initialize_item_schedule_inv item_id item_type content created)
              Hcycle)
    as [(interval & ease & repetitions & Hi & _ & Hr & _ & Hshape) Hnew].
  destruct Hshape as [(Hs & _) | [(Hs & Hreps & Hint)
                                 | (d & Hreps & Hd & -> & Hs)]].
  - congruence.
  - exists interval, repetitions, LEARNING.
    split_and!; try assumption; try done.
    intros [? | ?]; discriminate.
  - exists (inject_Z d), repetitions,
      (if (21 <=? d)%Z then MASTERED else REVIEW).
    split_and!; try assumption.
    + now destruct (21 <=? d)%Z.
    + now destruct (21 <=? d)%Z.
    + intros _. split; [assumption |]. exists d.
      split_and!; [assumption | reflexivity |].
      destruct (Z.leb_spec 21 d); split; intros; (done || lia).
Qed.

Lemma review_cycle_stages_witness :
  exists p interval repetitions stage,
    review_cycle (initialize_item "qa_001" "quantitative_aptitude" None 0)
      [(4, 0); (4, 60000000); (5, 86460000000); (2, 259260000000)]%Z = Ok p
    /\ Progress.interval p = Some interval
    /\ Progress.repetitions p = Some repetitions
    /\ Progress.stage p = Some (LearningStage_value stage)
    /\ stage <> NEW.
Proof.
  assert (exists p,
             review_cycle
               (initialize_item "qa_001" "quantitative_aptitude" None 0)
               [(4, 0); (4, 60000000); (5, 86460000000); (2, 259260000000)]%Z
             = Ok p) as [p Hp] by (eexists; reflexivity).
  destruct (review_cycle_stages _ _ _ _ _ _ _ Hp)
    as (interval & repetitions & stage & Hi & Hr & Hs & Hnew & _).
  exists p, interval, repetitions, stage. now split_and!.
Defined.

(** X3. A passing review lengthens the interval.  For a record in stage
    [review] or [mastered] with at least two repetitions, a positive
    interval and an ease factor of at least 1.3, every result that
    [calculate_next_review] returns for a passing grade has an interval
    that is strictly longer than the old one, and at least 1.3 times as
    long. *)
Theorem passing_review_lengthens_interval interval ease grade repetitions
    item_stage now r :
  (3 <= grade)%Z ->
  item_stage = REVIEW \/ item_stage = MASTERED ->
  (2 <= repetitions)%Z ->
  0 < interval ->
  1.3 <= ease ->
  calculate_next_review interval ease grade repetitions item_stage now = Ok r ->
  interval < NextReview.next_interval r
  /\ 1.3 * interval <= NextReview.next_interval r.
Proof.
  intros Hpass Hstage Hreps Hpos Hease.
  rewrite calc_pass_review by assumption. cbv zeta.
  intros [= <-]. cbn [NextReview.next_interval].
  assert (1.3 * interval <= inject_Z (Qceiling (interval * ease))) as Hbase.
  { pose proof (Qle_ceiling (interval * ease)). nra. }
  assert (1.3 * interval
          <= inject_Z (review_days interval ease grade repetitions)) as Hnew.
  { unfold review_days, easy_bonus.
    destruct (Z.eqb_spec (repetitions + 1) 1); [lia |].
    destruct (Z.eqb_spec (repetitions + 1) 2); [lia |].
    destruct (grade =? 5)%Z; [| exact Hbase].
    pose proof (Qle_ceiling (inject_Z (Qceiling (interval * ease)) * 1.3)).
    lra. }
  split; lra.
Qed.

Lemma passing_review_lengthens_interval_witness :
  exists r,
    calculate_next_review 6 1.3 3%Z 2%Z REVIEW 0%Z = Ok r
    /\ 6 < NextReview.next_interval r
    /\ 1.3 * 6 <= NextReview.next_interval r.
Proof.
  assert (exists r, calculate_next_review 6 1.3 3%Z 2%Z REVIEW 0%Z = Ok r)
    as [r Hr] by (eexists; reflexivity).
  exists r. split; [exact Hr |].
  apply (passing_review_lengthens_interval 6 1.3 3%Z 2%Z REVIEW 0%Z r);
    [lia | now left | lia | reflexivity | unfold Qle; simpl; lia | exact Hr].
Defined.

Lemma sm2_ease_delta_nonpos grade :
  (grade < 5)%Z -> sm2_ease_delta grade <= 0.
Proof.
  intros Hgrade. unfold sm2_ease_delta.
  assert (1 <= inject_Z (5 - grade)) by (rewrite <- (Zle_Qle 1); lia).
  nra.
Qed.

(** X4. How the ease factor moves.  With an ease factor of at least 1.3,
    a grade below 5 never raises it; a grade of 5 leaves it alone in the
    stages [new] and [learning] and raises it by 0.1 in [review] and
    [mastered]; and a failing grade lowers an ease factor above 1.3
    strictly. *)
Theorem ease_factor_moves interval ease grade repetitions item_stage now r :
  calculate_next_review interval ease grade repetitions item_stage now = Ok r ->
  1.3 <= ease ->
  ((grade < 5)%Z -> NextReview.ease_factor r <= ease)
  /\ (grade = 5%Z ->
      (item_stage = NEW \/ item_stage = LEARNING ->
       NextReview.ease_factor r = ease)
      /\ (item_stage = REVIEW \/ item_stage = MASTERED ->
          NextReview.ease_factor r == ease + 0.1))
  /\ ((grade < 3)%Z -> 1.3 < ease -> NextReview.ease_factor r < ease).
Proof.
  intros Hcalc Hease.
  assert (forall x, x <= ease -> Qmax x ease_factor_min <= ease) as Hclamp
    by (intros x Hx; apply Q.max_lub; assumption).
  destruct (Z.lt_ge_cases grade 3) as [Hfail | Hpass].
  - rewrite calc_fail in Hcalc by done. injection Hcalc as <-. simpl.
    split_and!.
    + intros _. apply Hclamp. lra.
    + lia.
    + intros _ Hstrict. apply Q.max_lub_lt; unfold ease_factor_min; lra.
  - split_and!; [| | lia].
    + intros Hnoteasy. destruct item_stage.
      * rewrite calc_pass_new in Hcalc by done. injection Hcalc as <-.
        simpl. lra.
      * rewrite calc_pass_learning in Hcalc by done.
        destruct (2 <=? repetitions + 1)%Z.
        -- injection Hcalc as <-. simpl. lra.
        -- destruct (py_index learning_steps (repetitions + 1 - 1));
             simpl in Hcalc; [| discriminate].
           injection Hcalc as <-. simpl. lra.
      * rewrite (calc_pass_review _ _ _ _ REVIEW) in Hcalc by auto.
        injection Hcalc as <-. simpl. apply Hclamp.
        pose proof (sm2_ease_delta_nonpos grade Hnoteasy). lra.
      * rewrite (calc_pass_review _ _ _ _ MASTERED) in Hcalc by auto.
        injection Hcalc as <-. simpl. apply Hclamp.
        pose proof (sm2_ease_delta_nonpos grade Hnoteasy). lra.
    + intros ->. split.
      * intros [-> | ->].
        -- rewrite calc_pass_new in Hcalc by done. now injection Hcalc as <-.
        -- rewrite calc_pass_learning in Hcalc by done.
           destruct (2 <=? repetitions + 1)%Z;
             [now injection Hcalc as <- |].
           destruct (py_index learning_steps (repetitions + 1 - 1));
             simpl in Hcalc; [now injection Hcalc as <- | discriminate].
      * intros Hstage. rewrite calc_pass_review in Hcalc by assumption.
        injection Hcalc as <-. cbv zeta. cbn [NextReview.ease_factor].
        assert (sm2_ease_delta 5 == 0.1) as Hdelta by reflexivity.
        destruct (Q.max_spec (ease + sm2_ease_delta 5) ease_factor_min)
          as [[Hlt _] | [_ ->]]; [| now rewrite Hdelta].
        unfold ease_factor_min in Hlt. lra.
Qed.

Lemma ease_factor_moves_witness :
  exists r,
    calculate_next_review 6 2.5 2%Z 4%Z REVIEW 0%Z = Ok r
    /\ NextReview.ease_factor r < 2.5.
Proof.
  eexists. split; [reflexivity |].
  assert (1.3 <= 2.5) as Hease by (unfold Qle; simpl; lia).
  destruct (ease_factor_moves 6 2.5 2%Z 4%Z REVIEW 0%Z _ eq_refl Hease)
    as (_ & _ & Hfail).
  apply Hfail; [lia | reflexivity].
Defined.

Lemma calculate_next_review_date interval ease grade repetitions item_stage
    now r :
  calculate_next_review interval ease grade repetitions item_stage now = Ok r ->
  NextReview.next_review_date r
  = (now + timedelta_days (NextReview.next_interval r))%Z.
Proof.
  unfold calculate_next_review.
  match goal with |- (?m ≫= _) = _ -> _ => destruct m as [[[[i e] n] s] |] end;
    [simpl | discriminate].
  now intros [= <-].
Qed.

Lemma review_cycle_schedule_inv reviews : forall p p',
  schedule_inv p -> review_cycle p reviews = Ok p' -> schedule_inv p'.
Proof.
  induction reviews as [| [grade now] reviews IH]; intros p p' Hinv;
    cbn [review_cycle].
  - now intros [= <-].
  - destruct (update_progress p grade None now) as [p1 |] eqn:Hup;
      [| discriminate].
    cbn [mbind result_bind]. apply IH.
    eapply update_progress_schedule_inv; eassumption.
Qed.

(** X5. Reviews are scheduled ahead.  An item made by [initialize_item]
    is due at the instant of its creation.  After any review of a record
    of a review cycle, the next review date is the instant of the review
    plus the new interval, which is at least one minute, so the item is
    not due at the instant it was reviewed and becomes due exactly when
    that date is reached. *)
Theorem reviewed_item_is_scheduled_ahead :
  (forall item_id item_type content created,
      is_due created (initialize_item item_id item_type content created)
      = true)
  /\ (forall item_id item_type content created reviews p grade
             response_time now p',
         review_cycle (initialize_item item_id item_type content created)
           reviews = Ok p ->
         update_progress p grade response_time now = Ok p' ->
         exists interval,
           Progress.interval p' = Some interval
           /\ Progress.next_review_date p'
              = Some (now + timedelta_days interval)%Z
           /\ (60000000 <= timedelta_days interval)%Z
           /\ is_due now p' = false
           /\ forall later,
                is_due later p' = true
                <-> (now + timedelta_days interval <= later)%Z).
Proof.
  split.
  - intros. unfold is_due. simpl. apply Z.leb_refl.
  - intros item_id item_type content created reviews p grade response_time
      now p' Hcycle Hup.
    pose proof (review_cycle_schedule_inv reviews _ _
                  (initialize_item_schedule_inv item_id item_type content
                     created) Hcycle) as Hinv.
    pose proof (update_progress_schedule_inv _ _ _ _ _ Hinv Hup)
      as (interval & ease & repetitions & Hi & _ & _ & _ & Hshape).
    destruct (update_progress_effect _ _ _ _ _ Hup)
      as (s0 & i0 & e0 & n0 & r & _ & _ & _ & _ & Hcalc & Ei & _ & _ & _ & En).
    rewrite (calculate_next_review_date _ _ _ _ _ _ _ Hcalc) in En.
    assert (interval = NextReview.next_interval r) as Heq by congruence.
    rewrite <- Heq in En. clear Heq.
    assert (60000000 <= timedelta_days interval)%Z as Hahead.
    { destruct Hshape as [(Hs & _ & ->) | [(_ & _ & [-> | ->])
                                          | (d & _ & Hd & -> & _)]].
      - now vm_compute.
      - now vm_compute.
      - now vm_compute.
      - rewrite timedelta_days_whole. unfold day_us. lia. }
    exists interval. split_and!; try assumption.
    + unfold is_due. rewrite En. simpl. apply Z.leb_gt. lia.
    + intros later. unfold is_due. rewrite En. simpl. apply Z.leb_le.
Qed.

Lemma reviewed_item_is_scheduled_ahead_witness :
  exists p p' interval,
    review_cycle (initialize_item "ga_001" "general_awareness" None 0)
      [(4, 0); (3, 60000000)]%Z = Ok p
    /\ update_progress p 4 None 86460000000 = Ok p'
    /\ Progress.interval p' = Some interval
    /\ Progress.next_review_date p'
       = Some (86460000000 + timedelta_days interval)%Z
    /\ is_due 86460000000 p' = false.
Proof.
  assert (exists p p',
             review_cycle
               (initialize_item "ga_001" "general_awareness" None 0)
               [(4, 0); (3, 60000000)]%Z = Ok p
             /\ update_progress p 4 None 86460000000 = Ok p')
    as (p & p' & Hp & Hp') by (do 2 eexists; split; reflexivity).
  destruct (proj2 reviewed_item_is_scheduled_ahead _ _ _ _ _ _ _ _ _ _ Hp Hp')
    as (interval & Hi & Hn & _ & Hdue & _).
  exists p, p', interval. now split_and!.
Defined.

Lemma trimmed_history_length entries :
  length (trimmed_history entries) = Nat.min (length entries) 20.
Proof.
  unfold trimmed_history. destruct (Nat.ltb_spec 20 (length entries)).
  - destruct (py_last_suffix 20 entries) as (front & _ & ->). lia.
  - lia.
Qed.



Lemma count_passes_cons grade now reviews :
  count_passes ((grade, now) :: reviews)
  = ((if (3 <=? grade)%Z then 1 else 0) + count_passes reviews)%Z.
Proof.
  unfold count_passes, grade_threshold. simpl.
  destruct (3 <=? grade)%Z; simpl; lia.
Qed.

Lemma update_progress_level p grade response_time now p' :
  update_progress p grade response_time now = Ok p' ->
  let level := default 1 (Progress.difficulty_level p) in
  Progress.difficulty_level p' = Progress.difficulty_level p
  \/ Progress.difficulty_level p' = Some (Qmax 0.5 (level - 0.1))
  \/ Progress.difficulty_level p' = Some (Qmin 2.0 (level + 0.2)).
Proof.
  unfold update_progress.
  destruct (LearningStage_of_value _); [simpl | discriminate].
  destruct (Progress.interval p); [simpl | discriminate].
  destruct (Progress.ease_factor p); [simpl | discriminate].
  destruct (Progress.repetitions p); [simpl | discriminate].
  destruct (calculate_next_review _ _ _ _ _ _); [simpl | discriminate].
  intros [= <-].
  match goal with |- context [_update_difficulty_level ?q] =>
    exact (_update_difficulty_level_level q)
  end.
Qed.

Lemma update_progress_history p grade response_time now p' :
  update_progress p grade response_time now = Ok p' ->
  Progress.total_reviews p'
  = Some (default 0 (Progress.total_reviews p) + 1)%Z
  /\ Progress.correct_reviews p'
     = Some (default 0 (Progress.correct_reviews p)
             + (if (3 <=? grade)%Z then 1 else 0))%Z
  /\ exists entry,
       Progress.review_history p'
       = Some (trimmed_history
                 (default [] (Progress.review_history p) ++ [entry])).
Proof.
  unfold update_progress.
  destruct (LearningStage_of_value _) as [item_stage |]; [simpl | discriminate].
  destruct (Progress.interval p) as [interval |]; [simpl | discriminate].
  destruct (Progress.ease_factor p) as [ease |]; [simpl | discriminate].
  destruct (Progress.repetitions p) as [repetitions |]; [simpl | discriminate].
  destruct (calculate_next_review _ _ _ _ _ _) as [r |] eqn:Hcalc;
    [simpl | discriminate].
  intros [= <-].
  match goal with |- context [_update_difficulty_level ?q] =>
    destruct (_update_difficulty_level_fields q) as (_ & _ & _ & _ & Eh);
    destruct (_update_difficulty_level_keeps q)
      as (_ & _ & _ & _ & _ & _ & E7 & E8 & _)
  end.
  rewrite Eh, E7, E8.
  cbn [Progress.total_reviews Progress.correct_reviews
       Progress.review_history].
  split_and!; try reflexivity.
  eexists. reflexivity.
Qed.

Lemma update_progress_tally n passes p grade response_time now p' :
  (0 <= n)%Z ->
  tally_inv n passes p ->
  update_progress p grade response_time now = Ok p' ->
  tally_inv (n + 1) (passes + (if (3 <=? grade)%Z then 1 else 0)) p'.
Proof.
  intros Hn (Ht & Hc & history & level & Hh & Hlen & Hl & Hlo & Hhi) Hup.
  destruct (update_progress_history _ _ _ _ _ Hup)
    as (Ht' & Hc' & entry & Hh').
  pose proof (update_progress_level _ _ _ _ _ Hup) as Hlevel.
  rewrite Ht in Ht'. rewrite Hc in Hc'. rewrite Hh in Hh'.
  cbv zeta in Hlevel. rewrite Hl in Hlevel. cbn [default] in *.
  split_and!; [assumption | assumption |].
  assert (Z.of_nat (length (trimmed_history (history ++ [entry])))
          = Z.min (n + 1) 20) as Hlen'
    by (rewrite trimmed_history_length, length_app; simpl; lia).
  destruct Hlevel as [Hsame | [Hdown | Hup']].
  - exists (trimmed_history (history ++ [entry])), level.
    split_and!; assumption.
  - exists (trimmed_history (history ++ [entry])), (Qmax 0.5 (level - 0.1)).
    split_and!; try assumption; [apply Q.le_max_l | apply Q.max_lub; lra].
  - exists (trimmed_history (history ++ [entry])), (Qmin 2.0 (level + 0.2)).
    split_and!; try assumption; [apply Q.min_glb; lra | apply Q.le_min_l].
Qed.

Lemma review_cycle_tally reviews : forall n passes p p',
  (0 <= n)%Z ->
  tally_inv n passes p ->
  review_cycle p reviews = Ok p' ->
  tally_inv (n + Z.of_nat (length reviews)) (passes + count_passes reviews) p'.
Proof.
  induction reviews as [| [grade now] reviews IH]; intros n passes p p' Hn Hinv;
    cbn [review_cycle].
  - intros [= <-]. unfold count_passes. simpl.
    now rewrite !Z.add_0_r.
  - destruct (update_progress p grade None now) as [p1 |] eqn:Hup;
      [| discriminate].
    cbn [mbind result_bind]. intros Hrest.
    pose proof (update_progress_tally _ _ _ _ _ _ _ Hn Hinv Hup) as Hinv1.
    assert (0 <= n + 1)%Z as Hn1 by lia.
    apply (IH _ _ _ _ Hn1 Hinv1) in Hrest.
    rewrite count_passes_cons.
    replace (n + Z.of_nat (length ((grade, now) :: reviews)))%Z
      with (n + 1 + Z.of_nat (length reviews))%Z by (simpl length; lia).
    now rewrite Z.add_assoc.
Qed.

(** X7. The counters of a review cycle.  After a record made by
    [initialize_item] has gone through a list of reviews, its review
    counter is the number of reviews, its counter of correct reviews is
    the number of passing grades among them, its history holds the
    smaller of that number and 20 entries, and its difficulty level lies
    between 0.5 and 2.0. *)
Theorem review_cycle_counters item_id item_type content created reviews p :
  review_cycle (initialize_item item_id item_type content created) reviews
  = Ok p ->
  Progress.total_reviews p = Some (Z.of_nat (length reviews))
  /\ Progress.correct_reviews p = Some (count_passes reviews)
  /\ (0 <= count_passes reviews <= Z.of_nat (length reviews))%Z
  /\ exists history level,
       Progress.review_history p = Some history
       /\ length history = Nat.min (length reviews) 20
       /\ Progress.difficulty_level p = Some level
       /\ 0.5 <= level /\ level <= 2.0.
Proof.
  intros Hcycle.
  assert (tally_inv 0 0 (initialize_item item_id item_type content created))
    as Hstart.
  { split_and!; try reflexivity. exists [], 1.
    split_and!; try reflexivity; unfold Qle; simpl; lia. }
  destruct (review_cycle_tally reviews 0 0 _ _ (Z.le_refl 0) Hstart Hcycle)
    as (Ht & Hc & history & level & Hh & Hlen & Hl & Hlo & Hhi).
  split_and!; [assumption | assumption | | |].
  - unfold count_passes. lia.
  - unfold count_passes. rewrite <- Nat2Z.inj_le. apply filter_length_le.
  - exists history, level. split_and!; try assumption. lia.
Qed.

Lemma review_cycle_counters_witness :
  exists p,
    review_cycle (initialize_item "ec_001" "english_comprehension" None 0)
      [(5, 0); (1, 60000000); (4, 86460000000)]%Z = Ok p
    /\ Progress.total_reviews p = Some 3%Z
    /\ Progress.correct_reviews p = Some 2%Z.
Proof.
  assert (exists p,
             review_cycle
               (initialize_item "ec_001" "english_comprehension" None 0)
               [(5, 0); (1, 60000000); (4, 86460000000)]%Z = Ok p)
    as [p Hp] by (eexists; reflexivity).
  destruct (review_cycle_counters _ _ _ _ _ _ Hp) as (Ht & Hc & _).
  exists p. now split_and!.
Defined.






End SchedulerExtras.

(** * More about the due-item selector *)

Section DueItemExtras.
Local Open Scope Q_scope.

Lemma collect_due_length user_progress item_types now due :
  collect_due user_progress item_types now = Ok due ->
  length due = length (selected_entries user_progress item_types now).
Proof.
  intros Hdue. symmetry.
  eapply Forall2_length, collect_due_selected, Hdue.
Qed.

Lemma sort_by_priority_desc_length l :
  length (sort_by_priority_desc l) = length l.
Proof. symmetry. apply Permutation_length, sort_by_priority_desc_perm. Qed.

Lemma py_slice_to_length_exact {A : Type} (l : list A) (m : Z) :
  Z.of_nat (length (py_slice_to l m))
  = if (m <? 0)%Z then Z.max 0 (Z.of_nat (length l) + m)
    else Z.min (Z.of_nat (length l)) m.
Proof.
  unfold py_slice_to. destruct (Z.ltb_spec m 0); rewrite length_take; lia.
Qed.

Lemma get_due_items_default_length user_progress item_types now out :
  get_due_items user_progress None item_types now = Ok out ->
  Z.of_nat (length out)
  = Z.min (Z.of_nat (length (selected_entries user_progress item_types now)))
      50.
Proof.
  unfold get_due_items.
  destruct (collect_due user_progress item_types now) as [due |] eqn:Hdue;
    [cbn [mbind result_bind] | discriminate].
  intros [= <-].
  pose proof (py_slice_to_length_exact (sort_by_priority_desc due)
                (effective_max_items None)) as Hlen.
  rewrite sort_by_priority_desc_length, (collect_due_length _ _ _ _ Hdue)
    in Hlen.
  exact Hlen.
Qed.

(** X9. How many items [get_due_items] returns.  With [n] entries that
    pass the type filter and are due: the smaller of [n] and 50 when
    [max_items] is absent or 0; the smaller of [n] and [max_items] when
    it is positive; and for a negative [max_items] all but the last
    [-max_items] of them. *)
Theorem get_due_items_count user_progress max_items item_types now out :
  get_due_items user_progress max_items item_types now = Ok out ->
  let n := Z.of_nat (length (selected_entries user_progress item_types now)) in
  (max_items = None \/ max_items = Some 0%Z ->
   Z.of_nat (length out) = Z.min n 50)
  /\ (forall m, max_items = Some m -> (0 < m)%Z ->
                Z.of_nat (length out) = Z.min n m)
  /\ (forall m, max_items = Some m -> (m < 0)%Z ->
                Z.of_nat (length out) = Z.max 0 (n + m)).
Proof.
  intros Hout n. revert Hout. unfold get_due_items.
  destruct (collect_due user_progress item_types now) as [due |] eqn:Hdue;
    [cbn [mbind result_bind] | discriminate].
  intros [= <-].
  pose proof (py_slice_to_length_exact (sort_by_priority_desc due)
                (effective_max_items max_items)) as Hlen.
  rewrite sort_by_priority_desc_length, (collect_due_length _ _ _ _ Hdue)
    in Hlen.
  fold n in Hlen. split_and!.
  - intros [-> | ->]; exact Hlen.
  - intros m -> Hm. unfold effective_max_items in *.
    destruct (Z.eqb_spec m 0); [lia |].
    destruct (Z.ltb_spec m 0); [lia | exact Hlen].
  - intros m -> Hm. unfold effective_max_items in *.
    destruct (Z.eqb_spec m 0); [lia |].
    destruct (Z.ltb_spec m 0); [exact Hlen | lia].
Qed.

Lemma get_due_items_count_witness :
  let user_progress :=
    [("abundant"%string,
      initialize_item "abundant" (ItemType_value VOCABULARY) None 0);
     ("plentiful"%string,
      initialize_item "plentiful" (ItemType_value VOCABULARY) None 0);
     ("scarce"%string,
      initialize_item "scarce" (ItemType_value VOCABULARY) None 0)] in
  exists out,
    get_due_items user_progress (Some (-1)%Z) None day_us = Ok out
    /\ Z.of_nat (length out) = Z.max 0 (3 + -1).
Proof.
  intros user_progress.
  assert (exists out,
             get_due_items user_progress (Some (-1)%Z) None day_us = Ok out)
    as [out Hout] by (eexists; reflexivity).
  exists out. split; [exact Hout |].
  destruct (get_due_items_count _ _ _ _ _ Hout) as (_ & _ & Hneg).
  apply (Hneg (-1)%Z eq_refl). lia.
Defined.

Lemma td_days_nonneg us : (0 <= us)%Z -> (0 <= td_days us)%Z.
Proof. intros Hus. unfold td_days, day_us. apply Z.div_pos; lia. Qed.

(** X10. The fields of a review item.  Every item that [get_due_items]
    returns is built from an entry of the map that is due: its id is the
    key, [days_overdue] is the number of whole days since the review
    date and is not negative, the priority is [days_overdue + (3 - ease)]
    floored at 0, and the difficulty score lies between 0.1 and 2.0. *)
Theorem review_item_fields user_progress max_items item_types now out :
  get_due_items user_progress max_items item_types now = Ok out ->
  Forall
    (fun item =>
       exists item_id progress,
         In (item_id, progress) user_progress
         /\ ReviewItem.item_id item = item_id
         /\ ReviewItem.days_overdue item
            = td_days
                (now - default now (Progress.next_review_date progress))
         /\ (0 <= ReviewItem.days_overdue item)%Z
         /\ ReviewItem.priority item
            = Qmax
                (inject_Z (ReviewItem.days_overdue item)
                 + (3.0 - default 2.5 (Progress.ease_factor progress)))
                0
         /\ 0 <= ReviewItem.priority item
         /\ 0.1 <= ReviewItem.difficulty_score item
         /\ ReviewItem.difficulty_score item <= 2.0)
    out.
Proof.
  intros Hout.
  destruct (get_due_items_capped_sorted _ _ _ _ _ Hout)
    as (_ & _ & Hdue & _).
  eapply Forall_impl; [exact Hdue |].
  intros item (item_id & progress & Hin & Hid & Hpast & Hmake).
  exists item_id, progress.
  pose proof (td_days_nonneg
                (now - default now (Progress.next_review_date progress))
                ltac:(lia)) as Hdays.
  revert Hmake. unfold make_review_item.
  destruct (LearningStage_of_value _); [simpl | discriminate].
  intros [= <-]. cbn [ReviewItem.item_id ReviewItem.days_overdue
    ReviewItem.priority ReviewItem.difficulty_score].
  rewrite Z.max_r by exact Hdays.
  split_and!; try done.
  - apply Q.le_max_r.
  - unfold _calculate_difficulty_score.
    destruct (_ =? 0)%Z; [unfold Qle; simpl; lia | apply Q.le_max_l].
  - unfold _calculate_difficulty_score.
    destruct (_ =? 0)%Z; [unfold Qle; simpl; lia |].
    apply Q.max_lub; [unfold Qle; simpl; lia | apply Q.le_min_l].
Qed.

Lemma review_item_fields_witness :
  let user_progress :=
    [("abundant"%string,
      initialize_item "abundant" (ItemType_value VOCABULARY) None 0)] in
  exists out,
    get_due_items user_progress None None (3 * day_us) = Ok out
    /\ Forall (fun item => (0 <= ReviewItem.days_overdue item)%Z
                          /\ 0 <= ReviewItem.priority item) out.
Proof.
  intros user_progress.
  assert (exists out,
             get_due_items user_progress None None (3 * day_us) = Ok out)
    as [out Hout] by (eexists; reflexivity).
  exists out. split; [exact Hout |].
  eapply Forall_impl; [exact (review_item_fields _ _ _ _ _ Hout) |].
  intros item (? & ? & _ & _ & _ & Hdays & _ & Hprio & _). now split.
Defined.







Lemma collect_due_ids user_progress item_types now due :
  collect_due user_progress item_types now = Ok due ->
  map ReviewItem.item_id due
  = map fst (selected_entries user_progress item_types now).
Proof.
  intros Hdue. pose proof (collect_due_selected _ _ _ _ Hdue) as Hsel.
  clear Hdue.
  induction Hsel as [| entry item entries items Hmake _ IH]; simpl;
    [reflexivity |].
  destruct (make_review_item_fields _ _ _ _ Hmake) as [-> _].
  now rewrite IH.
Qed.

Lemma type_filter_passed types progress :
  types <> [] ->
  type_filtered_out (Some types) progress = false ->
  exists ty, Progress.type progress = Some ty /\ In ty types.
Proof.
  intros Hne. unfold type_filtered_out.
  destruct types as [| t ts]; [done |].
  destruct (Progress.type progress) as [ty |]; [| discriminate].
  intros Hpass. apply negb_false_iff, existsb_exists in Hpass
    as (ty' & Hin & Heq).
  apply String.eqb_eq in Heq as <-. eauto.
Qed.

(** X12. The type filter and what the cap leaves out.  An empty list of
    item types filters nothing, like an absent one.  With a list that is
    not empty, every returned item comes from an entry whose [type] is
    present and in the list.  And when the entries that pass the filter
    and are due are no more than the cap, none of them is left out: the
    ids of the returned items are the keys of those entries, rearranged. *)
Theorem get_due_items_type_filter user_progress max_items now :
  get_due_items user_progress max_items (Some []) now
  = get_due_items user_progress max_items None now
  /\ (forall types out,
        types <> [] ->
        get_due_items user_progress max_items (Some types) now = Ok out ->
        Forall
          (fun item =>
             exists progress ty,
               In (ReviewItem.item_id item, progress) user_progress
               /\ Progress.type progress = Some ty
               /\ In ty types)
          out)
  /\ (forall item_types out,
        get_due_items user_progress max_items item_types now = Ok out ->
        (Z.of_nat (length (selected_entries user_progress item_types now))
         <= effective_max_items max_items)%Z ->
        Permutation (map ReviewItem.item_id out)
          (map fst (selected_entries user_progress item_types now))).
Proof.
  split_and!.
  - unfold get_due_items.
    assert (collect_due user_progress (Some []) now
            = collect_due user_progress None now) as ->; [| reflexivity].
    induction user_progress as [| [item_id progress] rest IH]; simpl;
      [reflexivity |].
    now rewrite IH.
  - intros types out Hne. unfold get_due_items.
    destruct (collect_due user_progress (Some types) now) as [due |] eqn:Hdue;
      [simpl | discriminate].
    intros [= <-].
    pose proof (collect_due_selected _ _ _ _ Hdue) as Hsel.
    destruct (py_slice_to_take (sort_by_priority_desc due)
                (effective_max_items max_items)) as [n ->].
    apply Forall_forall. intros item Hin.
    apply list_elem_of_In, In_take in Hin.
    apply (Permutation_in _ (Permutation_sym
                               (sort_by_priority_desc_perm due))) in Hin.
    destruct (Forall2_In_r _ _ _ _ Hsel Hin) as ([item_id progress] & He & Hmk).
    apply filter_In in He as [Hup Hpass].
    apply andb_prop in Hpass as [Hpass _]. apply negb_true_iff in Hpass.
    destruct (type_filter_passed types progress Hne Hpass) as (ty & Hty & Hin').
    destruct (make_review_item_fields _ _ _ _ Hmk) as [-> _].
    exists progress, ty. now split_and!.
  - intros item_types out. unfold get_due_items.
    destruct (collect_due user_progress item_types now) as [due |] eqn:Hdue;
      [simpl | discriminate].
    intros [= <-] Hfits.
    rewrite <- (collect_due_ids _ _ _ _ Hdue).
    rewrite <- (collect_due_length _ _ _ _ Hdue) in Hfits.
    unfold py_slice_to. destruct (Z.ltb_spec (effective_max_items max_items) 0).
    + assert (due = []) as -> by (destruct due; [reflexivity | simpl in *; lia]).
      cbn [sort_by_priority_desc fold_right]. now rewrite take_nil.
    + rewrite take_ge
        by (rewrite sort_by_priority_desc_length; lia).
      apply Permutation_map, Permutation_sym, sort_by_priority_desc_perm.
Qed.

Lemma get_due_items_type_filter_witness :
  let user_progress :=
    [("abundant"%string,
      initialize_item "abundant" (ItemType_value VOCABULARY) None 0);
     ("once in a blue moon"%string,
      initialize_item "once in a blue moon" (ItemType_value IDIOM) None 0)] in
  exists out,
    get_due_items user_progress (Some 5%Z) (Some ["idiom"%string]) day_us
    = Ok out
    /\ Forall
         (fun item =>
            exists progress ty,
              In (ReviewItem.item_id item, progress) user_progress
              /\ Progress.type progress = Some ty
              /\ In ty ["idiom"%string])
         out
    /\ Permutation (map ReviewItem.item_id out)
         (map fst
            (selected_entries user_progress (Some ["idiom"%string]) day_us)).
Proof.
  intros user_progress.
  assert (exists out,
             get_due_items user_progress (Some 5%Z) (Some ["idiom"%string])
               day_us = Ok out)
    as [out Hout] by (eexists; reflexivity).
  destruct (get_due_items_type_filter user_progress (Some 5%Z) day_us)
    as (_ & Hfilter & Hall).
  exists out. split_and!; [exact Hout | |].
  - apply (Hfilter ["idiom"%string] out); [discriminate | exact Hout].
  - apply (Hall _ _ Hout). simpl. lia.
Defined.

Lemma StronglySorted_app_In {A : Type} (R : A -> A -> Prop)
    (l1 l2 : list A) a b :
  StronglySorted R (l1 ++ l2) -> In a l1 -> In b l2 -> R a b.
Proof.
  induction l1 as [| x l1 IH]; simpl; intros Hsorted Ha Hb; [destruct Ha |].
  apply StronglySorted_inv in Hsorted as [Hsorted Hx].
  destruct Ha as [-> | Ha]; [| now apply IH].
  apply (proj1 (List.Forall_forall _ _) Hx). apply in_or_app. now right.
Qed.

(** X13. The most urgent items come first and are the ones kept.  The
    items that [get_due_items] returns are in descending order of
    priority, and together with the due items it leaves out they are the
    review items of exactly the entries that pass the type filter and
    are due, one for each; no item left out has a higher priority than
    an item returned, whatever [max_items] is. *)
Theorem due_items_most_urgent_first user_progress max_items item_types now
    out :
  get_due_items user_progress max_items item_types now = Ok out ->
  exists due rest,
    Forall2
      (fun entry item =>
         make_review_item (fst entry) (snd entry) now = Ok item)
      (selected_entries user_progress item_types now) due
    /\ Permutation due (out ++ rest)
    /\ StronglySorted priority_ge out
    /\ forall kept left_out,
         In kept out -> In left_out rest ->
         (ReviewItem.priority left_out <= ReviewItem.priority kept)%Q.
Proof.
  unfold get_due_items.
  destruct (collect_due user_progress item_types now) as [due |] eqn:Hdue;
    [cbn [mbind result_bind] | discriminate].
  intros [= <-].
  destruct (py_slice_to_take (sort_by_priority_desc due)
              (effective_max_items max_items)) as [n ->].
  exists due, (drop n (sort_by_priority_desc due)).
  pose proof (sort_by_priority_desc_sorted due) as Hsorted.
  split_and!.
  - now apply collect_due_selected.
  - rewrite take_drop. apply sort_by_priority_desc_perm.
  - now apply StronglySorted_take.
  - intros kept left_out Hkept Hleft.
    rewrite <- (take_drop n (sort_by_priority_desc due)) in Hsorted.
    exact (StronglySorted_app_In _ _ _ _ _ Hsorted Hkept Hleft).
Qed.

Lemma due_items_most_urgent_first_witness :
  let user_progress :=
    [("abundant"%string,
      initialize_item "abundant" (ItemType_value VOCABULARY) None 0);
     ("plentiful"%string,
      initialize_item "plentiful" (ItemType_value VOCABULARY) None day_us);
     ("scarce"%string,
      initialize_item "scarce" (ItemType_value VOCABULARY) None 0)] in
  exists out rest,
    get_due_items user_progress (Some 2%Z) None (4 * day_us) = Ok out
    /\ length out = 2%nat
    /\ length rest = 1%nat
    /\ StronglySorted priority_ge out
    /\ forall kept left_out,
         In kept out -> In left_out rest ->
         (ReviewItem.priority left_out <= ReviewItem.priority kept)%Q.
Proof.
  intros user_progress.
  assert (exists out,
             get_due_items user_progress (Some 2%Z) None (4 * day_us) = Ok out
             /\ length out = 2%nat)
    as (out & Hout & Hlen) by (eexists; split; reflexivity).
  destruct (due_items_most_urgent_first _ _ _ _ _ Hout)
    as (due & rest & Hdue & Hperm & Hsorted & Hurgent).
  exists out, rest. split_and!; try assumption.
  apply Permutation_length in Hperm. apply Forall2_length in Hdue.
  rewrite length_app, Hlen, <- Hdue in Hperm. simpl in Hperm. lia.
Defined.

End DueItemExtras.

(** * Statistics, study plans and review sessions *)

Section StatsExtras.
Local Open Scope Z_scope.

Lemma counts_as_sum counter :
  counts_as counter NEW + counts_as counter LEARNING
  + counts_as counter REVIEW + counts_as counter MASTERED
  = match counter with Some _ => 1 | None => 0 end.
Proof. now destruct counter as [[] |]. Qed.

Lemma counts_as_bounds counter stage : 0 <= counts_as counter stage <= 1.
Proof. destruct counter as [[] |], stage; simpl; lia. Qed.

(** The loop of [get_learning_stats], counter by counter. *)
Lemma stats_fold now user_progress : forall stats,
  let stats' := fold_left (stats_step now) user_progress stats in
  Stats.total_items stats'
  = Stats.total_items stats + Z.of_nat (length user_progress)
  /\ Stats.due_items stats'
     = Stats.due_items stats
       + Z.of_nat (length (selected_entries user_progress None now))
  /\ Stats.new_items stats' + Stats.learning_items stats'
     + Stats.review_items stats' + Stats.mastered_items stats'
     = Stats.new_items stats + Stats.learning_items stats
       + Stats.review_items stats + Stats.mastered_items stats
       + Z.of_nat (length (List.filter stage_known user_progress))
  /\ Stats.new_items stats <= Stats.new_items stats'
  /\ Stats.learning_items stats <= Stats.learning_items stats'
  /\ Stats.review_items stats <= Stats.review_items stats'
  /\ Stats.mastered_items stats <= Stats.mastered_items stats'.
Proof.
  induction user_progress as [| entry rest IH]; intros stats; cbn zeta.
  - simpl. lia.
  - cbn [fold_left].
    specialize (IH (stats_step now stats entry)). cbn zeta in IH.
    destruct IH as (Ht & Hd & Hs & Hn & Hl & Hr & Hm).
    rewrite Ht, Hd, Hs. clear Ht Hd Hs.
    set (counter :=
           stage_counter
             (default (LearningStage_value NEW) (Progress.stage (snd entry))))
      in *.
    pose proof (counts_as_sum counter) as Hsum.
    pose proof (counts_as_bounds counter NEW).
    pose proof (counts_as_bounds counter LEARNING).
    pose proof (counts_as_bounds counter REVIEW).
    pose proof (counts_as_bounds counter MASTERED).
    unfold stats_step in *. fold counter in Hn, Hl, Hr, Hm |- *.
    cbn [Stats.total_items Stats.due_items Stats.new_items
         Stats.learning_items Stats.review_items Stats.mastered_items]
      in *.
    unfold selected_entries. cbn [List.filter type_filtered_out negb andb].
    unfold stage_known at 2. fold counter. unfold is_due.
    destruct (_ <=? now); destruct counter; cbn [length]; lia.
Qed.


(** X14. The counters of [get_learning_stats].  [total_items] is the
    number of entries; the four stage counters are not negative and add
    up to the number of entries whose stage string is a stage value (or
    absent, which counts as new), so an entry with any other stage string
    is in the total and in no stage counter; [due_items] is the number of
    due entries, and the list that [get_due_items] returns without a
    limit and a filter has that many items, or 50 if they are more. *)
Theorem learning_stats_counters user_progress now :
  let stats := get_learning_stats user_progress now in
  LearningStats.total_items stats = Z.of_nat (length user_progress)
  /\ 0 <= LearningStats.new_items stats
  /\ 0 <= LearningStats.learning_items stats
  /\ 0 <= LearningStats.review_items stats
  /\ 0 <= LearningStats.mastered_items stats
  /\ LearningStats.new_items stats + LearningStats.learning_items stats
     + LearningStats.review_items stats + LearningStats.mastered_items stats
     = Z.of_nat (length (List.filter stage_known user_progress))
  /\ LearningStats.new_items stats + LearningStats.learning_items stats
     + LearningStats.review_items stats + LearningStats.mastered_items stats
     <= LearningStats.total_items stats
  /\ LearningStats.due_items stats
     = Z.of_nat (length (selected_entries user_progress None now))
  /\ 0 <= LearningStats.due_items stats <= LearningStats.total_items stats
  /\ forall out,
       get_due_items user_progress None None now = Ok out ->
       Z.of_nat (length out) = Z.min (LearningStats.due_items stats) 50.
Proof.
  cbn zeta. unfold get_learning_stats.
  cbn [LearningStats.total_items LearningStats.new_items
       LearningStats.learning_items LearningStats.review_items
       LearningStats.mastered_items LearningStats.due_items].
  destruct (stats_fold now user_progress stats_start)
    as (Ht & Hd & Hs & Hn & Hl & Hr & Hm).
  cbn [stats_start Stats.total_items Stats.due_items Stats.new_items
       Stats.learning_items Stats.review_items Stats.mastered_items] in *.
  pose proof (filter_length_le stage_known user_progress) as Hknown.
  assert (length (selected_entries user_progress None now)
          <= length user_progress)%nat as Hdue
    by apply filter_length_le.
  split_and!; try lia.
  intros out Hout. rewrite Hd.
  now apply get_due_items_default_length.
Qed.

Lemma learning_stats_counters_witness :
  let user_progress :=
    [("abundant"%string,
      initialize_item "abundant" (ItemType_value VOCABULARY) None 0);
     ("scarce"%string, reviewed_item [5; 4]%Z)] in
  exists out,
    get_due_items user_progress None None day_us = Ok out
    /\ Z.of_nat (length out)
       = Z.min
           (LearningStats.due_items (get_learning_stats user_progress day_us))
           50.
Proof.
  intros user_progress.
  assert (exists out, get_due_items user_progress None None day_us = Ok out)
    as [out Hout] by (eexists; reflexivity).
  exists out. split; [exact Hout |].
  now apply (learning_stats_counters user_progress day_us).
Defined.

Lemma stats_fold_reviews now user_progress : forall stats,
  Forall
    (fun entry =>
       0 <= default 0 (Progress.correct_reviews (snd entry))
         <= default 0 (Progress.total_reviews (snd entry)))
    user_progress ->
  0 <= Stats.correct_reviews stats <= Stats.total_reviews stats ->
  let stats' := fold_left (stats_step now) user_progress stats in
  0 <= Stats.correct_reviews stats' <= Stats.total_reviews stats'.
Proof.
  induction user_progress as [| entry rest IH]; intros stats Hall Hstats;
    cbn zeta; [exact Hstats |].
  apply Forall_cons in Hall as [Hentry Hrest].
  cbn [fold_left]. apply IH; [exact Hrest |].
  unfold stats_step. cbn [Stats.correct_reviews Stats.total_reviews]. lia.
Qed.

(** X15. The accuracy rate.  When every entry has counters with
    [0 <= correct_reviews <= total_reviews] (absent counters count as 0),
    the accuracy rate of [get_learning_stats] lies between 0 and 1; it is
    0 when no review has been recorded, where the quotient is not
    defined. *)
Theorem learning_stats_accuracy user_progress now :
  Forall
    (fun entry =>
       0 <= default 0 (Progress.correct_reviews (snd entry))
         <= default 0 (Progress.total_reviews (snd entry)))
    user_progress ->
  (0 <= LearningStats.accuracy_rate (get_learning_stats user_progress now)
   /\ LearningStats.accuracy_rate (get_learning_stats user_progress now) <= 1)%Q
  /\ (Forall
        (fun entry => default 0 (Progress.total_reviews (snd entry)) = 0)
        user_progress ->
      LearningStats.accuracy_rate (get_learning_stats user_progress now)
      = 0%Q).
Proof.
  intros Hall.
  assert (0 <= Stats.correct_reviews stats_start
            <= Stats.total_reviews stats_start) as Hstart by (simpl; lia).
  pose proof (stats_fold_reviews now user_progress stats_start Hall Hstart)
    as Hsum.
  cbn zeta in Hsum. clear Hstart.
  unfold get_learning_stats. cbn [LearningStats.accuracy_rate].
  set (stats := fold_left (stats_step now) user_progress stats_start) in *.
  split.
  - destruct (Z.ltb_spec 0 (Stats.total_reviews stats)) as [Hpos | Hzero].
    + assert (0 < inject_Z (Stats.total_reviews stats))%Q as Hq
        by (rewrite <- (Zlt_Qlt 0); exact Hpos).
      split.
      * apply Qle_shift_div_l; [exact Hq |].
        rewrite Qmult_0_l, <- (Zle_Qle 0). lia.
      * apply Qle_shift_div_r; [exact Hq |].
        rewrite Qmult_1_l, <- Zle_Qle. lia.
    + split; unfold Qle; simpl; lia.
  - intros Hnone.
    assert (Stats.total_reviews stats = 0) as ->; [| reflexivity].
    subst stats. clear Hsum Hall.
    assert (forall acc,
               Stats.total_reviews acc = 0 ->
               Stats.total_reviews
                 (fold_left (stats_step now) user_progress acc) = 0) as Hfold.
    { induction Hnone as [| entry rest Hentry _ IH]; intros acc Hacc;
        [exact Hacc |].
      cbn [fold_left]. apply IH. unfold stats_step.
      cbn [Stats.total_reviews]. lia. }
    now apply Hfold.
Qed.

Lemma learning_stats_accuracy_witness :
  let user_progress :=
    [("abundant"%string,
      initialize_item "abundant" (ItemType_value VOCABULARY) None 0);
     ("scarce"%string, reviewed_item [5; 4]%Z)] in
  (0 <= LearningStats.accuracy_rate (get_learning_stats user_progress day_us)
   /\ LearningStats.accuracy_rate (get_learning_stats user_progress day_us)
      <= 1)%Q.
Proof.
  intros user_progress.
  apply (learning_stats_accuracy user_progress day_us).
  repeat constructor; simpl; lia.
Defined.





Lemma StronglySorted_filter {A : Type} (R : A -> A -> Prop) (f : A -> bool)
    (l : list A) :
  StronglySorted R l -> StronglySorted R (List.filter f l).
Proof.
  induction 1 as [| x l Hsorted IH Hall]; simpl; [constructor |].
  destruct (f x); [| exact IH].
  constructor; [exact IH |].
  apply Forall_forall. intros y Hy.
  apply list_elem_of_In, filter_In in Hy as [Hy _].
  rewrite Forall_forall in Hall. now apply Hall, list_elem_of_In.
Qed.

Lemma py_slice_to_nil {A : Type} (m : Z) : py_slice_to (@nil A) m = [].
Proof. unfold py_slice_to. destruct (m <? 0); apply take_nil. Qed.

(** X17. Review sessions.  When the body of [create_review_session]
    returns a session for a limit that is not negative, the session has
    no more items than the limit, also for a limit of 0; it is sorted by
    descending priority; every item is one that [get_due_items] returned
    for that limit; a session of type [new] holds only new items, one of
    type [review] only items in learning or review, and one of type
    [weak_areas] only items with a difficulty score above 1.0.  As
    [_load_user_progress] returns no entries, [create_review_session]
    itself returns the empty session on every call. *)
Theorem review_session_items :
  (forall user_progress session_type max_items now session,
      review_session user_progress session_type max_items now = Ok session ->
      (0 <= max_items -> Z.of_nat (length session) <= max_items)
      /\ StronglySorted priority_ge session
      /\ (exists due_items,
            get_due_items user_progress (Some max_items) None now
            = Ok due_items
            /\ Forall (fun item => In item due_items) session)
      /\ (session_type = "new"%string ->
          Forall (fun item => ReviewItem.stage item = NEW) session)
      /\ (session_type = "review"%string ->
          Forall
            (fun item =>
               ReviewItem.stage item = LEARNING
               \/ ReviewItem.stage item = REVIEW)
            session)
      /\ (session_type = "weak_areas"%string ->
          Forall (fun item => (1.0 < ReviewItem.difficulty_score item)%Q)
            session))
  /\ (forall db_manager user_id session_type max_items now,
        create_review_session db_manager user_id session_type max_items now
        = Ok []).
Proof.
  split.
  - intros user_progress session_type max_items now session.
    unfold review_session.
    destruct (get_due_items user_progress (Some max_items) None now)
      as [due_items |] eqn:Hdue; [| discriminate].
    cbn [mbind result_bind]. intros [= <-].
    destruct (get_due_items_capped_sorted _ _ _ _ _ Hdue)
      as (_ & _ & _ & Hsorted & _).
    destruct (py_slice_to_take
                (List.filter (session_keeps session_type) due_items)
                max_items) as [n Hn].
    assert (Forall
              (fun item =>
                 In item due_items /\ session_keeps session_type item = true)
              (py_slice_to
                 (List.filter (session_keeps session_type) due_items)
                 max_items)) as Hkept.
    { rewrite Hn. apply Forall_forall. intros item Hin.
      apply list_elem_of_In, In_take in Hin. now apply filter_In in Hin. }
    split_and!.
    + apply py_slice_to_length.
    + rewrite Hn. now apply StronglySorted_take, StronglySorted_filter.
    + exists due_items. split; [reflexivity |].
      eapply Forall_impl; [exact Hkept |]. now intros item [Hin _].
    + intros ->. eapply Forall_impl; [exact Hkept |].
      intros item [_ Hkeep]. unfold session_keeps in Hkeep. simpl in Hkeep.
      now destruct (ReviewItem.stage item).
    + intros ->. eapply Forall_impl; [exact Hkept |].
      intros item [_ Hkeep]. unfold session_keeps in Hkeep. simpl in Hkeep.
      destruct (ReviewItem.stage item); auto; discriminate.
    + intros ->. eapply Forall_impl; [exact Hkept |].
      intros item [_ Hkeep]. unfold session_keeps in Hkeep. simpl in Hkeep.
      apply negb_true_iff in Hkeep. apply Qnot_le_lt. intros Hle.
      apply Qle_bool_iff in Hle. congruence.
  - intros db_manager user_id session_type max_items now.
    unfold create_review_session, _load_user_progress, review_session.
    destruct db_manager; [| reflexivity]. unfold get_due_items.
    cbn [negb collect_due mbind result_bind sort_by_priority_desc fold_right].
    rewrite py_slice_to_nil. cbn [List.filter]. now rewrite py_slice_to_nil.
Qed.

Lemma review_session_items_witness :
  let user_progress :=
    [("abundant"%string,
      initialize_item "abundant" (ItemType_value VOCABULARY) None 0);
     ("scarce"%string, reviewed_item [1; 2]%Z)] in
  exists session,
    review_session user_progress "new" 0 day_us = Ok session
    /\ Z.of_nat (length session) <= 0
    /\ Forall (fun item => ReviewItem.stage item = NEW) session.
Proof.
  intros user_progress.
  assert (exists session,
             review_session user_progress "new" 0 day_us = Ok session)
    as [session Hsession] by (eexists; reflexivity).
  destruct (proj1 review_session_items _ _ _ _ _ Hsession)
    as (Hcap & _ & _ & Hnew & _).
  exists session. split_and!; [exact Hsession | | ].
  - apply Hcap. lia.
  - now apply Hnew.
Defined.

End StatsExtras.

(** * More about the quiz manager *)

Section QuizExtras.

Lemma py_setitem_exact {A : Type} (l : list A) (i : Z) (v : A) :
  0 <= i < Z.of_nat (length l) ->
  py_setitem l i v = Ok (<[Z.to_nat i := v]> l).
Proof.
  intros Hi. unfold py_setitem.
  destruct (Z.ltb_spec i 0); [lia |].
  destruct (Z.ltb_spec i 0); [lia |].
  now destruct (Z.leb_spec (Z.of_nat (length l)) i); [lia |].
Qed.

Lemma py_index_exact {A : Type} (l : list A) (i : Z) (a : A) :
  0 <= i ->
  l !! Z.to_nat i = Some a ->
  py_index l i = Ok a.
Proof.
  intros Hi Hlook. pose proof (lookup_lt_Some _ _ _ Hlook) as Hlt.
  unfold py_index.
  destruct (Z.ltb_spec i 0); [lia |].
  destruct (Z.ltb_spec i 0); [lia |].
  destruct (Z.leb_spec (Z.of_nat (length l)) i); [lia |].
  simpl. now rewrite Hlook.
Qed.

(** An answer to a session with a question open, in full: the feedback
    that is returned and the session that is stored. *)
Lemma submit_answer_exact self session_id answer now s question :
  dict_get session_id (QuizManager.active_sessions self) = Some s ->
  session_inv s ->
  QuizSession.current_question s
  < Z.of_nat (length (QuizSession.questions s)) ->
  QuizSession.questions s !! Z.to_nat (QuizSession.current_question s)
  = Some question ->
  let s' := answered answer now question s in
  let self' := store_session session_id s' self in
  exists final,
    submit_answer self session_id answer now
    = (Ok (Response.Answer
             {| Response.correct :=
                  bool_decide
                    (answer = QuizQuestion.correct_answer question);
                Response.correct_answer :=
                  QuizQuestion.correct_answer question;
                Response.explanation := QuizQuestion.explanation question;
                Response.current_score := QuizSession.score s';
                Response.questions_completed :=
                  QuizSession.current_question s + 1;
                Response.total_questions :=
                  Z.of_nat (length (QuizSession.questions s));
                Response.final_result := final |}),
       self')
    /\ if Z.of_nat (length (QuizSession.questions s))
          <=? QuizSession.current_question s + 1
       then exists quiz_result,
              final = Some quiz_result
              /\ _generate_result self' s' = Ok quiz_result
       else final = None.
Proof.
  intros Hget (Hscore & Hcur & Hmax & Hlen) Hopen Hquestion.
  cbv zeta. unfold answered, submit_answer. rewrite Hget.
  destruct (Z.leb_spec (Z.of_nat (length (QuizSession.questions s)))
              (QuizSession.current_question s)); [lia |].
  rewrite py_setitem_exact by lia.
  cbv zeta. cbn [record_answer QuizSession.questions].
  rewrite (py_index_exact _ _ question) by (lia || assumption).
  cbn [advance record_answer QuizSession.current_question QuizSession.score
       QuizSession.questions QuizSession.user_answers].
  destruct (Z.leb_spec (Z.of_nat (length (QuizSession.questions s)))
              (QuizSession.current_question s + 1)) as [Hlast | Hmore].
  - match goal with |- context [_generate_result ?m (stamp_end_time now ?t)] =>
      destruct (_generate_result_returns m t now) as [quiz_result Hresult];
        [simpl; lia | simpl; rewrite length_insert; congruence |]
    end.
    rewrite Hresult.
    cbn [store_session set_active_sessions QuizManager.spaced_repetition
         stamp_end_time advance record_answer QuizSession.questions
         QuizSession.user_answers QuizSession.score].
    assert (exists updated,
               (if QuizManager.spaced_repetition self
                then _update_spaced_repetition (QuizSession.questions s)
                       (<[Z.to_nat (QuizSession.current_question s)
                          := Some answer]> (QuizSession.user_answers s))
                       0 now
                else Ok []) = Ok updated) as [updated ->].
    { destruct (QuizManager.spaced_repetition self); [| eauto].
      apply _update_spaced_repetition_returns;
        [lia | rewrite length_insert; lia]. }
    eexists. split; [reflexivity |].
    eexists. split; reflexivity.
  - eexists. split; reflexivity.
Qed.

Lemma answered_fields answer now question s :
  let s' := answered answer now question s in
  QuizSession.session_id s' = QuizSession.session_id s
  /\ QuizSession.user_id s' = QuizSession.user_id s
  /\ QuizSession.questions s' = QuizSession.questions s
  /\ QuizSession.start_time s' = QuizSession.start_time s
  /\ QuizSession.category s' = QuizSession.category s
  /\ QuizSession.difficulty s' = QuizSession.difficulty s
  /\ QuizSession.current_question s' = QuizSession.current_question s + 1
  /\ QuizSession.score s'
     = QuizSession.score s
       + (if bool_decide (answer = QuizQuestion.correct_answer question)
          then 1 else 0)
  /\ QuizSession.user_answers s'
     = <[Z.to_nat (QuizSession.current_question s) := Some answer]>
         (QuizSession.user_answers s)
  /\ QuizSession.time_per_question s'
     = QuizSession.time_per_question s ++ [question_time now s].
Proof.
  unfold answered. cbv zeta.
  destruct (_ <=? _); cbn; destruct (bool_decide _); split_and!;
    (reflexivity || lia).
Qed.

(** Where [submit_answer] leaves the manager: as it was, or with the
    entry of the session replaced by a session of the same user, id,
    questions and start. *)
Lemma submit_answer_writes self session_id answer now :
  snd (submit_answer self session_id answer now) = self
  \/ exists s s',
       dict_get session_id (QuizManager.active_sessions self) = Some s
       /\ snd (submit_answer self session_id answer now)
          = store_session session_id s' self
       /\ QuizSession.session_id s' = QuizSession.session_id s
       /\ QuizSession.user_id s' = QuizSession.user_id s
       /\ QuizSession.questions s' = QuizSession.questions s
       /\ QuizSession.start_time s' = QuizSession.start_time s.
Proof.
  unfold submit_answer.
  destruct (dict_get session_id _) as [s |] eqn:Hget; [| now left].
  destruct (_ <=? _); [now left |].
  destruct (py_setitem _ _ _); [| now left].
  cbv zeta. right. exists s.
  destruct (py_index _ _); [| eexists; now split_and!].
  destruct (_ <=? _); [| eexists; now split_and!].
  destruct (_generate_result _ _); [| eexists; now split_and!].
  destruct (if QuizManager.spaced_repetition _ then _ else _);
    eexists; now split_and!.
Qed.

(** X18. What [submit_answer] leaves alone.  Whatever its arguments and
    its outcome, the call changes no session other than the one it was
    called for, adds and removes no session id, and leaves the question
    bank as it was; and the session it was called for keeps its id, its
    user, its questions and its start time. *)
Theorem submit_answer_frame self session_id answer now :
  let self' := snd (submit_answer self session_id answer now) in
  (forall other,
      other <> session_id ->
      dict_get other (QuizManager.active_sessions self')
      = dict_get other (QuizManager.active_sessions self))
  /\ map fst (QuizManager.active_sessions self')
     = map fst (QuizManager.active_sessions self)
  /\ QuizManager.question_bank self' = QuizManager.question_bank self
  /\ forall s',
       dict_get session_id (QuizManager.active_sessions self') = Some s' ->
       exists s,
         dict_get session_id (QuizManager.active_sessions self) = Some s
         /\ QuizSession.session_id s' = QuizSession.session_id s
         /\ QuizSession.user_id s' = QuizSession.user_id s
         /\ QuizSession.questions s' = QuizSession.questions s
         /\ QuizSession.start_time s' = QuizSession.start_time s.
Proof.
  cbv zeta.
  destruct (submit_answer_writes self session_id answer now)
    as [-> | (s & s' & Hget & -> & Hid & Huser & Hq & Hstart)].
  - split_and!; try reflexivity.
    intros s' Hs'. exists s'. now split_and!.
  - unfold store_session. cbn [QuizManager.active_sessions
      QuizManager.question_bank set_active_sessions].
    split_and!.
    + intros other Hother. now apply dict_get_set_ne.
    + rewrite dict_set_keys. unfold dict_mem. now rewrite Hget.
    + reflexivity.
    + intros s0. rewrite dict_get_set_eq. intros [= <-].
      exists s. now split_and!.
Qed.

Lemma submit_answer_frame_witness :
  let self :=
    store_session (SessionId.mk 7 0 "a1b2c3d4")
      {| QuizSession.session_id := SessionId.mk 7 0 "a1b2c3d4";
         QuizSession.user_id := 7;
         QuizSession.questions := [qa_001; gi_001];
         QuizSession.current_question := 0;
         QuizSession.score := 0;
         QuizSession.start_time := 0;
         QuizSession.end_time := None;
         QuizSession.user_answers := [None; None];
         QuizSession.time_per_question := [];
         QuizSession.category := MIXED;
         QuizSession.difficulty := EASY |}
      (QuizManager_init false true) in
  dict_get (SessionId.mk 8 0 "e5f6a7b8")
    (QuizManager.active_sessions
       (snd (submit_answer self (SessionId.mk 7 0 "a1b2c3d4") 1 5000000)))
  = dict_get (SessionId.mk 8 0 "e5f6a7b8") (QuizManager.active_sessions self).
Proof.
  intros self.
  apply (submit_answer_frame self (SessionId.mk 7 0 "a1b2c3d4") 1 5000000).
  discriminate.
Defined.

Lemma count_correct_insert questions : forall user_answers i question answer,
  questions !! i = Some question ->
  user_answers !! i = Some None ->
  count_correct questions (<[i := Some answer]> user_answers)
  = count_correct questions user_answers
    + (if bool_decide (answer = QuizQuestion.correct_answer question)
       then 1 else 0).
Proof.
  induction questions as [| q questions IH];
    intros [| a user_answers] [| i] question answer Hq Ha;
    try discriminate; simpl in *.
  - injection Hq as ->. injection Ha as ->.
    rewrite (bool_decide_ext (Some answer
                              = Some (QuizQuestion.correct_answer question))
               (answer = QuizQuestion.correct_answer question))
      by (split; congruence).
    rewrite (bool_decide_eq_false_2
               (None = Some (QuizQuestion.correct_answer question)))
      by discriminate.
    lia.
  - rewrite (IH _ _ _ _ Hq Ha). lia.
Qed.

Lemma count_correct_unanswered questions n :
  count_correct questions (replicate n None) = 0.
Proof.
  revert n. induction questions as [| q questions IH]; intros [| n]; simpl;
    try reflexivity.
  now rewrite IH.
Qed.

Lemma session_record_inv_answered answer now question s :
  session_inv s ->
  session_record_inv s ->
  QuizSession.current_question s
  < Z.of_nat (length (QuizSession.questions s)) ->
  QuizSession.questions s !! Z.to_nat (QuizSession.current_question s)
  = Some question ->
  session_record_inv (answered answer now question s).
Proof.
  intros (Hs0 & Hs1 & Hs2 & Hlen) (Hscore & Hslots & Htimes) Hopen Hq.
  destruct (answered_fields answer now question s)
    as (_ & _ & Eq & _ & _ & _ & Ec & Es & Ea & Et).
  unfold session_record_inv. rewrite Eq, Ec, Es, Ea, Et. split_and!.
  - rewrite (count_correct_insert _ _ _ question) by
      (assumption || (apply Hslots; lia)).
    now rewrite Hscore.
  - intros i Hi Hlt. rewrite length_insert in Hlt.
    rewrite list_lookup_insert_ne by lia. apply Hslots; [lia | assumption].
  - rewrite length_app. simpl. lia.
Qed.

Lemma session_record_inv_created (s : QuizSession.t) :
  QuizSession.current_question s = 0 ->
  QuizSession.score s = 0 ->
  QuizSession.time_per_question s = [] ->
  QuizSession.user_answers s
  = replicate (length (QuizSession.questions s)) None ->
  session_record_inv s.
Proof.
  intros Hc Hs Ht Ha. unfold session_record_inv.
  rewrite Hc, Hs, Ht, Ha, count_correct_unanswered. split_and!; try done.
  intros i _ Hi. rewrite length_replicate in Hi.
  now apply lookup_replicate_2.
Qed.

Lemma create_weekly_quiz_times self user_id category difficulty
    question_count env session self' :
  create_weekly_quiz self user_id category difficulty question_count env
  = Ok (session, self') ->
  QuizSession.time_per_question session = []
  /\ QuizSession.start_time session = Env.now env
  /\ QuizSession.category session = category
  /\ QuizSession.difficulty session = difficulty.
Proof.
  unfold create_weekly_quiz.
  destruct (_select_questions _ _ _ _ _) as [questions |];
    [simpl | discriminate].
  now intros [= <- <-].
Qed.

Lemma reachable_record_inv self :
  reachable self ->
  forall session_id s,
    dict_get session_id (QuizManager.active_sessions self) = Some s ->
    session_record_inv s.
Proof.
  induction 1 as [db sr | self ? ? ? ? ? session self' Hreach IH Hcreate
                 | self sid answer now Hreach IH].
  - discriminate.
  - destruct (create_weekly_quiz_session _ _ _ _ _ _ _ _ Hcreate)
      as (-> & _ & _ & Hcur & Hscore & _ & Hanswers).
    destruct (create_weekly_quiz_times _ _ _ _ _ _ _ _ Hcreate) as (Ht & _).
    intros session_id s. unfold store_session. simpl.
    destruct (decide (QuizSession.session_id session = session_id))
      as [<- | Hne].
    + rewrite dict_get_set_eq. intros [= <-].
      now apply session_record_inv_created.
    + rewrite dict_get_set_ne by assumption. apply IH.
  - intros session_id s'.
    destruct (dict_get sid (QuizManager.active_sessions self))
      as [s |] eqn:Hget;
      [| rewrite (submit_answer_unknown _ _ _ _ Hget); apply IH].
    destruct (reachable_inv _ Hreach _ _ Hget) as [_ Hs].
    destruct (Z.le_gt_cases (Z.of_nat (length (QuizSession.questions s)))
                (QuizSession.current_question s)) as [Hdone | Hopen];
      [rewrite (submit_answer_completed _ _ _ _ _ Hget Hdone); apply IH |].
    destruct (lookup_lt_is_Some_2 (QuizSession.questions s)
                (Z.to_nat (QuizSession.current_question s)))
      as [question Hq]; [destruct Hs; lia |].
    destruct (submit_answer_exact self sid answer now s question Hget Hs
                ltac:(lia) Hq) as (final & -> & _).
    unfold store_session. simpl.
    destruct (decide (sid = session_id)) as [<- | Hne].
    + rewrite dict_get_set_eq. intros [= <-].
      apply session_record_inv_answered; try assumption.
      now apply (IH sid).
    + rewrite dict_get_set_ne by assumption. apply IH.
Qed.

(** X19. What a session records.  In every state of the manager, the
    score of a session is the number of its answer slots that hold the
    correct option of their question, the slots from the current question
    on are still empty, and there is one recorded time for each answered
    question. *)
Theorem session_records self session_id s :
  reachable self ->
  dict_get session_id (QuizManager.active_sessions self) = Some s ->
  QuizSession.score s
  = count_correct (QuizSession.questions s) (QuizSession.user_answers s)
  /\ (forall i : nat,
        QuizSession.current_question s <= Z.of_nat i ->
        (i < length (QuizSession.user_answers s))%nat ->
        QuizSession.user_answers s !! i = Some None)
  /\ Z.of_nat (length (QuizSession.time_per_question s))
     = QuizSession.current_question s.
Proof. intros Hreach Hget. exact (reachable_record_inv self Hreach _ _ Hget). Qed.

Lemma session_records_witness :
  exists session self s,
    create_weekly_quiz (QuizManager_init false true) 7 MIXED EASY 3
      (env_at 0 "a1b2c3d4") = Ok (session, self)
    /\ dict_get (QuizSession.session_id session)
         (QuizManager.active_sessions
            (snd (submit_answer self (QuizSession.session_id session) 1
                    4000000)))
       = Some s
    /\ QuizSession.score s
       = count_correct (QuizSession.questions s) (QuizSession.user_answers s).
Proof.
  assert (exists session self s,
             create_weekly_quiz (QuizManager_init false true) 7 MIXED EASY 3
               (env_at 0 "a1b2c3d4") = Ok (session, self)
             /\ dict_get (QuizSession.session_id session)
                  (QuizManager.active_sessions
                     (snd (submit_answer self (QuizSession.session_id session)
                             1 4000000)))
                = Some s)
    as (session & self & s & Hcreate & Hget)
    by (do 3 eexists; split; reflexivity).
  exists session, self, s. split_and!; [exact Hcreate | exact Hget |].
  refine (proj1 (session_records _ _ _ _ Hget)).
  apply reachable_submit.
  eapply reachable_create; [apply reachable_init | exact Hcreate].
Defined.

Lemma _generate_result_fields self s r :
  _generate_result self s = Ok r ->
  exists end_time perf,
    QuizSession.end_time s = Some end_time
    /\ category_performance (QuizSession.questions s)
         (QuizSession.user_answers s) 0 [] = Ok perf
    /\ QuizSession.questions s <> []
    /\ QuizResult.total_questions r
       = Z.of_nat (length (QuizSession.questions s))
    /\ QuizResult.correct_answers r = QuizSession.score s
    /\ QuizResult.time_taken r
       = total_seconds (end_time - QuizSession.start_time s)
    /\ QuizResult.score_percentage r
       = (inject_Z (QuizSession.score s)
          / inject_Z (Z.of_nat (length (QuizSession.questions s))) * 100)%Q
    /\ QuizResult.weak_areas r = weak_areas_of perf
    /\ QuizResult.strong_areas r = strong_areas_of perf
    /\ QuizResult.recommendations r
       = _generate_recommendations (QuizResult.score_percentage r)
           (weak_areas_of perf)
    /\ QuizResult.session_id r = QuizSession.session_id s
    /\ QuizResult.user_id r = QuizSession.user_id s.
Proof.
  unfold _generate_result.
  destruct (QuizSession.end_time s) as [end_time |]; [| discriminate].
  cbn [mbind result_bind].
  destruct (Z.eqb_spec (Z.of_nat (length (QuizSession.questions s))) 0)
    as [Hzero | Hpos]; [discriminate |].
  cbn [mbind result_bind].
  destruct (category_performance _ _ _ _) as [perf |]; [| discriminate].
  cbn [mbind result_bind]. intros [= <-].
  exists end_time, perf. split_and!; try reflexivity.
  intros Hnil. rewrite Hnil in Hpos. now apply Hpos.
Qed.

Lemma py_fsum_snoc (l : list Q) (x : Q) :
  (py_fsum (l ++ [x]) == py_fsum l + x)%Q.
Proof.
  induction l as [| y l IH]; simpl; [ring |].
  rewrite IH. ring.
Qed.

Lemma question_time_sum now s :
  (py_fsum (QuizSession.time_per_question s ++ [question_time now s])
   == total_seconds (now - QuizSession.start_time s))%Q.
Proof.
  rewrite py_fsum_snoc. unfold question_time.
  destruct (QuizSession.time_per_question s) as [| t times]; [simpl |]; ring.
Qed.

(** In a reachable state, an answer that is accepted is the exact
    step. *)
Lemma submit_answer_accepted self session_id answer now f self' :
  reachable self ->
  submit_answer self session_id answer now = (Ok (Response.Answer f), self') ->
  exists s question,
    dict_get session_id (QuizManager.active_sessions self) = Some s
    /\ session_inv s
    /\ QuizSession.current_question s
       < Z.of_nat (length (QuizSession.questions s))
    /\ QuizSession.questions s !! Z.to_nat (QuizSession.current_question s)
       = Some question
    /\ self' = store_session session_id (answered answer now question s) self
    /\ Response.correct f
       = bool_decide (answer = QuizQuestion.correct_answer question)
    /\ Response.correct_answer f = QuizQuestion.correct_answer question
    /\ Response.explanation f = QuizQuestion.explanation question
    /\ Response.current_score f
       = QuizSession.score (answered answer now question s)
    /\ Response.questions_completed f = QuizSession.current_question s + 1
    /\ Response.total_questions f
       = Z.of_nat (length (QuizSession.questions s))
    /\ if Z.of_nat (length (QuizSession.questions s))
          <=? QuizSession.current_question s + 1
       then exists quiz_result,
              Response.final_result f = Some quiz_result
              /\ _generate_result self' (answered answer now question s)
                 = Ok quiz_result
       else Response.final_result f = None.
Proof.
  intros Hreach Hsubmit.
  destruct (dict_get session_id (QuizManager.active_sessions self))
    as [s |] eqn:Hget;
    [| rewrite (submit_answer_unknown _ _ _ _ Hget) in Hsubmit;
       discriminate].
  destruct (reachable_inv _ Hreach _ _ Hget) as [_ Hs].
  destruct (Z.le_gt_cases (Z.of_nat (length (QuizSession.questions s)))
              (QuizSession.current_question s)) as [Hdone | Hopen];
    [rewrite (submit_answer_completed _ _ _ _ _ Hget Hdone) in Hsubmit;
     discriminate |].
  destruct (lookup_lt_is_Some_2 (QuizSession.questions s)
              (Z.to_nat (QuizSession.current_question s)))
    as [question Hq]; [destruct Hs; lia |].
  destruct (submit_answer_exact self session_id answer now s question Hget Hs
              Hopen Hq) as (final & Hexact & Hfinal).
  rewrite Hexact in Hsubmit. injection Hsubmit as <- <-.
  exists s, question. now split_and!.
Qed.

(** X21. The question shown is the question graded.  In every state of
    the manager [get_current_question] returns without an exception.  It
    returns nothing exactly for the session ids for which [submit_answer]
    turns every answer down.  When it returns a question, it is number
    [current_question + 1] of the session, between 1 and the number of
    questions, and [submit_answer] accepts any answer to it, grades it
    against the correct option of that very question, and reports that
    number as the count of completed questions. *)
Theorem current_question_is_graded self session_id :
  reachable self ->
  (exists view, get_current_question self session_id = Ok view)
  /\ (get_current_question self session_id = Ok None <->
      exists message,
        forall answer now,
          submit_answer self session_id answer now
          = (Ok (Response.Error message), self))
  /\ forall view answer now,
       get_current_question self session_id = Ok (Some view) ->
       1 <= QuestionView.question_number view
         <= QuestionView.total_questions view
       /\ exists question f self',
            submit_answer self session_id answer now
            = (Ok (Response.Answer f), self')
            /\ QuestionView.question view = QuizQuestion.question question
            /\ QuestionView.options view = QuizQuestion.options question
            /\ Response.correct_answer f
               = QuizQuestion.correct_answer question
            /\ Response.explanation f = QuizQuestion.explanation question
            /\ (Response.correct f = true
                <-> answer = QuizQuestion.correct_answer question)
            /\ Response.questions_completed f
               = QuestionView.question_number view
            /\ Response.total_questions f
               = QuestionView.total_questions view.
Proof.
  intros Hreach. unfold get_current_question.
  destruct (dict_get session_id (QuizManager.active_sessions self))
    as [s |] eqn:Hget.
  - destruct (reachable_inv _ Hreach _ _ Hget) as [_ Hs].
    pose proof Hs as (Hs0 & Hs1 & Hs2 & Hs3).
    cbv zeta.
    destruct (Z.leb_spec (Z.of_nat (length (QuizSession.questions s)))
                (QuizSession.current_question s)) as [Hdone | Hopen].
    + split_and!; [eauto | | discriminate].
      split; [intros _ | reflexivity].
      exists "Quiz already completed"%string. intros answer now.
      now apply (submit_answer_completed _ _ _ _ s).
    + destruct (lookup_lt_is_Some_2 (QuizSession.questions s)
                  (Z.to_nat (QuizSession.current_question s)))
        as [question Hq]; [lia |].
      rewrite (py_index_exact _ _ question) by (lia || assumption).
      cbn [mbind result_bind]. split_and!; [eauto | |].
      * split; [discriminate |]. intros [message Hall].
        destruct (submit_answer_exact self session_id 0 0 s question Hget Hs
                    Hopen Hq) as (final & Hexact & _).
        rewrite Hall in Hexact. discriminate.
      * intros view answer now [= <-].
        cbn [QuestionView.question_number QuestionView.total_questions
             QuestionView.question QuestionView.options].
        split; [lia |].
        destruct (submit_answer_exact self session_id answer now s question
                    Hget Hs Hopen Hq) as (final & Hexact & _).
        eexists question, _, _. split; [exact Hexact |].
        cbn [Response.correct Response.correct_answer Response.explanation
             Response.questions_completed Response.total_questions].
        split_and!; try reflexivity.
        apply bool_decide_eq_true.
  - split_and!; [eauto | | discriminate].
    split; [intros _ | reflexivity].
    exists "Session not found"%string. intros answer now.
    now apply submit_answer_unknown.
Qed.

Lemma current_question_is_graded_witness :
  exists session self view,
    create_weekly_quiz (QuizManager_init false true) 7 MIXED EASY 3
      (env_at 0 "a1b2c3d4") = Ok (session, self)
    /\ get_current_question self (QuizSession.session_id session)
       = Ok (Some view)
    /\ 1 <= QuestionView.question_number view
         <= QuestionView.total_questions view.
Proof.
  assert (exists session self view,
             create_weekly_quiz (QuizManager_init false true) 7 MIXED EASY 3
               (env_at 0 "a1b2c3d4") = Ok (session, self)
             /\ get_current_question self (QuizSession.session_id session)
                = Ok (Some view))
    as (session & self & view & Hcreate & Hview)
    by (do 3 eexists; split; reflexivity).
  assert (reachable self) as Hreach
    by (eapply reachable_create; [apply reachable_init | exact Hcreate]).
  destruct (current_question_is_graded self (QuizSession.session_id session)
              Hreach) as (_ & _ & Hshown).
  destruct (Hshown view 0 0 Hview) as [Hnumber _].
  exists session, self, view. now split_and!.
Defined.

Lemma count_correct_bounds questions : forall user_answers,
  0 <= count_correct questions user_answers <= Z.of_nat (length questions).
Proof.
  induction questions as [| q questions IH]; intros [| a user_answers];
    simpl; try lia.
  specialize (IH user_answers). destruct (bool_decide _); lia.
Qed.

Lemma count_correct_all questions : forall user_answers,
  length user_answers = length questions ->
  count_correct questions user_answers = Z.of_nat (length questions) ->
  Forall2 (fun q a => a = Some (QuizQuestion.correct_answer q))
    questions user_answers.
Proof.
  induction questions as [| q questions IH]; intros [| a user_answers] Hlen;
    try discriminate; simpl; [constructor |].
  pose proof (count_correct_bounds questions user_answers) as Hbound.
  destruct (bool_decide_reflect (a = Some (QuizQuestion.correct_answer q)))
    as [Ha | Ha]; intros Hall; [| lia].
  constructor; [exact Ha |]. apply IH; [simpl in Hlen; lia | lia].
Qed.

Lemma dict_set_set {K V : Type} `{EqDecision K} (k : K) (v v' : V)
    (d : list (K * V)) :
  dict_set k v (dict_set k v' d) = dict_set k v d.
Proof.
  induction d as [| [k0 v0] d IH]; simpl.
  - now rewrite decide_True.
  - destruct (decide (k = k0)) as [-> | Hne]; simpl.
    + now rewrite decide_True.
    + rewrite decide_False by assumption. now rewrite IH.
Qed.

Lemma dict_set_Forall {K V : Type} `{EqDecision K} (P : K * V -> Prop)
    (k : K) (v : V) (d : list (K * V)) :
  P (k, v) -> Forall P d -> Forall P (dict_set k v d).
Proof.
  intros Hnew. induction 1 as [| [k0 v0] d Hhead Htail IH]; simpl.
  - now repeat constructor.
  - destruct (decide (k = k0)); constructor; assumption.
Qed.

Lemma category_performance_all_correct questions :
  forall user_answers i acc perf,
    0 <= i ->
    Forall2 (fun q a => a = Some (QuizQuestion.correct_answer q)) questions
      (drop (Z.to_nat i) user_answers) ->
    Forall all_correct acc ->
    category_performance questions user_answers i acc = Ok perf ->
    Forall all_correct perf.
Proof.
  induction questions as [| q questions IH];
    intros user_answers i acc perf Hi Hall Hacc; cbn [category_performance].
  - now intros [= <-].
  - apply Forall2_cons_inv_l in Hall as (a & tail & -> & Htail & Hdrop).
    assert (user_answers !! Z.to_nat i
            = Some (Some (QuizQuestion.correct_answer q))) as Hlook.
    { pose proof (lookup_drop user_answers (Z.to_nat i) 0) as Hl.
      rewrite Hdrop, Nat.add_0_r in Hl. now rewrite <- Hl. }
    assert (drop (Z.to_nat (i + 1)) user_answers = tail) as Hnext.
    { replace (Z.to_nat (i + 1)) with (Z.to_nat i + 1)%nat by lia.
      rewrite <- drop_drop, Hdrop. reflexivity. }
    destruct (default (0, 0) (dict_get (QuizQuestion.category q) acc))
      as [correct total] eqn:Hold.
    rewrite (py_index_exact _ _ _ Hi Hlook). cbn [mbind result_bind].
    rewrite bool_decide_eq_true_2 by reflexivity.
    rewrite dict_set_set. apply IH; [lia | now rewrite Hnext |].
    apply dict_set_Forall; [| exact Hacc].
    assert (correct = total /\ 0 <= total) as [-> Htotal].
    { destruct (dict_get (QuizQuestion.category q) acc) as [[c t] |] eqn:Hget.
      - simpl in Hold. injection Hold as -> ->.
        apply dict_get_In in Hget. rewrite Forall_forall in Hacc.
        apply list_elem_of_In, Hacc in Hget. destruct Hget as [Hc Ht].
        simpl in *. lia.
      - simpl in Hold. injection Hold as <- <-. lia. }
    split; simpl; lia.
Qed.

Lemma weak_areas_of_all_correct perf :
  Forall all_correct perf -> weak_areas_of perf = [].
Proof.
  unfold weak_areas_of.
  induction 1 as [| [cat [correct total]] perf [Hc Ht] _ IH]; simpl in *;
    [reflexivity |].
  subst correct.
  assert (Qle_bool 60 (category_percentage (total, total)) = true) as ->.
  { apply Qle_bool_iff. unfold category_percentage. simpl.
    assert (~ inject_Z total == 0)%Q as Hnz.
    { intros Hz. assert (0 < inject_Z total)%Q
        by (rewrite <- (Zlt_Qlt 0); lia). lra. }
    assert (inject_Z total / inject_Z total == 1)%Q as ->
      by (unfold Qdiv; now apply Qmult_inv_r).
    lra. }
  exact IH.
Qed.

Lemma percentage_bounds (score total : Z) :
  0 <= score <= total -> 0 < total ->
  (0 <= inject_Z score / inject_Z total * 100
   /\ inject_Z score / inject_Z total * 100 <= 100)%Q.
Proof.
  intros Hscore Htotal.
  assert (0 < inject_Z total)%Q as Hq by (rewrite <- (Zlt_Qlt 0); lia).
  assert (0 <= inject_Z score / inject_Z total)%Q as Hlo.
  { apply Qle_shift_div_l; [exact Hq |].
    rewrite Qmult_0_l, <- (Zle_Qle 0). lia. }
  assert (inject_Z score / inject_Z total <= 1)%Q as Hhi.
  { apply Qle_shift_div_r; [exact Hq |].
    rewrite Qmult_1_l, <- Zle_Qle. lia. }
  split; lra.
Qed.

(** X22. The final result.  An answer brings a final result only when it
    completes the quiz.  The result then counts all the questions of the
    session, at least one, and as many correct answers as the score
    reported with the answer, between 0 and the number of questions; the
    percentage lies between 0 and 100; and for a quiz with every answer
    correct the percentage is 100, no weak area is listed and the
    recommendations are the two for an outstanding performance. *)
Theorem final_result_summary self session_id answer now f self' quiz_result :
  reachable self ->
  submit_answer self session_id answer now = (Ok (Response.Answer f), self') ->
  Response.final_result f = Some quiz_result ->
  Response.questions_completed f = Response.total_questions f
  /\ QuizResult.total_questions quiz_result = Response.total_questions f
  /\ QuizResult.correct_answers quiz_result = Response.current_score f
  /\ 1 <= QuizResult.total_questions quiz_result
  /\ 0 <= QuizResult.correct_answers quiz_result
       <= QuizResult.total_questions quiz_result
  /\ (0 <= QuizResult.score_percentage quiz_result
      /\ QuizResult.score_percentage quiz_result <= 100)%Q
  /\ (QuizResult.correct_answers quiz_result
      = QuizResult.total_questions quiz_result ->
      (QuizResult.score_percentage quiz_result == 100)%Q
      /\ QuizResult.weak_areas quiz_result = []
      /\ QuizResult.recommendations quiz_result
         = [Outstanding; TryHarderLevels]).
Proof.
  intros Hreach Hsubmit Hsome.
  assert (reachable self') as Hreach'.
  { replace self' with (snd (submit_answer self session_id answer now))
      by now rewrite Hsubmit.
    now apply reachable_submit. }
  destruct (submit_answer_accepted _ _ _ _ _ _ Hreach Hsubmit)
    as (s & question & Hget & Hs & Hopen & Hq & Hself' & _ & _ & _ & Escore
        & Edone & Etotal & Hfinal).
  destruct (Z.leb_spec (Z.of_nat (length (QuizSession.questions s)))
              (QuizSession.current_question s + 1)) as [Hlast | Hmore];
    [| congruence].
  destruct Hfinal as (r & Hr & Hresult).
  assert (r = quiz_result) as -> by congruence.
  set (s' := answered answer now question s) in *.
  assert (dict_get session_id (QuizManager.active_sessions self') = Some s')
    as Hget' by (rewrite Hself'; apply dict_get_set_eq).
  destruct (reachable_inv _ Hreach' _ _ Hget') as [_ (H0 & H1 & H2 & H3)].
  destruct (reachable_record_inv _ Hreach' _ _ Hget') as (Hcount & _ & _).
  destruct (answered_fields answer now question s)
    as (_ & _ & Eq & _ & _ & _ & Ec & _).
  fold s' in Eq, Ec.
  destruct (_generate_result_fields _ _ _ Hresult)
    as (end_time & perf & _ & Hperf & Hne & -> & -> & _ & -> & -> & _ & -> & _).
  rewrite Edone, Etotal, Escore, Eq.
  destruct Hs as (Hs0 & Hs1 & Hs2 & Hs3).
  assert (0 < Z.of_nat (length (QuizSession.questions s))) as Hpos by lia.
  rewrite Eq, Ec in *.
  split_and!; try lia.
  - apply percentage_bounds; lia.
  - apply percentage_bounds; lia.
  - intros Hperfect.
    assert (inject_Z (QuizSession.score s')
            / inject_Z (Z.of_nat (length (QuizSession.questions s))) * 100
            == 100)%Q as Hfull.
    { rewrite Hperfect.
      assert (~ inject_Z (Z.of_nat (length (QuizSession.questions s))) == 0)%Q
        as Hnz.
      { intros Hz.
        assert (0 < inject_Z (Z.of_nat (length (QuizSession.questions s))))%Q
          by (rewrite <- (Zlt_Qlt 0); lia).
        lra. }
      unfold Qdiv. rewrite Qmult_inv_r by exact Hnz. reflexivity. }
    assert (weak_areas_of perf = []) as Hweak.
    { apply weak_areas_of_all_correct.
      apply (category_performance_all_correct (QuizSession.questions s)
               (QuizSession.user_answers s') 0 [] perf);
        [lia | | apply Forall_nil_2 | exact Hperf].
      change (Z.to_nat 0) with 0%nat. rewrite drop_0.
      apply count_correct_all; [exact H3 | congruence]. }
    split_and!; [exact Hfull | exact Hweak |].
    rewrite Hweak. unfold _generate_recommendations.
    assert (Qle_bool 40
              (inject_Z (QuizSession.score s')
               / inject_Z (Z.of_nat (length (QuizSession.questions s))) * 100)
            = true) as -> by (apply Qle_bool_iff; lra).
    assert (Qle_bool 60
              (inject_Z (QuizSession.score s')
               / inject_Z (Z.of_nat (length (QuizSession.questions s))) * 100)
            = true) as -> by (apply Qle_bool_iff; lra).
    assert (Qle_bool 80
              (inject_Z (QuizSession.score s')
               / inject_Z (Z.of_nat (length (QuizSession.questions s))) * 100)
            = true) as -> by (apply Qle_bool_iff; lra).
    reflexivity.
Qed.

Lemma final_result_summary_witness :
  exists session self f self' quiz_result,
    create_weekly_quiz (QuizManager_init false true) 7 MIXED EASY 1
      (env_at 0 "a1b2c3d4") = Ok (session, self)
    /\ submit_answer self (QuizSession.session_id session) 1 4000000
       = (Ok (Response.Answer f), self')
    /\ Response.final_result f = Some quiz_result
    /\ QuizResult.correct_answers quiz_result
       = QuizResult.total_questions quiz_result
    /\ (QuizResult.score_percentage quiz_result == 100)%Q
    /\ QuizResult.weak_areas quiz_result = []
    /\ QuizResult.recommendations quiz_result
       = [Outstanding; TryHarderLevels].
Proof.
  assert (exists session self f self' quiz_result,
             create_weekly_quiz (QuizManager_init false true) 7 MIXED EASY 1
               (env_at 0 "a1b2c3d4") = Ok (session, self)
             /\ submit_answer self (QuizSession.session_id session) 1 4000000
                = (Ok (Response.Answer f), self')
             /\ Response.final_result f = Some quiz_result
             /\ QuizResult.correct_answers quiz_result
                = QuizResult.total_questions quiz_result)
    as (session & self & f & self' & quiz_result & Hcreate & Hsubmit & Hfinal
        & Hperfect)
    by (do 5 eexists; split_and!; reflexivity).
  assert (reachable self) as Hreach
    by (eapply reachable_create; [apply reachable_init | exact Hcreate]).
  destruct (final_result_summary _ _ _ _ _ _ _ Hreach Hsubmit Hfinal)
    as (_ & _ & _ & _ & _ & _ & Hall).
  destruct (Hall Hperfect) as (Hpct & Hweak & Hrec).
  exists session, self, f, self', quiz_result. now split_and!.
Defined.

End QuizExtras.

(** * The question pool and the bot's use of the quiz manager *)

Section PoolExtras.

Lemma question_in_In q l : question_in q l = true <-> In q l.
Proof.
  unfold question_in. rewrite existsb_exists. split.
  - intros (q' & Hin & Heq). apply bool_decide_eq_true_1 in Heq.
    now subst q'.
  - intros Hin. exists q. split; [exact Hin |].
    now apply bool_decide_eq_true_2.
Qed.

Lemma fold_filter_app (p : QuizQuestion.t -> bool) bank_lists :
  forall all_questions,
    fold_left
      (fun all_questions cat_questions =>
         all_questions ++ List.filter p cat_questions)
      bank_lists all_questions
    = all_questions ++ List.filter p (concat bank_lists).
Proof.
  induction bank_lists as [| cat_questions bank_lists IH];
    intros all_questions; simpl.
  - now rewrite app_nil_r.
  - now rewrite IH, List.filter_app, app_assoc.
Qed.

Lemma dict_get_values {K V : Type} `{EqDecision K} (k : K) (v : V) d :
  dict_get k d = Some v -> In v (dict_values d).
Proof.
  intros Hget. apply dict_get_In in Hget. unfold dict_values.
  apply in_map_iff. now exists (k, v).
Qed.

Lemma matching_questions_spec self category difficulty q :
  In q (matching_questions self category difficulty)
  <-> QuizQuestion.difficulty q = difficulty
      /\ if decide (category = MIXED) then in_bank self q
         else In q (default []
                      (dict_get category (QuizManager.question_bank self))).
Proof.
  unfold matching_questions, in_bank.
  destruct (decide (category = MIXED)) as [_ | _].
  - rewrite fold_filter_app. cbn [app].
    rewrite List.filter_In, in_concat.
    split.
    + intros [Hex Hd]. apply bool_decide_eq_true_1 in Hd. now split.
    + intros [Hd Hex]. split; [exact Hex |]. now apply bool_decide_eq_true_2.
  - rewrite List.filter_In. split.
    + intros [Hin Hd]. apply bool_decide_eq_true_1 in Hd. now split.
    + intros [Hd Hin]. split; [exact Hin |]. now apply bool_decide_eq_true_2.
Qed.

Lemma matching_questions_in_bank self category difficulty q :
  In q (matching_questions self category difficulty) -> in_bank self q.
Proof.
  intros Hin. apply matching_questions_spec in Hin as [_ Hin].
  destruct (decide (category = MIXED)) as [_ | _]; [exact Hin |].
  destruct (dict_get category (QuizManager.question_bank self))
    as [cat_questions |] eqn:Hget; cbn [from_option id] in Hin;
    [| destruct Hin].
  exists cat_questions. split; [| exact Hin].
  now apply (dict_get_values category).
Qed.

Lemma fill_up_cons cat_questions bank_lists all_questions :
  fill_up (cat_questions :: bank_lists) all_questions
  = fill_up bank_lists
      (all_questions
       ++ List.filter (fun q => negb (question_in q all_questions))
            cat_questions).
Proof. reflexivity. Qed.

Lemma fill_up_incl bank_lists : forall all_questions q,
  In q all_questions -> In q (fill_up bank_lists all_questions).
Proof.
  induction bank_lists as [| cat_questions bank_lists IH];
    intros all_questions q Hin; [exact Hin |].
  rewrite fill_up_cons. apply IH, in_or_app. now left.
Qed.

Lemma fill_up_all bank_lists : forall all_questions cat_questions q,
  In cat_questions bank_lists -> In q cat_questions ->
  In q (fill_up bank_lists all_questions).
Proof.
  induction bank_lists as [| l bank_lists IH];
    intros all_questions cat_questions q Hl Hq; [destruct Hl |].
  rewrite fill_up_cons. destruct Hl as [-> | Hl]; [| now apply (IH _ _ _ Hl)].
  apply fill_up_incl, in_or_app.
  destruct (question_in q all_questions) eqn:Hseen.
  - left. now apply question_in_In.
  - right. apply List.filter_In. split; [exact Hq |]. now rewrite Hseen.
Qed.

Lemma fill_up_only bank_lists : forall all_questions q,
  In q (fill_up bank_lists all_questions) ->
  In q all_questions
  \/ exists cat_questions, In cat_questions bank_lists /\ In q cat_questions.
Proof.
  induction bank_lists as [| l bank_lists IH];
    intros all_questions q Hin; [now left |].
  rewrite fill_up_cons in Hin.
  destruct (IH _ _ Hin) as [Hacc | (cat_questions & Hl & Hq)].
  - apply in_app_or in Hacc as [Hacc | Hnew]; [now left |].
    apply List.filter_In in Hnew as [Hq _].
    right. exists l. split; [now left | exact Hq].
  - right. exists cat_questions. split; [now right | exact Hq].
Qed.

Lemma _select_questions_pool self category difficulty count sample :
  _select_questions self category difficulty count sample
  = let pool := question_pool self category difficulty count in
    let k := Z.min count (Z.of_nat (length pool)) in
    if k <? 0 then Raise ValueError else Ok (sample pool (Z.to_nat k)).
Proof. reflexivity. Qed.

Lemma take_sample_contract :
  sample_contract (fun pool k => take k pool).
Proof.
  intros pool k Hk. split.
  - rewrite length_take. lia.
  - intros q Hin. now apply In_take in Hin.
Qed.

Lemma question_pool_filled self category difficulty count :
  Z.of_nat (length (matching_questions self category difficulty)) < count ->
  forall q,
    In q (question_pool self category difficulty count) <-> in_bank self q.
Proof.
  intros Hcount q. unfold question_pool. cbv zeta.
  destruct (Z.ltb_spec
              (Z.of_nat (length (matching_questions self category difficulty)))
              count); [| lia].
  split.
  - intros Hin. apply fill_up_only in Hin as [Hin | Hin]; [| exact Hin].
    now apply matching_questions_in_bank in Hin.
  - intros (cat_questions & Hl & Hq). now apply (fill_up_all _ _ _ _ Hl).
Qed.

Lemma _select_questions_draws self category difficulty count sample :
  0 <= count ->
  sample_contract sample ->
  exists questions,
    _select_questions self category difficulty count sample = Ok questions
    /\ Z.of_nat (length questions)
       = Z.min count
           (Z.of_nat (length (question_pool self category difficulty count)))
    /\ forall q,
         In q questions ->
         In q (question_pool self category difficulty count).
Proof.
  intros Hcount Hsample. rewrite _select_questions_pool. cbv zeta.
  set (pool := question_pool self category difficulty count).
  destruct (Z.ltb_spec (Z.min count (Z.of_nat (length pool))) 0); [lia |].
  eexists. split; [reflexivity |].
  destruct (Hsample pool (Z.to_nat (Z.min count (Z.of_nat (length pool)))))
    as [Hlen Hin]; [lia |].
  split; [rewrite Hlen; lia | exact Hin].
Qed.

(** X23. The questions a quiz is drawn from.  The questions matching a
    request have the requested difficulty and come from the bank, for a
    category other than MIXED from the list filed under it.  When there
    are at least [count] of them they are the pool.  When there are
    fewer, the pool is filled up from every list of the bank: it then
    holds exactly the questions of the bank, of every category and every
    difficulty, whatever category and difficulty were asked for.  A
    negative count raises [ValueError]; otherwise, with a sampler that
    returns as many elements of the population as asked, the selection is
    [min(count, len(pool))] questions of the pool. *)
Theorem select_questions_pool self category difficulty count :
  let matching := matching_questions self category difficulty in
  let pool := question_pool self category difficulty count in
  (forall q,
      In q matching ->
      QuizQuestion.difficulty q = difficulty
      /\ in_bank self q
      /\ (category <> MIXED ->
          In q (default []
                  (dict_get category (QuizManager.question_bank self)))))
  /\ (count <= Z.of_nat (length matching) -> pool = matching)
  /\ (Z.of_nat (length matching) < count ->
      forall q, In q pool <-> in_bank self q)
  /\ (forall sample,
        count < 0 ->
        _select_questions self category difficulty count sample
        = Raise ValueError)
  /\ (forall sample,
        0 <= count ->
        sample_contract sample ->
        exists questions,
          _select_questions self category difficulty count sample
          = Ok questions
          /\ Z.of_nat (length questions)
             = Z.min count (Z.of_nat (length pool))
          /\ forall q, In q questions -> In q pool).
Proof.
  intros matching pool. split_and!.
  - intros q Hin. split_and!.
    + now apply matching_questions_spec in Hin as [Hd _].
    + now apply matching_questions_in_bank in Hin.
    + intros Hcat. apply matching_questions_spec in Hin as [_ Hin].
      now rewrite decide_False in Hin.
  - intros Hcount. subst pool. unfold question_pool. fold matching.
    cbv zeta.
    destruct (Z.ltb_spec (Z.of_nat (length matching)) count); [lia |].
    reflexivity.
  - intros Hcount. now apply question_pool_filled.
  - intros sample Hcount. rewrite _select_questions_pool. cbv zeta.
    fold pool.
    destruct (Z.ltb_spec (Z.min count (Z.of_nat (length pool))) 0);
      [reflexivity | lia].
  - intros sample Hcount Hsample. now apply _select_questions_draws.
Qed.

Lemma select_questions_pool_witness :
  In ec_001
    (question_pool (QuizManager_init false true) QUANTITATIVE_APTITUDE HARD 5)
  /\ exists questions,
       _select_questions (QuizManager_init false true) QUANTITATIVE_APTITUDE
         HARD 5 (fun pool k => take k pool) = Ok questions
       /\ Z.of_nat (length questions)
          = Z.min 5
              (Z.of_nat
                 (length
                    (question_pool (QuizManager_init false true)
                       QUANTITATIVE_APTITUDE HARD 5))).
Proof.
  destruct (select_questions_pool (QuizManager_init false true)
              QUANTITATIVE_APTITUDE HARD 5)
    as (_ & _ & Hfill & _ & Hsample).
  split.
  - apply Hfill; [vm_compute; reflexivity |].
    exists [ec_001; ec_002]. split; [| now left].
    do 3 right. now left.
  - destruct (Hsample (fun pool k => take k pool)) as (questions & Hq & Hlen & _);
      [lia | apply take_sample_contract |].
    exists questions. now split.
Defined.

End PoolExtras.

Section BotExtras.

Lemma bank_pool_length self category difficulty count :
  QuizManager.question_bank self = _initialize_question_bank ->
  5 <= count ->
  length (question_pool self category difficulty count) = 9%nat.
Proof.
  intros Hbank Hcount. unfold question_pool. cbv zeta.
  assert (length (matching_questions self category difficulty) <= 4)%nat
    as Hfew.
  { unfold matching_questions. rewrite Hbank.
    destruct category, difficulty; vm_compute; lia. }
  destruct (Z.ltb_spec
              (Z.of_nat (length (matching_questions self category difficulty)))
              count); [| lia].
  unfold matching_questions. rewrite Hbank.
  destruct category, difficulty; vm_compute; reflexivity.
Qed.

Lemma create_weekly_quiz_questions self user_id category difficulty
    question_count env session self' :
  create_weekly_quiz self user_id category difficulty question_count env
  = Ok (session, self') ->
  _select_questions self category difficulty question_count (Env.sample env)
  = Ok (QuizSession.questions session).
Proof.
  unfold create_weekly_quiz.
  destruct (_select_questions _ _ _ _ _) as [questions |];
    [simpl | discriminate].
  now intros [= <- <-].
Qed.

Lemma dict_set_new {K V : Type} `{EqDecision K} (k : K) (v : V) d :
  dict_get k d = None -> dict_set k v d = d ++ [(k, v)].
Proof.
  induction d as [| [k' v'] d IH]; simpl; [reflexivity |].
  destruct (decide (k = k')) as [-> | Hne]; [discriminate |].
  intros Hget. now rewrite IH.
Qed.

Lemma dict_set_filter_length {K V : Type} `{EqDecision K} (p : V -> bool)
    (k : K) (v v' : V) d :
  dict_get k d = Some v -> p v' = p v ->
  length (List.filter p (dict_values (dict_set k v' d)))
  = length (List.filter p (dict_values d)).
Proof.
  intros Hget Hp. revert Hget.
  induction d as [| [k' v0] d IH]; simpl; [discriminate |].
  destruct (decide (k = k')) as [-> | Hne]; simpl.
  - intros [= ->]. unfold dict_values. simpl. rewrite Hp.
    destruct (p v); reflexivity.
  - intros Hget. specialize (IH Hget). unfold dict_values in *. simpl.
    destruct (p v0); simpl; now rewrite IH.
Qed.

Lemma dict_del_set {K V : Type} `{EqDecision K} (k : K) (v : V) d :
  dict_del k (dict_set k v d) = dict_del k d.
Proof.
  induction d as [| [k' v'] d IH]; simpl.
  - now rewrite decide_True.
  - destruct (decide (k = k')) as [-> | Hne]; simpl.
    + now rewrite decide_True.
    + now rewrite decide_False, IH.
Qed.

Lemma dict_del_filter_length {K V : Type} `{EqDecision K} (p : V -> bool)
    (k : K) (d : list (K * V)) :
  (length (List.filter p (dict_values (dict_del k d)))
   <= length (List.filter p (dict_values d)))%nat.
Proof.
  unfold dict_values.
  induction d as [| [k' v'] d IH]; simpl; [lia |].
  destruct (decide (k = k')) as [-> | Hne]; simpl;
    destruct (p v'); simpl; lia.
Qed.

Lemma dict_del_keys {K V : Type} `{EqDecision K} (k k' : K)
    (d : list (K * V)) :
  In k' (map fst (dict_del k d)) -> In k' (map fst d).
Proof.
  induction d as [| [k0 v0] d IH]; simpl; [tauto |].
  destruct (decide (k = k0)) as [-> | Hne]; simpl; tauto.
Qed.

Lemma dict_del_NoDup {K V : Type} `{EqDecision K} (k : K)
    (d : list (K * V)) :
  NoDup (map fst d) -> NoDup (map fst (dict_del k d)).
Proof.
  induction d as [| [k0 v0] d IH]; simpl; [trivial |].
  intros Hnodup. apply NoDup_cons in Hnodup as [Hnew Hnodup].
  destruct (decide (k = k0)) as [-> | Hne]; simpl; [now apply IH |].
  apply NoDup_cons. split; [| now apply IH].
  intros Hin. apply Hnew. apply list_elem_of_In.
  apply list_elem_of_In in Hin. now apply dict_del_keys in Hin.
Qed.

Lemma dict_values_get {K V : Type} `{EqDecision K} (v : V)
    (d : list (K * V)) :
  NoDup (map fst d) -> In v (dict_values d) ->
  exists k, dict_get k d = Some v.
Proof.
  intros Hnodup Hin. apply in_map_iff in Hin as ([k v'] & Hv & Hin).
  simpl in Hv. subst v'. exists k. now apply In_dict_get.
Qed.

Lemma bot_session_inv_bank self self' session_id s :
  QuizManager.question_bank self' = QuizManager.question_bank self ->
  bot_session_inv self session_id s -> bot_session_inv self' session_id s.
Proof.
  intros Hbank (Hid & Huser & Hinv & Hlen & Hq & Hopen).
  unfold bot_session_inv. split_and!; try assumption; try lia.
  intros q Hin. destruct (Hq q Hin) as (l & Hl & Hql).
  exists l. now rewrite Hbank.
Qed.

(** The session that the handlers find for a user is filed under its own
    id, and it is the only one of the user. *)
Lemma bot_session_of_user self user_id s rest :
  bot_inv self ->
  sessions_of_user user_id self = s :: rest ->
  rest = []
  /\ QuizSession.user_id s = user_id
  /\ dict_get (QuizSession.session_id s) (QuizManager.active_sessions self)
     = Some s
  /\ bot_session_inv self (QuizSession.session_id s) s.
Proof.
  intros (Hbank & Hkeys & Hsessions & Hone) Hfound.
  assert (In s (sessions_of_user user_id self)) as Hin
    by (rewrite Hfound; now left).
  unfold sessions_of_user in Hin. apply List.filter_In in Hin as [Hin Hu].
  apply Z.eqb_eq in Hu.
  destruct (dict_values_get _ _ Hkeys Hin) as (k & Hget).
  pose proof (Hsessions _ _ Hget) as Hs.
  assert (QuizSession.session_id s = k) as Hk by apply Hs.
  split_and!.
  - specialize (Hone user_id). rewrite Hfound in Hone. simpl in Hone.
    destruct rest; [reflexivity | simpl in Hone; lia].
  - exact Hu.
  - now rewrite Hk.
  - now rewrite Hk.
Qed.

Lemma sessions_of_user_store_new self session_id s user_id :
  dict_get session_id (QuizManager.active_sessions self) = None ->
  sessions_of_user user_id (store_session session_id s self)
  = sessions_of_user user_id self
    ++ (if QuizSession.user_id s =? user_id then [s] else []).
Proof.
  intros Hnew. unfold sessions_of_user, store_session. simpl.
  rewrite (dict_set_new _ _ _ Hnew). unfold dict_values.
  rewrite map_app, List.filter_app. reflexivity.
Qed.

(** [quiz_command] on a bot-driven manager. *)
Lemma bot_inv_quiz_command self user_id category difficulty question_count
    env :
  bot_inv self ->
  5 <= question_count <= 20 ->
  sample_contract (Env.sample env) ->
  bot_inv
    (snd (quiz_command self user_id category difficulty question_count env))
  /\ match
       quiz_command self user_id category difficulty question_count env
     with
     | (ShowCurrentQuestion session_id, self') =>
         self' = self
         /\ exists s,
              sessions_of_user user_id self = [s]
              /\ QuizSession.session_id s = session_id
     | (QuizStarted session, self') =>
         sessions_of_user user_id self = []
         /\ sessions_of_user user_id self' = [session]
         /\ Z.of_nat (length (QuizSession.questions session))
            = Z.min question_count 9
         /\ QuizSession.current_question session = 0
     | (QuizStartFailed _, _) => False
     end.
Proof.
  intros Hinv Hcount Hsample. unfold quiz_command.
  destruct (sessions_of_user user_id self) as [| s rest] eqn:Hfound.
  - destruct (create_weekly_quiz_returns self user_id category difficulty
                question_count env) as (session & self' & Hcreate); [lia |].
    rewrite Hcreate. cbn [fst snd].
    destruct (create_weekly_quiz_session _ _ _ _ _ _ _ _ Hcreate)
      as (Hself' & Hid & Huser & Hcur & Hscore & _ & Hanswers).
    pose proof (create_weekly_quiz_questions _ _ _ _ _ _ _ _ Hcreate)
      as Hselect.
    destruct Hinv as (Hbank & Hkeys & Hsessions & Hone).
    pose proof (question_pool_filled self category difficulty question_count)
      as Hfill.
    destruct (_select_questions_draws self category difficulty question_count
                (Env.sample env)) as (questions & Hq & Hlen & Hin);
      [lia | exact Hsample |].
    assert (questions = QuizSession.questions session) as -> by congruence.
    rewrite (bank_pool_length _ _ _ _ Hbank) in Hlen by lia.
    change (Z.of_nat 9) with 9 in Hlen.
    assert (dict_get (QuizSession.session_id session)
              (QuizManager.active_sessions self) = None) as Hnew.
    { destruct (dict_get (QuizSession.session_id session)
                  (QuizManager.active_sessions self)) as [s |] eqn:Hget;
        [| reflexivity].
      destruct (Hsessions _ _ Hget) as (_ & Hu & _).
      assert (In s (sessions_of_user user_id self)) as Hs.
      { unfold sessions_of_user. apply List.filter_In. split.
        - now apply (dict_get_values (QuizSession.session_id session)).
        - apply Z.eqb_eq. rewrite <- Hu, Hid. reflexivity. }
      rewrite Hfound in Hs. destruct Hs. }
    assert (bot_session_inv self' (QuizSession.session_id session) session)
      as Hsession.
    { refine (conj _ (conj _ (conj _ (conj _ (conj _ _))))).
      - reflexivity.
      - now rewrite Hid, Huser.
      - unfold session_inv. rewrite Hcur, Hscore, Hanswers, length_replicate.
        lia.
      - lia.
      - intros q Hq'. subst self'. unfold in_bank, store_session. simpl.
        apply Hin in Hq'.
        assert (Z.of_nat
                  (length (matching_questions self category difficulty))
                < question_count) as Hfew.
        { assert (length (matching_questions self category difficulty) <= 4)
            %nat; [| lia].
          unfold matching_questions. rewrite Hbank.
          destruct category, difficulty; vm_compute; lia. }
        now apply (Hfill Hfew).
      - rewrite Hcur. lia. }
    split; [| split_and!].
    + subst self'. split_and!.
      * exact Hbank.
      * now apply keys_unique_store.
      * intros session_id s Hget. unfold store_session in Hget.
        simpl in Hget.
        destruct (decide (QuizSession.session_id session = session_id))
          as [<- | Hne].
        -- rewrite dict_get_set_eq in Hget. injection Hget as <-.
           exact Hsession.
        -- rewrite dict_get_set_ne in Hget by exact Hne.
           apply (bot_session_inv_bank self); [reflexivity |].
           now apply Hsessions.
      * intros u. rewrite sessions_of_user_store_new by exact Hnew.
        rewrite length_app. rewrite Huser.
        destruct (Z.eqb_spec user_id u) as [<- | Hu].
        -- rewrite Hfound. simpl. lia.
        -- specialize (Hone u). simpl. lia.
    + reflexivity.
    + subst self'. rewrite sessions_of_user_store_new by exact Hnew.
      rewrite Hfound, Huser, Z.eqb_refl. reflexivity.
    + exact Hlen.
    + exact Hcur.
  - cbn [fst snd]. split; [exact Hinv |]. split; [reflexivity |].
    destruct (bot_session_of_user _ _ _ _ Hinv Hfound) as (-> & _).
    now exists s.
Qed.

(** [handle_quiz_answer] on a bot-driven manager: the answer is
    accepted whatever becomes of the replies, and with the replies
    delivered the state is again a bot-driven one. *)
Lemma bot_inv_handle_quiz_answer self user_id message_text now feedback_sent
    result_sent :
  bot_inv self ->
  answer_refused
    (fst (handle_quiz_answer self user_id message_text now feedback_sent
            result_sent))
  = false
  /\ (feedback_sent = true -> result_sent = true ->
      bot_inv
        (snd (handle_quiz_answer self user_id message_text now feedback_sent
                result_sent))).
Proof.
  intros Hinv. unfold handle_quiz_answer.
  destruct (sessions_of_user user_id self) as [| s rest] eqn:Hfound;
    [now split |].
  destruct (answer_index message_text) as [index |]; [| now split].
  destruct (bot_session_of_user _ _ _ _ Hinv Hfound)
    as (-> & Huser & Hget & Hs).
  destruct Hs as (_ & Hkey & Hbounds & Hlen & Hbank_q & Hopen).
  destruct (submit_answer_step self (QuizSession.session_id s) index now s
              Hget Hbounds Hopen)
    as (f & s' & Hsubmit & Hcur & Hscore & Hquestions & Hanswers & Hid
        & Huser' & Hdone).
  rewrite Hsubmit.
  split;
    [destruct feedback_sent, result_sent, (Response.quiz_completed f);
     reflexivity |].
  intros -> ->. cbn [negb].
  destruct Hinv as (Hbank & Hkeys & Hsessions & Hone).
  destruct Hbounds as (Hs0 & Hs1 & Hs2 & Hs3).
  destruct (Z.leb_spec (Z.of_nat (length (QuizSession.questions s)))
              (QuizSession.current_question s + 1)) as [Hlast | Hmore].
  - destruct Hdone as [-> _]. cbn [fst snd].
    unfold store_session. cbn [QuizManager.active_sessions
                                 set_active_sessions].
    unfold dict_mem. rewrite dict_get_set_eq. rewrite dict_del_set.
    split_and!.
    + exact Hbank.
    + unfold keys_unique. simpl. now apply dict_del_NoDup.
    + intros session_id s0 Hget0. simpl in Hget0.
      destruct (decide (QuizSession.session_id s = session_id))
        as [<- | Hne].
      * now rewrite dict_get_del_eq in Hget0.
      * rewrite dict_get_del_ne in Hget0 by exact Hne.
        apply (bot_session_inv_bank self); [reflexivity |].
        now apply Hsessions.
    + intros u. unfold sessions_of_user. simpl.
      etransitivity; [apply dict_del_filter_length | apply Hone].
  - destruct Hdone as [-> _]. cbn [fst snd].
    split_and!.
    + exact Hbank.
    + now apply keys_unique_store.
    + intros session_id s0 Hget0. unfold store_session in Hget0.
      simpl in Hget0.
      destruct (decide (QuizSession.session_id s = session_id))
        as [<- | Hne].
      * rewrite dict_get_set_eq in Hget0. injection Hget0 as <-.
        refine (conj _ (conj _ (conj _ (conj _ (conj _ _))))).
        -- exact Hid.
        -- now rewrite Huser'.
        -- unfold session_inv. rewrite Hcur, Hquestions, Hanswers. lia.
        -- rewrite Hquestions. lia.
        -- rewrite Hquestions. intros q Hq.
           destruct (Hbank_q q Hq) as (l & Hl & Hql). now exists l.
        -- rewrite Hcur, Hquestions. lia.
      * rewrite dict_get_set_ne in Hget0 by exact Hne.
        apply (bot_session_inv_bank self); [reflexivity |].
        now apply Hsessions.
    + intros u. unfold sessions_of_user, store_session. simpl.
      rewrite (dict_set_filter_length _ _ s s' _ Hget)
        by now rewrite Huser'.
      apply Hone.
Qed.

(** The parsing of the question count: it gives a count of 5 to 20, or
    raises [ValueError] at a digit argument that [int] does not take. *)
Lemma parse_question_count_from (digit_args : list (option Z)) :
  forall question_count,
    5 <= question_count <= 20 ->
    match
      fold_left
        (fun question_count arg =>
           _ ← question_count;
           match arg with
           | Some value => Ok (Z.max 5 (Z.min 20 value))
           | None => Raise ValueError
           end)
        digit_args (Ok question_count)
    with
    | Ok parsed => 5 <= parsed <= 20 /\ ~ In None digit_args
    | Raise e => e = ValueError /\ In None digit_args
    end.
Proof.
  induction digit_args as [| [value |] digit_args IH];
    intros question_count Hcount; cbn [fold_left mbind result_bind].
  - split; [exact Hcount | intros []].
  - specialize (IH (Z.max 5 (Z.min 20 value)) ltac:(lia)).
    destruct (fold_left _ digit_args _) as [parsed | e].
    + destruct IH as [Hparsed Hnone]. split; [exact Hparsed |].
      intros [Hhead | Htail]; [discriminate | now apply Hnone].
    + destruct IH as [He Hnone]. split; [exact He | now right].
  - assert (fold_left
              (fun (question_count : result Z) (arg : option Z) =>
                 _ ← question_count;
                 match arg with
                 | Some value => Ok (Z.max 5 (Z.min 20 value))
                 | None => Raise ValueError
                 end)
              digit_args (Raise ValueError) = Raise ValueError) as ->
      by (clear; induction digit_args as [| arg digit_args IH];
          [reflexivity | exact IH]).
    split; [reflexivity | now left].
Qed.

Lemma parse_question_count_spec digit_args :
  match parse_question_count digit_args with
  | Ok question_count => 5 <= question_count <= 20 /\ ~ In None digit_args
  | Raise e => e = ValueError /\ In None digit_args
  end.
Proof. apply parse_question_count_from. lia. Qed.

(** [quiz_command] with its arguments on a bot-driven manager. *)
Lemma bot_inv_quiz_command_handler self user_id category difficulty
    digit_args env :
  bot_inv self ->
  sample_contract (Env.sample env) ->
  bot_inv
    (snd (quiz_command_handler self user_id category difficulty digit_args
            env))
  /\ match
       quiz_command_handler self user_id category difficulty digit_args env
     with
     | (Raise e, self') =>
         e = ValueError /\ self' = self /\ In None digit_args
         /\ sessions_of_user user_id self = []
     | (Ok (ShowCurrentQuestion session_id), self') =>
         self' = self
         /\ exists s,
              sessions_of_user user_id self = [s]
              /\ QuizSession.session_id s = session_id
     | (Ok (QuizStarted session), self') =>
         sessions_of_user user_id self = []
         /\ sessions_of_user user_id self' = [session]
         /\ (exists question_count,
               parse_question_count digit_args = Ok question_count
               /\ 5 <= question_count <= 20
               /\ Z.of_nat (length (QuizSession.questions session))
                  = Z.min question_count 9)
         /\ QuizSession.current_question session = 0
     | (Ok (QuizStartFailed _), _) => False
     end.
Proof.
  intros Hinv Hsample. unfold quiz_command_handler.
  destruct (sessions_of_user user_id self) as [| s rest] eqn:Hfound.
  - pose proof (parse_question_count_spec digit_args) as Hparse.
    destruct (parse_question_count digit_args) as [question_count | e].
    + destruct Hparse as [Hcount _].
      destruct (bot_inv_quiz_command self user_id category difficulty
                  question_count env Hinv Hcount Hsample) as [Hinv' Hreply].
      destruct (quiz_command self user_id category difficulty question_count
                  env) as [reply self'].
      cbn [fst snd] in *. split; [exact Hinv' |].
      destruct reply as [session_id | session | e].
      * destruct Hreply as (_ & s & Hs & _). rewrite Hfound in Hs.
        discriminate.
      * destruct Hreply as (Hnone & Hone & Hlen & Hcur).
        split_and!; try reflexivity; try assumption.
        now exists question_count.
      * exact Hreply.
    + destruct Hparse as [-> Hnone]. cbn [fst snd]. now split_and!.
  - cbn [fst snd]. split; [exact Hinv |]. split; [reflexivity |].
    destruct (bot_session_of_user _ _ _ _ Hinv Hfound) as (-> & _).
    now exists s.
Qed.

Lemma bot_reachable_inv self : bot_reachable self -> bot_inv self.
Proof.
  induction 1 as [db | self user_id category difficulty digit_args env
                          _ IH Hsample
                 | self user_id message_text now _ IH].
  - split_and!; [reflexivity | apply NoDup_nil_2 | discriminate |].
    intros u. simpl. lia.
  - now apply bot_inv_quiz_command_handler.
  - now apply bot_inv_handle_quiz_answer.
Qed.

(** X24. The quiz manager as the bot drives it.  In every state that
    [quiz_command] and [handle_quiz_answer] lead to while the replies to
    the answers are delivered, a user has at most one active session;
    every active session carries its user in its id, has five to nine
    questions, all of the bank, and a question still open.  In such a
    state [quiz_command], for a user with a session, changes nothing and
    shows that session; for a user without one it either raises
    [ValueError] from [int(arg)], at an argument that is a digit but not
    a decimal number, before anything is created, or starts a session of
    [min(count, 9)] questions for the parsed count of 5 to 20, which is
    then the only session of the user: the built-in bank has nine
    questions, and fewer than five of any category and difficulty, so the
    default count of 10 gives a quiz of 9.  Creating the session never
    fails.  [handle_quiz_answer], whatever becomes of its replies, never
    gets an answer turned down by [submit_answer] nor an exception from
    it. *)
Theorem bot_one_open_session_per_user self :
  bot_reachable self ->
  (forall user_id, (length (sessions_of_user user_id self) <= 1)%nat)
  /\ (forall session_id s,
        dict_get session_id (QuizManager.active_sessions self) = Some s ->
        SessionId.user session_id = QuizSession.user_id s
        /\ (5 <= length (QuizSession.questions s) <= 9)%nat
        /\ 0 <= QuizSession.current_question s
           < Z.of_nat (length (QuizSession.questions s))
        /\ forall q, In q (QuizSession.questions s) -> in_bank self q)
  /\ (forall user_id category difficulty digit_args env,
        sample_contract (Env.sample env) ->
        match
          quiz_command_handler self user_id category difficulty digit_args
            env
        with
        | (Raise e, self') =>
            e = ValueError /\ self' = self /\ In None digit_args
            /\ sessions_of_user user_id self = []
        | (Ok (ShowCurrentQuestion session_id), self') =>
            self' = self
            /\ exists s,
                 sessions_of_user user_id self = [s]
                 /\ QuizSession.session_id s = session_id
        | (Ok (QuizStarted session), self') =>
            sessions_of_user user_id self = []
            /\ sessions_of_user user_id self' = [session]
            /\ (exists question_count,
                  parse_question_count digit_args = Ok question_count
                  /\ 5 <= question_count <= 20
                  /\ Z.of_nat (length (QuizSession.questions session))
                     = Z.min question_count 9)
            /\ QuizSession.current_question session = 0
        | (Ok (QuizStartFailed _), _) => False
        end)
  /\ (forall user_id message_text now feedback_sent result_sent,
        answer_refused
          (fst (handle_quiz_answer self user_id message_text now
                  feedback_sent result_sent))
        = false).
Proof.
  intros Hreach. pose proof (bot_reachable_inv _ Hreach) as Hinv.
  split_and!.
  - apply Hinv.
  - intros session_id s Hget.
    destruct Hinv as (_ & _ & Hsessions & _).
    destruct (Hsessions _ _ Hget) as (_ & Hu & (H0 & H1 & H2 & H3) & Hlen
                                      & Hq & Hopen).
    split_and!; try assumption; lia.
  - intros user_id category difficulty digit_args env Hsample.
    now apply bot_inv_quiz_command_handler.
  - intros user_id message_text now feedback_sent result_sent.
    now apply bot_inv_handle_quiz_answer.
Qed.

Lemma bot_one_open_session_per_user_witness :
  let self :=
    snd (quiz_command_handler (QuizManager_init false true) 7 MIXED MEDIUM
           [] (env_at 0 "a1b2c3d4")) in
  bot_reachable self
  /\ (forall user_id, (length (sessions_of_user user_id self) <= 1)%nat)
  /\ (exists s,
        sessions_of_user 7 self = [s]
        /\ length (QuizSession.questions s) = 9%nat)
  /\ forall user_id message_text now feedback_sent result_sent,
       answer_refused
         (fst (handle_quiz_answer self user_id message_text now
                 feedback_sent result_sent))
       = false.
Proof.
  intros self.
  assert (bot_reachable self) as Hreach.
  { apply bot_quiz_command; [apply bot_start | apply take_sample_contract]. }
  destruct (bot_one_open_session_per_user self Hreach)
    as (Hone & _ & _ & Hanswer).
  split_and!; [exact Hreach | exact Hone | | exact Hanswer].
  eexists. split; reflexivity.
Defined.

End BotExtras.
